(** * Demand collection pipeline: collectors, classification, scoring and
    the ingestion coordinator.

    Shallow embedding of
      backend/app/collectors/reddit_collector.py
      backend/app/collectors/github_collector.py
      backend/app/collectors/twitter_collector.py
      backend/app/api/collect.py
      backend/app/database.py (session configuration)
      backend/app/models/__init__.py (Demand columns)

    Conventions.
    - Python [str] is [string]; [str.lower] and [str.capitalize] act on the
      ASCII letters (the keyword tables are ASCII).
    - Python [int] is [Z]; Python [float] is IEEE binary64, modelled by the
      Standard Library's [spec_float] at precision 53 and emax 1024.
    - [Optional[str]] is [option string]; truthiness is written out.
    - [list(set(xs))] is [elements (list_to_set xs)] over [gset string]:
      a duplicate-free list in an order the program does not control.
    - The remote services (PRAW, PyGithub, tweepy, VADER) and the host's
      clock conversion are fields of a [World] record; every request to a
      platform is logged.
    - Objects handed out by the client libraries have the shape the
      libraries give them: [issue.reactions] of PyGithub and the entries of
      [tweet.entities["mentions"]] of tweepy are dictionaries, and
      [tweet.public_metrics] and [tweet.entities] are [None] when absent.
      Reading an attribute from a dictionary raises [AttributeError], which
      the [try] of the enclosing parser turns into [None].
    - A [datetime] is kept as POSIX seconds. *)

From Stdlib Require Import ZArith String Ascii List Bool.
From Stdlib Require Import Floats.SpecFloat.
From stdpp Require Import base tactics option list gmap strings pretty.

Local Open Scope Z_scope.

(** ** Python strings *)

Module Py.

Definition lower_ascii (c : ascii) : ascii :=
  let n := N_of_ascii c in
  if ((65 <=? n) && (n <=? 90))%N then ascii_of_N (n + 32) else c.

Definition upper_ascii (c : ascii) : ascii :=
  let n := N_of_ascii c in
  if ((97 <=? n) && (n <=? 122))%N then ascii_of_N (n - 32) else c.

(** [s.lower()] *)
Fixpoint lower (s : string) : string :=
  match s with
  | EmptyString => EmptyString
  | String c s' => String (lower_ascii c) (lower s')
  end.

(** [s.capitalize()] *)
Definition capitalize (s : string) : string :=
  match s with
  | EmptyString => EmptyString
  | String c s' => String (upper_ascii c) (lower s')
  end.

(** [kw in text] on strings: substring test. *)
Fixpoint contains (kw text : string) : bool :=
  String.prefix kw text ||
  match text with
  | EmptyString => false
  | String _ text' => contains kw text'
  end.

(** [any(kw in text for kw in kws)] *)
Definition any_in (kws : list string) (text : string) : bool :=
  existsb (fun kw => contains kw text) kws.

(** Truthiness of an [Optional[str]]: [None] and [""] are falsy. *)
Definition truthy (o : option string) : bool :=
  match o with
  | Some (String _ _) => true
  | _ => false
  end.

End Py.

(** ** Exceptions and results *)

Inductive PyExn :=
| TypeError (msg : string)
| ValueError (msg : string)
| OverflowError (msg : string)
| AttributeError (msg : string)
| MultipleResultsFound.

Inductive result (A : Type) :=
| Ok (a : A)
| Raise (e : PyExn).
Arguments Ok {A} a.
Arguments Raise {A} e.

Definition rbind {A B} (r : result A) (k : A -> result B) : result B :=
  match r with
  | Ok a => k a
  | Raise e => Raise e
  end.

Notation "'do' x <- r ; k" := (rbind r (fun x => k))
  (at level 10, x name, r at level 100, k at level 200).

(** [d.name] on a [dict], for a name that is not one of the methods of
    [dict] (the program reads [total_count] and [username]): a dictionary
    has keys, not attributes, so the read raises [AttributeError] whatever
    the dictionary holds. *)
Definition dict_getattr {V A} (d : gmap string V) (name : string) : result A :=
  Raise (AttributeError ("'dict' object has no attribute '" +:+ name +:+ "'")).

(** [try: ... except Exception: return None] around an optional result. *)
Definition catch_none {A} (r : result (option A)) : option A :=
  match r with
  | Ok o => o
  | Raise _ => None
  end.

(** ** Python floats (IEEE binary64) *)

Module PyFloat.

Definition prec : Z := 53.
Definition emax : Z := 1024.

Definition t := spec_float.

(** Conversion of an [int] operand in mixed arithmetic: correctly rounded,
    [OverflowError] when the integer is too large for a double. *)
Definition of_int (n : Z) : result t :=
  match binary_normalize prec emax n 0 false with
  | S754_infinity _ => Raise (OverflowError "int too large to convert to float")
  | f => Ok f
  end.

Definition mul (x y : t) : t := SFmul prec emax x y.
Definition add (x y : t) : t := SFadd prec emax x y.
Definition abs (x : t) : t := SFabs x.
Definition neg (x : t) : t := SFopp x.
Definition leb (x y : t) : bool := SFleb x y.

(** [x * n] and [x + n] with a float on the left and an int on the right. *)
Definition mul_int (x : t) (n : Z) : result t :=
  do y <- of_int n; Ok (mul x y).
Definition add_int (x : t) (n : Z) : result t :=
  do y <- of_int n; Ok (add x y).

(** [int(x)]: truncation toward zero. *)
Definition to_int (x : t) : result Z :=
  match x with
  | S754_zero _ => Ok 0
  | S754_finite s m e =>
      let mag := if 0 <=? e then Z.shiftl (Zpos m) e
                 else Z.shiftr (Zpos m) (- e) in
      Ok (if s then - mag else mag)
  | S754_infinity _ => Raise (OverflowError "cannot convert float infinity to integer")
  | S754_nan => Raise (ValueError "cannot convert float NaN to integer")
  end.

(** [round(x)] with one argument: nearest integer, ties to even. *)
Definition round (x : t) : result Z :=
  match x with
  | S754_zero _ => Ok 0
  | S754_finite s m e =>
      let mag :=
        if 0 <=? e then Z.shiftl (Zpos m) e
        else
          let d := Z.shiftl 1 (- e) in
          let q := Zpos m / d in
          let r := Zpos m mod d in
          match 2 * r ?= d with
          | Lt => q
          | Gt => q + 1
          | Eq => if Z.even q then q else q + 1
          end in
      Ok (if s then - mag else mag)
  | S754_infinity _ => Raise (OverflowError "cannot convert float infinity to integer")
  | S754_nan => Raise (ValueError "cannot convert float NaN to integer")
  end.

(** Literals of the sources. *)
Definition f0_05 : t := S754_finite false 7205759403792794 (-57).
Definition f0_5 : t := S754_finite false 4503599627370496 (-53).
(** 0.9, the example ratio of the specification. *)
Definition f0_9 : t := S754_finite false 8106479329266893 (-53).

(** [0 <= x] *)
Definition nonneg (x : t) : bool := leb (S754_zero false) x.

End PyFloat.

(** ** The normalized record

    The dictionary every collector returns per item and that the coordinator
    unpacks into the [Demand] row constructor.  Keys a collector does not set
    are [None]. *)

Module Demand.

Record t := mk {
  content : string;
  title : option string;
  platform : string;
  source_url : string;
  author : option string;
  author_url : option string;
  timestamp : Z;
  upvotes : Z;
  comments : Z;
  shares : Z;
  interaction_score : Z;
  sentiment : string;
  sentiment_score : PyFloat.t;
  tags : list string;
  product_mentioned : list string;
  category : string;
  subreddit : option string;
  repository : option string;
  issue_number : option Z;
  language : string
}.

End Demand.

(** ** Objects of the client libraries *)

Module praw.

Record Submission := {
  selftext : string;
  title : string;
  upvote_ratio : PyFloat.t;
  score : Z;
  num_comments : Z;
  permalink : string;
  author : option string;      (* [None] for a deleted account *)
  created_utc : Z;
  subreddit : string           (* [str(submission.subreddit)] *)
}.

End praw.

Module github.

Record Label := { name : string }.

Record NamedUser := { login : string; user_html_url : string }.

Record Repository := { owner_login : string; repo_name : string }.

Record Issue := {
  body : option string;
  title : string;
  labels : list Label;
  reactions_total_count : Z;   (* [issue.reactions["total_count"]] *)
  comments : Z;
  repository : option Repository;
  html_url : string;
  user : option NamedUser;
  created_at : Z;
  number : Z
}.

(** [issue.reactions]: PyGithub returns the reaction summary as a [dict]. *)
Definition reactions (issue : Issue) : gmap string Z :=
  {[ "total_count" := reactions_total_count issue ]}.

End github.

Module tweepy.

(** An entry of [tweet.entities["mentions"]]: a [dict] (keys "username",
    "id", ...), as the API delivers it. *)
Definition Mention : Type := gmap string string.

(** [public_metrics] and [entities] are [None] when the field was not
    requested or not delivered. *)
Record Tweet := {
  text : string;
  id : Z;
  created_at : Z;
  public_metrics : option (gmap string Z);
  entities : option (gmap string (list Mention))
}.

End tweepy.

(** ** The outside world

    Every request a collector sends, and what the remote side yields.  A
    listing that fails part-way yields the items delivered before the
    failure: the collectors keep what they had appended (the [except] of each
    fetch helper falls through to [return results]).

    - [RedditSearch sub q tf n] is [reddit.subreddit(sub).search(q,
      time_filter=tf, limit=n)], sorted by relevance (PRAW's default, spelled
      out in [_search_reddit]); [RedditNew sub n] is
      [reddit.subreddit(sub).new(limit=n)].  Building the subreddit handle
      sends nothing.
    - [GitHubGetIssues repo state] is [get_repo(repo)] followed by
      [get_issues(state=state)]; the slice [[:limit]] is taken by the
      collector.
    - [TwitterGetUser u] yields the user id, or nothing when the lookup
      fails or finds no user. *)

Inductive ApiCall :=
| RedditSearch (subreddit query time_filter : string) (limit : Z)
| RedditNew (subreddit : string) (limit : Z)
| GitHubGetIssues (repo state : string)
| GitHubSearchIssues (search_query : string)
| TwitterGetUser (username : string)
| TwitterGetUsersTweets (user_id : Z) (max_results : Z)
| TwitterSearchRecent (query : string) (max_results : Z).

Record World := {
  reddit_search : string -> string -> string -> Z -> list praw.Submission;
  reddit_new : string -> Z -> list praw.Submission;
  github_get_issues : string -> string -> list github.Issue;
  github_search_issues : string -> list github.Issue;
  twitter_get_user : string -> option Z;
  twitter_get_users_tweets : Z -> Z -> list tweepy.Tweet;
  twitter_search_recent : string -> Z -> list tweepy.Tweet;
  (** [SentimentIntensityAnalyzer().polarity_scores(text)["compound"]] *)
  vader_compound : string -> PyFloat.t;
  (** [datetime.fromtimestamp(t)]: local time of the host, an exception for
      a timestamp outside the range the platform supports. *)
  fromtimestamp : Z -> result Z
}.

(** A computation that talks to the network: the calls made, in order, and
    its value. *)
Definition Net (A : Type) : Type := (list ApiCall * A)%type.

Definition net_ret {A} (a : A) : Net A := ([], a).

Definition net_call {A} (c : ApiCall) (a : A) : Net A := ([c], a).

Definition net_bind {A B} (m : Net A) (k : A -> Net B) : Net B :=
  let '(c1, a) := m in
  let '(c2, b) := k a in
  (c1 ++ c2, b).

(** [for x in xs: results.extend(body(x))] *)
Fixpoint net_extend_each {S A} (xs : list S) (body : S -> Net (list A))
  : Net (list A) :=
  match xs with
  | [] => net_ret []
  | x :: xs' =>
      net_bind (body x) (fun r1 =>
      net_bind (net_extend_each xs' body) (fun r2 =>
      net_ret (r1 ++ r2)))
  end.

(** [for item in items: data = parse(item); if data: results.append(data)] *)
Definition collect_parsed {I} (parse : I -> option Demand.t) (items : list I)
  : list Demand.t :=
  omap parse items.

(** [list(set(xs))] *)
Definition list_set (xs : list string) : list string :=
  elements (list_to_set xs : gset string).

(** [for tag, keywords in feature_tags.items(): if any(kw in text for kw in
    keywords): tags.append(tag)]: the tags the loop appends, in table order. *)
Definition matched_tags (table : list (string * list string)) (text : string)
  : list string :=
  map fst (filter (fun entry => Py.any_in (snd entry) text = true) table).

(** The sentiment mapping shared (verbatim) by the three collectors. *)
Definition analyze_sentiment (compound : PyFloat.t) : string * PyFloat.t :=
  if PyFloat.leb PyFloat.f0_05 compound then ("positive", compound)
  else if PyFloat.leb compound (PyFloat.neg PyFloat.f0_05)
       then ("negative", PyFloat.abs compound)
       else ("neutral", PyFloat.f0_5).

(** The [{"name": ..., "url": ...}] dictionaries of [get_subreddit_list] and
    [get_popular_repos]. *)
Record SourceInfo := {
  info_name : string;
  info_url : string
}.

(** ** reddit_collector.py *)

Module RedditCollector.

Definition subreddits : list string :=
  [ "webdev"; "webdevtools"; "SaaS";
    "UIUC"; "technology"; "Productivity";
    "selfhosted"; "sysadmin"; "Programming";
    "devops"; "learnprogramming"; "coding";
    "software"; "softwaredevelopment"; "startups";
    "entrepreneur"; "entrepreneurship";
    "ProductHunt"; "SideProject"; "IndieHackers";
    "apps"; "ios"; "android"; "webapp";
    "webdesign"; "design"; "UXDesign";
    "privacy"; "security"; "privacytools" ].

Definition request_keywords : list string :=
  [ "feature request"; "missing"; "need"; "should have"; "wish";
    "want"; "why no"; "does anyone have"; "looking for"; "suggestion";
    "implement"; "add feature"; "support"; "integrate" ].

Definition complaint_keywords : list string :=
  [ "hate"; "frustrating"; "annoying"; "useless"; "broken";
    "sucks"; "terrible"; "worst"; "slow"; "lag";
    "bug"; "crash"; "error"; "fail"; "problem" ].

Definition bug_keywords : list string :=
  [ "bug"; "crash"; "error"; "doesn't work"; "not working"; "glitch" ].

Definition praise_keywords : list string :=
  [ "love"; "great"; "amazing"; "awesome"; "perfect"; "best"; "thanks" ].

Definition discussion_keywords : list string :=
  [ "how"; "what"; "why"; "anyone"; "experience"; "opinion" ].

(** [f"{title} {content}".lower()] *)
Definition full_text_lower (content title : string) : string :=
  Py.lower (title +:+ " " +:+ content).

Definition _categorize_post (content title : string) : option string :=
  let full_text := full_text_lower content title in
  if Py.any_in request_keywords full_text then Some "feature-request"
  else if Py.any_in complaint_keywords full_text then Some "complaint"
  else if Py.any_in bug_keywords full_text then Some "bug-report"
  else if Py.any_in praise_keywords full_text then Some "praise"
  else if Py.any_in discussion_keywords full_text then Some "discussion"
  else None.

Definition _analyze_sentiment (w : World) (text : string) : string * PyFloat.t :=
  analyze_sentiment (vader_compound w text).

Definition products : list string :=
  [ "notion"; "figma"; "github"; "gitlab"; "linear"; "jira"; "trello";
    "slack"; "discord"; "zoom"; "teams"; "gmail"; "outlook";
    "vscode"; "intellij"; "vim"; "emacs"; "xcode";
    "chrome"; "firefox"; "safari"; "edge";
    "aws"; "azure"; "gcp"; "heroku"; "vercel"; "netlify";
    "docker"; "kubernetes"; "terraform"; "ansible";
    "react"; "vue"; "angular"; "svelte"; "nextjs"; "nuxt";
    "python"; "javascript"; "typescript"; "java"; "go"; "rust";
    "mongodb"; "postgresql"; "mysql"; "redis"; "elasticsearch" ].

Definition _extract_product_mentions (text : string) : list string :=
  let text := Py.lower text in
  let found :=
    map Py.capitalize (filter (fun product => Py.contains product text = true) products) in
  list_set found.

Definition feature_tags : list (string * list string) :=
  [ ("offline", ["offline"; "offline mode"; "no internet"; "without connection"]);
    ("sync", ["sync"; "synchronize"; "syncing"]);
    ("export", ["export"; "download"; "backup"]);
    ("import", ["import"; "migrate"; "transfer"]);
    ("api", ["api"; "webhook"; "integration"]);
    ("mobile", ["mobile"; "ios"; "android"; "app"]);
    ("collaboration", ["collaborate"; "team"; "share"; "real-time"]);
    ("pricing", ["pricing"; "cost"; "expensive"; "cheap"; "free"]);
    ("performance", ["slow"; "lag"; "performance"; "speed"]);
    ("ui", ["ui"; "design"; "interface"; "dark mode"; "theme"]);
    ("security", ["security"; "privacy"; "encryption"; "2fa"]) ].

Definition _extract_tags (content title category : string) : list string :=
  let tags := [category] in
  let full_text := full_text_lower content title in
  let tags := tags ++ matched_tags feature_tags full_text in
  list_set tags.

(** [upvote_ratio * score + num_comments * 2], then [int(...)]. *)
Definition interaction_score_of (s : praw.Submission) : result Z :=
  do prod <- PyFloat.mul_int (praw.upvote_ratio s) (praw.score s);
  do total <- PyFloat.add_int prod (praw.num_comments s * 2);
  PyFloat.to_int total.

(** [submission.selftext if submission.selftext else submission.title] *)
Definition content_of (submission : praw.Submission) : string :=
  match praw.selftext submission with
  | String _ _ as body => body
  | EmptyString => praw.title submission
  end.

(** The [try] block of [_parse_submission]. *)
Definition parse_submission_body (w : World) (submission : praw.Submission)
    (subreddit : option string) : result (option Demand.t) :=
    let content := content_of submission in
    match _categorize_post content (praw.title submission) with
    | None => Ok None
    | Some category =>
        let full_text := praw.title submission +:+ " " +:+ content in
        let '(sentiment, sentiment_score) := _analyze_sentiment w full_text in
        let products := _extract_product_mentions full_text in
        let tags := _extract_tags content (praw.title submission) category in
        do interaction_score <- interaction_score_of submission;
        do timestamp <- fromtimestamp w (praw.created_utc submission);
        Ok (Some {|
          Demand.content := content;
          Demand.title := Some (praw.title submission);
          Demand.platform := "reddit";
          Demand.source_url := "https://reddit.com" +:+ praw.permalink submission;
          Demand.author :=
            Some (match praw.author submission with
                  | Some a => a
                  | None => "[deleted]"
                  end);
          Demand.author_url :=
            match praw.author submission with
            | Some a => Some ("https://reddit.com/user/" +:+ a)
            | None => None
            end;
          Demand.timestamp := timestamp;
          Demand.upvotes := praw.score submission;
          Demand.comments := praw.num_comments submission;
          Demand.shares := 0;
          Demand.interaction_score := interaction_score;
          Demand.sentiment := sentiment;
          Demand.sentiment_score := sentiment_score;
          Demand.tags := tags;
          Demand.product_mentioned := products;
          Demand.category := category;
          Demand.subreddit :=
            Some (if Py.truthy subreddit then default "" subreddit
                  else praw.subreddit submission);
          Demand.repository := None;
          Demand.issue_number := None;
          Demand.language := "en"
        |})
    end.

(** [except Exception: return None] *)
Definition _parse_submission (w : World) (submission : praw.Submission)
    (subreddit : option string) : option Demand.t :=
  catch_none (parse_submission_body w submission subreddit).

Definition _collect_from_subreddit (w : World) (subreddit : string)
    (query : option string) (time_filter : string) (limit : Z)
  : Net (list Demand.t) :=
  if Py.truthy query then
    let q := default "" query in
    net_call (RedditSearch subreddit q time_filter limit)
      (collect_parsed (fun s => _parse_submission w s (Some subreddit))
         (reddit_search w subreddit q time_filter limit))
  else
    net_call (RedditNew subreddit limit)
      (collect_parsed (fun s => _parse_submission w s (Some subreddit))
         (reddit_new w subreddit limit)).

Definition _search_reddit (w : World) (query time_filter : string) (limit : Z)
  : Net (list Demand.t) :=
  net_call (RedditSearch "all" query time_filter limit)
    (collect_parsed (fun s => _parse_submission w s None)
       (reddit_search w "all" query time_filter limit)).

(** [limit // 5] is floor division, which [Z.div] is for a positive divisor. *)
Definition collect (w : World) (query subreddit : option string)
    (time_filter : string) (limit : Z) : Net (list Demand.t) :=
  if Py.truthy subreddit then
    _collect_from_subreddit w (default "" subreddit) query time_filter limit
  else if Py.truthy query then
    _search_reddit w (default "" query) time_filter limit
  else
    net_extend_each (take 5 subreddits) (fun sub =>
      _collect_from_subreddit w sub query time_filter (limit / 5)).

Definition get_subreddit_list : list SourceInfo :=
  map (fun sub => {| info_name := sub; info_url := "https://reddit.com/r/" +:+ sub |})
    subreddits.

End RedditCollector.

(** The double-quote character, for the query strings sent to the search
    endpoints. *)
Definition dq : string := String (Ascii false true false false false true false false) EmptyString.

(** ** github_collector.py *)

Module GitHubCollector.

Definition popular_repos : list string :=
  [ "facebook/react";
    "vuejs/core";
    "angular/angular";
    "microsoft/vscode";
    "notionhq/notion-sdk-js";
    "vercel/next.js";
    "tailwindlabs/tailwindcss";
    "prisma/prisma";
    "typeorm/typeorm";
    "facebook/jest";
    "airbnb/javascript";
    "github/docs";
    "hashicorp/terraform";
    "elastic/elasticsearch" ].

Definition full_text_lower (content title : string) : string :=
  Py.lower (title +:+ " " +:+ content).

Definition label_is_feature (label_name : string) : bool :=
  Py.contains "enhancement" label_name || Py.contains "feature" label_name
  || Py.contains "request" label_name.

Definition label_is_bug (label_name : string) : bool :=
  Py.contains "bug" label_name || Py.contains "error" label_name
  || Py.contains "crash" label_name.

(** The [for label in labels] loop: the first label that hits returns. *)
Fixpoint categorize_by_labels (labels : list github.Label) : option string :=
  match labels with
  | [] => None
  | label :: rest =>
      let label_name := Py.lower (github.name label) in
      if label_is_feature label_name then Some "feature-request"
      else if label_is_bug label_name then Some "bug-report"
      else categorize_by_labels rest
  end.

Definition feature_keywords : list string :=
  [ "add feature"; "feature request"; "would be nice"; "support for"; "implement" ].

Definition bug_keywords : list string :=
  [ "bug"; "issue"; "problem"; "doesn't work"; "not working"; "broken" ].

Definition categorize_by_text (full_text : string) : option string :=
  if Py.any_in feature_keywords full_text then Some "feature-request"
  else if Py.any_in bug_keywords full_text then Some "bug-report"
  else None.

Definition _categorize_issue (content title : string) (labels : list github.Label)
  : option string :=
  let full_text := full_text_lower content title in
  match categorize_by_labels labels with
  | Some category => Some category
  | None => categorize_by_text full_text
  end.

Definition _analyze_sentiment (w : World) (text : string) : string * PyFloat.t :=
  analyze_sentiment (vader_compound w text).

Definition _extract_labels (labels : list github.Label) : list string :=
  map github.name labels.

Definition feature_tags : list (string * list string) :=
  [ ("documentation", ["docs"; "documentation"; "readme"; "tutorial"]);
    ("performance", ["slow"; "performance"; "optimize"; "speed"; "lag"]);
    ("ui", ["ui"; "design"; "interface"; "css"; "style"]);
    ("security", ["security"; "vulnerability"; "cve"; "exploit"]);
    ("compatibility", ["compatible"; "version"; "browser"; "platform"]);
    ("testing", ["test"; "unit test"; "integration"; "e2e"]) ].

Definition _extract_tags (content title category : string) : list string :=
  let tags := [category] in
  let full_text := full_text_lower content title in
  let tags := tags ++ matched_tags feature_tags full_text in
  list_set tags.

(** [issue.body if issue.body else ""] *)
Definition content_of (issue : github.Issue) : string :=
  if Py.truthy (github.body issue) then default "" (github.body issue) else "".

(** The [try] block of [_parse_issue].  [issue.reactions] is a [dict], so
    [issue.reactions.total_count] raises once the issue has a category. *)
Definition parse_issue_body (w : World) (issue : github.Issue)
    (repo_name : option string) : result (option Demand.t) :=
  let content := content_of issue in
  let category := _categorize_issue content (github.title issue) (github.labels issue) in
  match category with
  | Some category =>
      if bool_decide (category ∈ ["feature-request"; "bug-report"]) then
        let full_text := github.title issue +:+ " " +:+ content in
        let '(sentiment, sentiment_score) := _analyze_sentiment w full_text in
        let tags := _extract_labels (github.labels issue)
                    ++ _extract_tags content (github.title issue) category in
        do total_count <- dict_getattr (github.reactions issue) "total_count";
        let interaction_score := total_count + github.comments issue * 2 in
        let repo_name :=
          match repo_name, github.repository issue with
          | None, Some r => Some (github.owner_login r +:+ "/" +:+ github.repo_name r)
          | _, _ => repo_name
          end in
        do upvotes <- dict_getattr (github.reactions issue) "total_count";
        Ok (Some {|
          Demand.content := content;
          Demand.title := Some (github.title issue);
          Demand.platform := "github";
          Demand.source_url := github.html_url issue;
          Demand.author := github.login <$> github.user issue;
          Demand.author_url := github.user_html_url <$> github.user issue;
          Demand.timestamp := github.created_at issue;
          Demand.upvotes := upvotes;
          Demand.comments := github.comments issue;
          Demand.shares := 0;
          Demand.interaction_score := interaction_score;
          Demand.sentiment := sentiment;
          Demand.sentiment_score := sentiment_score;
          Demand.tags := tags;
          Demand.product_mentioned :=
            if Py.truthy repo_name then [default "" repo_name] else [];
          Demand.category := category;
          Demand.subreddit := None;
          Demand.repository := repo_name;
          Demand.issue_number := Some (github.number issue);
          Demand.language := "en"
        |})
      else Ok None
  | None => Ok None
  end.

(** [except Exception: return None] *)
Definition _parse_issue (w : World) (issue : github.Issue)
    (repo_name : option string) : option Demand.t :=
  catch_none (parse_issue_body w issue repo_name).

(** [repo.get_issues(state=state)[:limit]]: the slice stops after [limit]
    items and yields nothing for a non-positive [limit]. *)
Definition _collect_from_repo (w : World) (repo_name state : string) (limit : Z)
  : Net (list Demand.t) :=
  net_call (GitHubGetIssues repo_name state)
    (collect_parsed (fun i => _parse_issue w i (Some repo_name))
       (take (Z.to_nat limit) (github_get_issues w repo_name state))).

Definition search_query_of (query state : string) : string :=
  let search_query :=
    query +:+ " label:" +:+ dq +:+ "enhancement" +:+ dq
          +:+ " OR label:" +:+ dq +:+ "feature request" +:+ dq
          +:+ " OR label:" +:+ dq +:+ "bug" +:+ dq in
  if String.eqb state "open" then search_query +:+ " state:open" else search_query.

Definition _search_github (w : World) (query state : string) (limit : Z)
  : Net (list Demand.t) :=
  let search_query := search_query_of query state in
  net_call (GitHubSearchIssues search_query)
    (collect_parsed (fun i => _parse_issue w i None)
       (take (Z.to_nat limit) (github_search_issues w search_query))).

Definition collect (w : World) (query repo : option string) (state : string)
    (limit : Z) : Net (list Demand.t) :=
  if Py.truthy repo then
    _collect_from_repo w (default "" repo) state limit
  else if Py.truthy query then
    _search_github w (default "" query) state limit
  else
    net_extend_each (take 5 popular_repos) (fun repository =>
      _collect_from_repo w repository state (limit / 5)).

Definition get_popular_repos : list SourceInfo :=
  map (fun repo => {| info_name := repo; info_url := "https://github.com/" +:+ repo |})
    popular_repos.

End GitHubCollector.

(** ** config.py: the settings the pipeline branches on *)

Record Settings := {
  twitter_bearer_token : string
}.

(** ** twitter_collector.py *)

Module TwitterCollector.

(** [self.client] is [None] when no bearer token is configured. *)
Record t := {
  client : option World;
  sentiment_analyzer : string -> PyFloat.t
}.

Definition __init__ (w : World) (settings : Settings) : t :=
  {| client := if Py.truthy (Some (twitter_bearer_token settings)) then Some w else None;
     sentiment_analyzer := vader_compound w |}.

Definition is_configured (self : t) : bool :=
  match client self with
  | Some _ => true
  | None => false
  end.

Definition request_keywords : list string :=
  [ "feature request"; "missing"; "need"; "should have"; "wish";
    "want"; "why no"; "please add"; "implement"; "support" ].

Definition complaint_keywords : list string :=
  [ "hate"; "frustrating"; "annoying"; "useless"; "broken";
    "sucks"; "terrible"; "worst"; "slow"; "lag" ].

Definition discussion_keywords : list string :=
  [ "how"; "what"; "why"; "anyone"; "experience"; "opinion";
    "thoughts"; "feedback"; "ideas" ].

Definition _categorize_tweet (content : string) : option string :=
  let content_lower := Py.lower content in
  if Py.any_in request_keywords content_lower then Some "feature-request"
  else if Py.any_in complaint_keywords content_lower then Some "complaint"
  else if Py.any_in discussion_keywords content_lower then Some "discussion"
  else None.

Definition _analyze_sentiment (self : t) (text : string) : string * PyFloat.t :=
  analyze_sentiment (sentiment_analyzer self text).

Definition product_accounts : list string :=
  [ "github"; "notion"; "figma"; "vercel"; "netlify"; "slack";
    "discord"; "zoom"; "awscloud"; "googlecloud"; "docker";
    "kubernetesio"; "gitlab"; "realtwitter"; "x" ].

Definition product_list : list string :=
  [ "notion"; "figma"; "github"; "gitlab"; "slack"; "discord"; "zoom";
    "aws"; "azure"; "gcp"; "heroku"; "vercel"; "netlify";
    "docker"; "kubernetes"; "react"; "vue"; "angular"; "nextjs" ].

(** The loop over [entities["mentions"]]: each entry is a [dict], and the
    loop reads [mention.username] from it. *)
Fixpoint mention_products (mentions : list tweepy.Mention) (products : list string)
  : result (list string) :=
  match mentions with
  | [] => Ok products
  | mention :: rest =>
      do username <- dict_getattr mention "username";
      mention_products rest
        (if bool_decide (Py.lower username ∈ product_accounts)
         then products ++ [Py.capitalize ("@" +:+ username)]
         else products)
  end.

Definition _extract_product_mentions
    (entities : option (gmap string (list tweepy.Mention))) (content : string)
  : result (list string) :=
  let mentions := default [] (entities ≫= (fun d => d !! "mentions")) in
  do products <- mention_products mentions [];
  let content_lower := Py.lower content in
  Ok (fold_left (fun products product =>
        if Py.contains product content_lower
           && negb (bool_decide (Py.capitalize product ∈ products))
        then products ++ [Py.capitalize product]
        else products) product_list products).

Definition feature_tags : list (string * list string) :=
  [ ("mobile", ["mobile"; "ios"; "android"; "app"]);
    ("api", ["api"; "integration"; "webhook"]);
    ("ui", ["ui"; "design"; "dark mode"; "theme"]);
    ("pricing", ["pricing"; "cost"; "expensive"; "price"]);
    ("support", ["support"; "help"; "customer service"]);
    ("privacy", ["privacy"; "data"; "security"]) ].

Definition _extract_tags (content category : string) : list string :=
  let tags := [category] in
  let content_lower := Py.lower content in
  let tags := tags ++ matched_tags feature_tags content_lower in
  list_set tags.

(** [metrics.get(key, 0)] *)
Definition metric (metrics : gmap string Z) (key : string) : Z :=
  default 0 (metrics !! key).

(** The [try] block of [_parse_tweet].  [metrics.get] needs
    [tweet.public_metrics] to be a [dict]; on [None] it raises. *)
Definition parse_tweet_body (self : t) (tweet : tweepy.Tweet)
    (username : option string) : result (option Demand.t) :=
  let content := tweepy.text tweet in
  match _categorize_tweet content with
  | None => Ok None
  | Some category =>
      let '(sentiment, sentiment_score) := _analyze_sentiment self content in
      let tags := _extract_tags content category in
      do products <- _extract_product_mentions (tweepy.entities tweet) content;
      do metrics <-
        match tweepy.public_metrics tweet with
        | Some metrics => Ok metrics
        | None => Raise (AttributeError "'NoneType' object has no attribute 'get'")
        end;
      let interaction_score :=
        metric metrics "like_count"
        + metric metrics "reply_count" * 2
        + metric metrics "retweet_count" * 3
        + metric metrics "quote_count" * 2 in
      let author := username in
      let author_url :=
        if Py.truthy author then Some ("https://twitter.com/" +:+ default "" author)
        else None in
      Ok (Some {|
        Demand.content := content;
        Demand.title := None;
        Demand.platform := "twitter";
        Demand.source_url := "https://twitter.com/i/web/status/" +:+ pretty (tweepy.id tweet);
        Demand.author := author;
        Demand.author_url := author_url;
        Demand.timestamp := tweepy.created_at tweet;
        Demand.upvotes := metric metrics "like_count";
        Demand.comments := metric metrics "reply_count";
        Demand.shares := metric metrics "retweet_count" + metric metrics "quote_count";
        Demand.interaction_score := interaction_score;
        Demand.sentiment := sentiment;
        Demand.sentiment_score := sentiment_score;
        Demand.tags := tags;
        Demand.product_mentioned := products;
        Demand.category := category;
        Demand.subreddit := None;
        Demand.repository := None;
        Demand.issue_number := None;
        Demand.language := "en"
      |})
  end.

(** [except Exception: return None] *)
Definition _parse_tweet (self : t) (tweet : tweepy.Tweet)
    (username : option string) : option Demand.t :=
  catch_none (parse_tweet_body self tweet username).

(** [get_user] then [get_users_tweets]; a lookup that fails or finds nobody
    ends the helper with no tweets requested. *)
Definition _collect_from_user (self : t) (w : World) (username : string) (count : Z)
  : Net (list Demand.t) :=
  net_bind (net_call (TwitterGetUser username) (twitter_get_user w username))
    (fun user =>
       match user with
       | None => net_ret []
       | Some user_id =>
           let max_results := Z.min count 100 in
           net_call (TwitterGetUsersTweets user_id max_results)
             (collect_parsed (fun tw => _parse_tweet self tw (Some username))
                (twitter_get_users_tweets w user_id max_results))
       end).

Definition enhanced_query_of (query : string) : string :=
  query +:+ " (" +:+ dq +:+ "feature request" +:+ dq
        +:+ " OR " +:+ dq +:+ "missing feature" +:+ dq
        +:+ " OR " +:+ dq +:+ "needs" +:+ dq
        +:+ " OR " +:+ dq +:+ "should have" +:+ dq
        +:+ " OR " +:+ dq +:+ "want" +:+ dq +:+ ") -is:retweet".

Definition _search_twitter (self : t) (w : World) (query : string) (count : Z)
  : Net (list Demand.t) :=
  let enhanced_query := enhanced_query_of query in
  let max_results := Z.min count 100 in
  net_call (TwitterSearchRecent enhanced_query max_results)
    (collect_parsed (fun tw => _parse_tweet self tw None)
       (twitter_search_recent w enhanced_query max_results)).

Definition collect (self : t) (query user : option string) (count : Z)
  : Net (list Demand.t) :=
  match client self with
  | None => net_ret []
  | Some w =>
      if Py.truthy user then _collect_from_user self w (default "" user) count
      else if Py.truthy query then _search_twitter self w (default "" query) count
      else net_ret []
  end.

End TwitterCollector.

(** ** database.py and models: the session and the demands table

    [async_sessionmaker(..., autoflush=False)]: objects passed to [add] stay
    pending until [commit]; a [select] sees the table only.  The
    [source_url] column is declared [Column(Text, nullable=False)], with no
    uniqueness constraint, so [commit] appends every pending row. *)

Module AsyncSession.

Record t := {
  table : list Demand.t;     (* rows of [demands] *)
  pending : list Demand.t    (* [session.new] *)
}.

(** [db.execute(select(Demand).where(Demand.source_url == url))] *)
Definition execute_select_by_source_url (db : t) (url : string) : list Demand.t :=
  filter (fun d => Demand.source_url d = url) (table db).

Definition scalar_one_or_none (rows : list Demand.t) : result (option Demand.t) :=
  match rows with
  | [] => Ok None
  | [row] => Ok (Some row)
  | _ => Raise MultipleResultsFound
  end.

Definition add (db : t) (d : Demand.t) : t :=
  {| table := table db; pending := pending db ++ [d] |}.

Definition commit (db : t) : t :=
  {| table := table db ++ pending db; pending := [] |}.

Definition rollback (db : t) : t :=
  {| table := table db; pending := [] |}.

End AsyncSession.

(** ** schemas.py *)

Inductive PlatformEnum := reddit | github_ | twitter | all.

Definition PlatformEnum_value (p : PlatformEnum) : string :=
  match p with
  | reddit => "reddit"
  | github_ => "github"
  | twitter => "twitter"
  | all => "all"
  end.

Inductive TimeFilterEnum := hour | day | week | month | year.

Definition TimeFilterEnum_value (t : TimeFilterEnum) : string :=
  match t with
  | hour => "hour"
  | day => "day"
  | week => "week"
  | month => "month"
  | year => "year"
  end.

Record CollectRequest := {
  req_platform : PlatformEnum;
  req_query : option string;
  req_subreddit : option string;
  req_repo : option string;
  req_user : option string;
  req_time_filter : TimeFilterEnum;
  req_limit : Z
}.

Record CollectResponse := {
  success : bool;
  message : string;
  collected_count : Z;
  resp_platform : PlatformEnum
}.

Record HTTPException := {
  status_code : Z;
  detail : string
}.

(** ** Keyword-argument calls

    [f(k1=v1, ..., kn=vn)] on a function with no catch-all keyword
    parameter: the first keyword, in call order, that is not a parameter
    name raises [TypeError] before the body runs (message as CPython 3.10
    and later print it). *)

Inductive PyVal :=
| VNone
| VStr (s : string)
| VInt (n : Z).

Definition of_opt_str (o : option string) : PyVal :=
  match o with
  | Some s => VStr s
  | None => VNone
  end.

Definition to_opt_str (v : option PyVal) : option string :=
  match v with
  | Some (VStr s) => Some s
  | _ => None
  end.

Definition to_str (dflt : string) (v : option PyVal) : string :=
  match v with
  | Some (VStr s) => s
  | _ => dflt
  end.

Definition to_int (dflt : Z) (v : option PyVal) : Z :=
  match v with
  | Some (VInt n) => n
  | _ => dflt
  end.

Definition bind_keywords (qualname : string) (params : list string)
    (kwargs : list (string * PyVal)) : result (gmap string PyVal) :=
  match List.find (fun kv => negb (bool_decide (fst kv ∈ params))) kwargs with
  | Some (k, _) =>
      Raise (TypeError (qualname +:+ "() got an unexpected keyword argument '" +:+ k +:+ "'"))
  | None => Ok (list_to_map kwargs)
  end.

Definition str_exn (e : PyExn) : string :=
  match e with
  | TypeError msg | ValueError msg | OverflowError msg | AttributeError msg => msg
  | MultipleResultsFound => "Multiple rows were found when one or none was required"
  end.

(** ** api/collect.py *)

Module collect_api.

Inductive Collector :=
| Reddit (w : World)
| GitHub (w : World)
| Twitter (self : TwitterCollector.t).

(** [collector.collect(query=..., subreddit=..., ...)], dispatched on the
    collector's class, with each class's own signature and defaults. *)
Definition call_collect (collector : Collector) (kwargs : list (string * PyVal))
  : result (Net (list Demand.t)) :=
  match collector with
  | Reddit w =>
      do a <- bind_keywords "RedditCollector.collect"
                ["query"; "subreddit"; "time_filter"; "limit"] kwargs;
      Ok (RedditCollector.collect w (to_opt_str (a !! "query"))
            (to_opt_str (a !! "subreddit")) (to_str "month" (a !! "time_filter"))
            (to_int 50 (a !! "limit")))
  | GitHub w =>
      do a <- bind_keywords "GitHubCollector.collect"
                ["query"; "repo"; "state"; "limit"] kwargs;
      Ok (GitHubCollector.collect w (to_opt_str (a !! "query"))
            (to_opt_str (a !! "repo")) (to_str "open" (a !! "state"))
            (to_int 50 (a !! "limit")))
  | Twitter self =>
      do a <- bind_keywords "TwitterCollector.collect"
                ["query"; "user"; "count"] kwargs;
      Ok (TwitterCollector.collect self (to_opt_str (a !! "query"))
            (to_opt_str (a !! "user")) (to_int 50 (a !! "count")))
  end.

(** Lines 76-88: the loop over [collected_data]. *)
Fixpoint persist_loop (db : AsyncSession.t) (collected_data : list Demand.t)
    (saved_count : Z) : result (AsyncSession.t * Z) :=
  match collected_data with
  | [] => Ok (db, saved_count)
  | data :: rest =>
      do existing <- AsyncSession.scalar_one_or_none
           (AsyncSession.execute_select_by_source_url db (Demand.source_url data));
      match existing with
      | Some _ => persist_loop db rest saved_count
      | None => persist_loop (AsyncSession.add db data) rest (saved_count + 1)
      end
  end.

(** Lines 76-90: the loop, then [await db.commit()]. *)
Definition persist (db : AsyncSession.t) (collected_data : list Demand.t)
  : result (AsyncSession.t * Z) :=
  do r <- persist_loop db collected_data 0;
  Ok (AsyncSession.commit (fst r), snd r).

Record Outcome := {
  calls : list ApiCall;
  db_after : AsyncSession.t;
  reply : HTTPException + CollectResponse
}.

Definition collect_data (w : World) (settings : Settings)
    (request : CollectRequest) (db : AsyncSession.t) : Outcome :=
  let collector :=
    match req_platform request with
    | reddit => Some (Reddit w)
    | github_ => Some (GitHub w)
    | twitter => Some (Twitter (TwitterCollector.__init__ w settings))
    | all => None
    end in
  match collector with
  | None =>
      {| calls := []; db_after := db;
         reply := inl {| status_code := 400; detail := "不支持的平台" |} |}
  | Some collector =>
      let unconfigured :=
        match collector with
        | Twitter self => negb (TwitterCollector.is_configured self)
        | _ => false
        end in
      if unconfigured then
        {| calls := []; db_after := db;
           reply := inl {| status_code := 400;
                           detail := "Twitter API未配置，请在.env文件中设置Twitter API密钥" |} |}
      else
        let failed (cs : list ApiCall) (e : PyExn) :=
          {| calls := cs; db_after := AsyncSession.rollback db;
             reply := inl {| status_code := 500;
                             detail := "数据收集失败: " +:+ str_exn e |} |} in
        match call_collect collector
                [ ("query", of_opt_str (req_query request));
                  ("subreddit", of_opt_str (req_subreddit request));
                  ("repo", of_opt_str (req_repo request));
                  ("user", of_opt_str (req_user request));
                  ("time_filter", VStr (TimeFilterEnum_value (req_time_filter request)));
                  ("limit", VInt (req_limit request)) ] with
        | Raise e => failed [] e
        | Ok (cs, collected_data) =>
            match persist db collected_data with
            | Raise e => failed cs e
            | Ok (db', saved_count) =>
                {| calls := cs; db_after := db';
                   reply := inr {|
                     success := true;
                     message := "成功从 " +:+ PlatformEnum_value (req_platform request)
                                +:+ " 收集 " +:+ pretty saved_count +:+ " 条数据";
                     collected_count := saved_count;
                     resp_platform := req_platform request |} |}
            end
        end
  end.

(** [CollectRequest(...)] built inside an endpoint: pydantic checks
    [limit: int = Field(default=50, ge=1, le=200)] and raises
    [ValidationError] outside the range; the other fields are unconstrained. *)
Inductive validated (A : Type) :=
| Valid (a : A)
| ValidationError (field : string).
Arguments Valid {A} a.
Arguments ValidationError {A} field.

Definition new_CollectRequest (platform : PlatformEnum)
    (query subreddit repo user : option string) (time_filter : TimeFilterEnum)
    (limit : Z) : validated CollectRequest :=
  if (1 <=? limit) && (limit <=? 200) then
    Valid {| req_platform := platform; req_query := query;
             req_subreddit := subreddit; req_repo := repo; req_user := user;
             req_time_filter := time_filter; req_limit := limit |}
  else ValidationError "limit".

Definition then_collect (w : World) (settings : Settings) (db : AsyncSession.t)
    (request : validated CollectRequest) : validated Outcome :=
  match request with
  | Valid request => Valid (collect_data w settings request db)
  | ValidationError field => ValidationError field
  end.

(** The convenience endpoints; fields an endpoint does not pass take the
    defaults of [CollectRequest] ([None], and [month] for the time filter). *)
Definition collect_from_reddit (w : World) (settings : Settings)
    (query subreddit : option string) (time_filter : TimeFilterEnum) (limit : Z)
    (db : AsyncSession.t) : validated Outcome :=
  then_collect w settings db
    (new_CollectRequest reddit query subreddit None None time_filter limit).

Definition collect_from_github (w : World) (settings : Settings)
    (query repo : option string) (limit : Z) (db : AsyncSession.t)
  : validated Outcome :=
  then_collect w settings db
    (new_CollectRequest github_ query None repo None month limit).

Definition collect_from_twitter (w : World) (settings : Settings)
    (query user : option string) (limit : Z) (db : AsyncSession.t)
  : validated Outcome :=
  then_collect w settings db
    (new_CollectRequest twitter query None None user month limit).

End collect_api.

(** * Vocabulary of the statements *)

(** A label decides when its lowercased name holds one of the six words. *)
Definition label_hits (l : github.Label) : bool :=
  let n := Py.lower (github.name l) in
  GitHubCollector.label_is_feature n || GitHubCollector.label_is_bug n.

(** ** A sample world

    One post in r/webdev, one issue in facebook/react, one tweet by @notion;
    every other listing is empty and the sentiment analyzer is neutral. *)

Definition sample_submission : praw.Submission :=
  {| praw.selftext := "The export is slow and keeps failing";
     praw.title := "Sync problem";
     praw.upvote_ratio := PyFloat.f0_9;
     praw.score := 100;
     praw.num_comments := 10;
     praw.permalink := "/r/webdev/comments/abc123/sync_problem/";
     praw.author := Some "alice";
     praw.created_utc := 1700000000;
     praw.subreddit := "webdev" |}.

Definition sample_issue : github.Issue :=
  {| github.body := None;
     github.title := "Docs are broken";
     github.labels := [ {| github.name := "documentation" |} ];
     github.reactions_total_count := 3;
     github.comments := 2;
     github.repository := None;
     github.html_url := "https://github.com/facebook/react/issues/1";
     github.user := Some {| github.login := "bob";
                            github.user_html_url := "https://github.com/bob" |};
     github.created_at := 1700000000;
     github.number := 1 |}.

Definition sample_tweet : tweepy.Tweet :=
  {| tweepy.text := "We need offline mode in the mobile app";
     tweepy.id := 42;
     tweepy.created_at := 1700000000;
     tweepy.public_metrics := Some {[ "like_count" := 5; "reply_count" := 1 ]};
     tweepy.entities := None |}.

Definition sample_world : World :=
  {| reddit_search := fun _ _ _ _ => [];
     reddit_new := fun sub _ => if String.eqb sub "webdev" then [sample_submission] else [];
     github_get_issues := fun repo _ =>
       if String.eqb repo "facebook/react" then [sample_issue] else [];
     github_search_issues := fun _ => [];
     twitter_get_user := fun u => if String.eqb u "notion" then Some 7 else None;
     twitter_get_users_tweets := fun _ _ => [sample_tweet];
     twitter_search_recent := fun _ _ => [];
     vader_compound := fun _ => S754_zero false;
     fromtimestamp := fun t => Ok t |}.

(** The entries the mention loop of [_extract_product_mentions] runs over:
    none when [tweet.entities] is [None], has no ["mentions"] key, or lists
    no mention. *)
Definition tweet_mentions (tw : tweepy.Tweet) : list tweepy.Mention :=
  default [] (tweepy.entities tw ≫= (fun d => d !! "mentions")).

(** ** The persist loop, read off the table

    A collected record is new when the table has no row with its
    [source_url]; the lookup is ambiguous when the table has several. *)

Definition is_new (db : AsyncSession.t) (d : Demand.t) : bool :=
  match AsyncSession.execute_select_by_source_url db (Demand.source_url d) with
  | [] => true
  | _ => false
  end.

Definition ambiguous (db : AsyncSession.t) (d : Demand.t) : bool :=
  match AsyncSession.execute_select_by_source_url db (Demand.source_url d) with
  | _ :: _ :: _ => true
  | _ => false
  end.

Definition urls (rows : list Demand.t) : list string := map Demand.source_url rows.

Definition empty_db : AsyncSession.t :=
  {| AsyncSession.table := []; AsyncSession.pending := [] |}.

(** ** The interaction score in the specification's words

    [round(upvote_ratio * score) + num_comments * 2]: the product rounded to
    the nearest integer, then the integer sum. *)

Definition spec_reddit_interaction_score (s : praw.Submission) : result Z :=
  do prod <- PyFloat.mul_int (praw.upvote_ratio s) (praw.score s);
  do rounded <- PyFloat.round prod;
  Ok (rounded + praw.num_comments s * 2).

(** The sample post with score 3 and no comments: 0.9 * 3 is the double
    nearest to 2.7. *)
Definition low_score_submission : praw.Submission :=
  {| praw.selftext := praw.selftext sample_submission;
     praw.title := praw.title sample_submission;
     praw.upvote_ratio := PyFloat.f0_9;
     praw.score := 3;
     praw.num_comments := 0;
     praw.permalink := praw.permalink sample_submission;
     praw.author := praw.author sample_submission;
     praw.created_utc := praw.created_utc sample_submission;
     praw.subreddit := praw.subreddit sample_submission |}.

(** A float that is not below zero: NaN, a zero of either sign, or a
    positive finite or infinite value. *)
Definition not_negative (x : PyFloat.t) : Prop :=
  match x with
  | S754_finite true _ _ | S754_infinity true => False
  | _ => True
  end.

(** ** The number of items a request asks for *)

Definition requested (c : ApiCall) : Z :=
  match c with
  | RedditSearch _ _ _ limit | RedditNew _ limit => limit
  | TwitterGetUsersTweets _ max_results | TwitterSearchRecent _ max_results => max_results
  | _ => 0
  end.

Definition total_requested (cs : list ApiCall) : Z :=
  foldr (fun c acc => requested c + acc) 0 cs.

(** * Properties *)

(** ** Keyword tests *)

Lemma any_in_true kws text kw :
  In kw kws -> Py.contains kw text = true -> Py.any_in kws text = true.
Proof.
  intros Hin Hc. apply existsb_exists. exists kw. split; assumption.
Qed.

Lemma any_in_false kws text kw :
  Py.any_in kws text = false -> In kw kws -> Py.contains kw text = false.
Proof.
  intros Hnone Hin. destruct (Py.contains kw text) eqn:Hc; [|reflexivity].
  rewrite (any_in_true kws text kw Hin Hc) in Hnone. discriminate.
Qed.

Lemma any_in_inv kws text :
  Py.any_in kws text = true -> exists kw, In kw kws /\ Py.contains kw text = true.
Proof. intros H. apply existsb_exists in H. exact H. Qed.

Lemma any_in_app kws1 kws2 text :
  Py.any_in (kws1 ++ kws2) text = Py.any_in kws1 text || Py.any_in kws2 text.
Proof. apply existsb_app. Qed.

(** ** Reddit classification order *)

(** C10.  With [text] the lowercased title and body of a Reddit post: when
    [text] contains "bug", "crash", "error", "fail" or "problem" and no
    feature-request keyword, the post is a complaint (so not a bug report);
    a post classified bug-report contains "doesn't work", "not working" or
    "glitch"; and each of these three does reach bug-report. *)
Theorem reddit_bug_words_are_complaints (content title : string) :
  let text := RedditCollector.full_text_lower content title in
  (Py.any_in ["bug"; "crash"; "error"; "fail"; "problem"] text = true ->
   Py.any_in RedditCollector.request_keywords text = false ->
   RedditCollector._categorize_post content title = Some "complaint"
   /\ RedditCollector._categorize_post content title <> Some "bug-report")
  /\ (RedditCollector._categorize_post content title = Some "bug-report" ->
      Py.any_in ["doesn't work"; "not working"; "glitch"] text = true)
  /\ RedditCollector._categorize_post "" "It doesn't work" = Some "bug-report"
  /\ RedditCollector._categorize_post "" "Sync not working" = Some "bug-report"
  /\ RedditCollector._categorize_post "" "Screen glitch" = Some "bug-report".
Proof.
  intros text. split; [|split].
  - intros Hword Hreq.
    assert (Hc : Py.any_in RedditCollector.complaint_keywords text = true).
    { apply any_in_inv in Hword. destruct Hword as (kw & Hin & Hkw).
      apply (any_in_true _ _ kw); [|exact Hkw].
      simpl in Hin. simpl. intuition (subst; auto 20). }
    unfold RedditCollector._categorize_post. fold text.
    rewrite Hreq, Hc. split; [reflexivity|discriminate].
  - unfold RedditCollector._categorize_post. fold text.
    destruct (Py.any_in RedditCollector.request_keywords text); [discriminate|].
    destruct (Py.any_in RedditCollector.complaint_keywords text) eqn:Hc; [discriminate|].
    destruct (Py.any_in RedditCollector.bug_keywords text) eqn:Hb.
    + intros _. apply any_in_inv in Hb. destruct Hb as (kw & Hin & Hkw).
      assert (Hno : forall k, In k ["bug"; "crash"; "error"] -> Py.contains k text = false).
      { intros k Hk. apply (any_in_false _ _ k Hc). simpl in Hk. simpl.
        intuition (subst; auto 20). }
      simpl in Hin.
      destruct Hin as [<-|[<-|[<-|Hin]]].
      * rewrite Hno in Hkw by (simpl; auto). discriminate.
      * rewrite Hno in Hkw by (simpl; auto). discriminate.
      * rewrite Hno in Hkw by (simpl; auto). discriminate.
      * apply (any_in_true _ _ kw); [|exact Hkw].
        simpl. intuition.
    + destruct (Py.any_in RedditCollector.praise_keywords text); [discriminate|].
      destruct (Py.any_in RedditCollector.discussion_keywords text); discriminate.
  - repeat split; vm_compute; reflexivity.
Qed.

Lemma reddit_bug_words_are_complaints_witness :
  RedditCollector._categorize_post "The editor shows an error" "Crash on save"
    = Some "complaint".
Proof.
  apply (proj1 (reddit_bug_words_are_complaints "The editor shows an error" "Crash on save"));
    vm_compute; reflexivity.
Defined.

(** ** GitHub classification: labels, then text *)

Lemma categorize_by_labels_first pre l post :
  Forall (fun x => label_hits x = false) pre ->
  label_hits l = true ->
  GitHubCollector.categorize_by_labels (pre ++ l :: post)
  = Some (if GitHubCollector.label_is_feature (Py.lower (github.name l))
          then "feature-request" else "bug-report").
Proof.
  intros Hpre Hl. induction Hpre as [|x pre Hx _ IH]; simpl.
  - unfold label_hits in Hl.
    destruct (GitHubCollector.label_is_feature (Py.lower (github.name l))); [reflexivity|].
    simpl in Hl. rewrite Hl. reflexivity.
  - unfold label_hits in Hx. apply orb_false_iff in Hx. destruct Hx as [-> ->]. exact IH.
Qed.

Lemma categorize_by_labels_none labels :
  Forall (fun x => label_hits x = false) labels ->
  GitHubCollector.categorize_by_labels labels = None.
Proof.
  induction 1 as [|x rest Hx _ IH]; simpl; [reflexivity|].
  unfold label_hits in Hx. apply orb_false_iff in Hx. destruct Hx as [-> ->]. exact IH.
Qed.

Lemma label_is_feature_words n :
  GitHubCollector.label_is_feature n = Py.any_in ["enhancement"; "feature"; "request"] n.
Proof.
  unfold GitHubCollector.label_is_feature, Py.any_in. simpl.
  rewrite orb_false_r, orb_assoc. reflexivity.
Qed.

Lemma label_is_bug_words n :
  GitHubCollector.label_is_bug n = Py.any_in ["bug"; "error"; "crash"] n.
Proof.
  unfold GitHubCollector.label_is_bug, Py.any_in. simpl.
  rewrite orb_false_r, orb_assoc. reflexivity.
Qed.

Lemma label_hits_words l :
  label_hits l
  = Py.any_in ["enhancement"; "feature"; "request"; "bug"; "error"; "crash"]
      (Py.lower (github.name l)).
Proof.
  unfold label_hits. rewrite label_is_feature_words, label_is_bug_words.
  change ["enhancement"; "feature"; "request"; "bug"; "error"; "crash"]
    with (["enhancement"; "feature"; "request"] ++ ["bug"; "error"; "crash"]).
  rewrite any_in_app. reflexivity.
Qed.

Lemma no_label_word_hits labels :
  Forall (fun x => Py.any_in ["enhancement"; "feature"; "request"; "bug"; "error"; "crash"]
                     (Py.lower (github.name x)) = false) labels ->
  Forall (fun x => label_hits x = false) labels.
Proof.
  intros H. eapply Forall_impl; [exact H|].
  intros l Hl. simpl in *. rewrite label_hits_words. exact Hl.
Qed.

(** C6 as stated fails: a label whose name contains "bug" does not always
    yield bug-report.  The feature words are tested first within a label
    and an earlier label wins over a later one, so the label
    "bug: feature regression" and the labels "enhancement", "bug" both give
    feature-request. *)
Lemma github_bug_label_with_feature_word :
  Py.contains "bug" (Py.lower "bug: feature regression") = true
  /\ GitHubCollector._categorize_issue "It crashes on startup" "Crash"
       [ {| github.name := "bug: feature regression" |} ] = Some "feature-request"
  /\ GitHubCollector._categorize_issue "It crashes on startup" "Crash"
       [ {| github.name := "enhancement" |}; {| github.name := "bug" |} ]
     = Some "feature-request".
Proof. repeat split. Qed.

(** C6, amended.  GitHub classification looks at the labels, in order,
    before the text.  The first label whose lowercased name contains one of
    "enhancement", "feature", "request", "bug", "error", "crash" decides,
    whatever the title and body say: feature-request when it contains
    "enhancement", "feature" or "request", and bug-report when it contains
    none of these three (so it contains "bug", "error" or "crash").  When no
    label contains any of the six words, the lowercased title and body are
    matched against the feature keywords, then the bug keywords, and the
    issue is rejected when neither list hits.  An issue whose only label is
    "bug" is a bug report for every title and body, in particular for the
    body "It crashes on startup" with or without the word "feature" in it. *)
Theorem github_labels_checked_before_text
    (content title : string) (labels : list github.Label) :
  let six := ["enhancement"; "feature"; "request"; "bug"; "error"; "crash"] in
  let text := Py.lower (title +:+ " " +:+ content) in
  (forall pre l post,
      labels = pre ++ l :: post ->
      Forall (fun x => Py.any_in six (Py.lower (github.name x)) = false) pre ->
      Py.any_in ["enhancement"; "feature"; "request"] (Py.lower (github.name l)) = true ->
      GitHubCollector._categorize_issue content title labels = Some "feature-request")
  /\ (forall pre l post,
      labels = pre ++ l :: post ->
      Forall (fun x => Py.any_in six (Py.lower (github.name x)) = false) pre ->
      Py.any_in ["enhancement"; "feature"; "request"] (Py.lower (github.name l)) = false ->
      Py.any_in ["bug"; "error"; "crash"] (Py.lower (github.name l)) = true ->
      GitHubCollector._categorize_issue content title labels = Some "bug-report")
  /\ (Forall (fun x => Py.any_in six (Py.lower (github.name x)) = false) labels ->
      GitHubCollector._categorize_issue content title labels
      = if Py.any_in ["add feature"; "feature request"; "would be nice"; "support for";
                      "implement"] text
        then Some "feature-request"
        else if Py.any_in ["bug"; "issue"; "problem"; "doesn't work"; "not working";
                           "broken"] text
             then Some "bug-report"
             else None)
  /\ GitHubCollector._categorize_issue content title [ {| github.name := "enhancement" |} ]
     = Some "feature-request"
  /\ GitHubCollector._categorize_issue content title [ {| github.name := "New Feature" |} ]
     = Some "feature-request"
  /\ GitHubCollector._categorize_issue content title [ {| github.name := "request" |} ]
     = Some "feature-request"
  /\ GitHubCollector._categorize_issue content title [ {| github.name := "bug" |} ]
     = Some "bug-report"
  /\ GitHubCollector._categorize_issue content title [ {| github.name := "Error" |} ]
     = Some "bug-report"
  /\ GitHubCollector._categorize_issue content title [ {| github.name := "crash" |} ]
     = Some "bug-report"
  /\ GitHubCollector._categorize_issue content title
       [ {| github.name := "question" |}; {| github.name := "crash" |};
         {| github.name := "enhancement" |} ] = Some "bug-report"
  /\ GitHubCollector._categorize_issue "It crashes on startup" title
       [ {| github.name := "bug" |} ] = Some "bug-report"
  /\ GitHubCollector._categorize_issue
       "It crashes on startup. Please add feature request templates." title
       [ {| github.name := "bug" |} ] = Some "bug-report"
  /\ GitHubCollector._categorize_issue
       "It crashes on startup. Please add feature request templates." "" []
     = Some "feature-request"
  /\ GitHubCollector._categorize_issue "Bump lodash" "Update dependency version" []
     = None.
Proof.
  intros six text. split; [|split; [|split]].
  - intros pre l post -> Hpre Hl. unfold GitHubCollector._categorize_issue.
    rewrite (categorize_by_labels_first pre l post (no_label_word_hits _ Hpre)).
    + rewrite label_is_feature_words, Hl. reflexivity.
    + rewrite label_hits_words.
      apply any_in_inv in Hl. destruct Hl as (kw & Hin & Hkw).
      apply (any_in_true _ _ kw); [|exact Hkw]. simpl in Hin. simpl. tauto.
  - intros pre l post -> Hpre Hf Hb. unfold GitHubCollector._categorize_issue.
    rewrite (categorize_by_labels_first pre l post (no_label_word_hits _ Hpre)).
    + rewrite label_is_feature_words, Hf. reflexivity.
    + rewrite label_hits_words.
      apply any_in_inv in Hb. destruct Hb as (kw & Hin & Hkw).
      apply (any_in_true _ _ kw); [|exact Hkw]. simpl in Hin. simpl. tauto.
  - intros Hnone. unfold GitHubCollector._categorize_issue.
    rewrite (categorize_by_labels_none labels (no_label_word_hits _ Hnone)). reflexivity.
  - repeat split; reflexivity.
Qed.

Lemma github_labels_checked_before_text_witness :
  GitHubCollector._categorize_issue "Add feature: dark mode" "Crash"
    [ {| github.name := "question" |}; {| github.name := "Type: Bug" |};
      {| github.name := "enhancement" |} ]
  = Some "bug-report".
Proof.
  apply (proj1 (proj2 (github_labels_checked_before_text "Add feature: dark mode" "Crash"
                  [ {| github.name := "question" |}; {| github.name := "Type: Bug" |};
                    {| github.name := "enhancement" |} ]))
           [ {| github.name := "question" |} ] {| github.name := "Type: Bug" |}
           [ {| github.name := "enhancement" |} ]).
  - reflexivity.
  - repeat constructor.
  - vm_compute. reflexivity.
  - vm_compute. reflexivity.
Defined.

(** ** The network log and the parsed items *)

Lemma list_set_elem (xs : list string) (x : string) : x ∈ list_set xs <-> x ∈ xs.
Proof. unfold list_set. rewrite elem_of_elements, elem_of_list_to_set. reflexivity. Qed.

Lemma list_set_NoDup (xs : list string) : NoDup (list_set xs).
Proof. unfold list_set. apply NoDup_elements. Qed.

Lemma collect_parsed_inv {I} (parse : I -> option Demand.t) items r :
  r ∈ collect_parsed parse items -> exists i, i ∈ items /\ parse i = Some r.
Proof. unfold collect_parsed. rewrite list_elem_of_omap. tauto. Qed.


Lemma net_extend_each_inv {S A} (xs : list S) (body : S -> Net (list A)) (a : A) :
  a ∈ snd (net_extend_each xs body) -> exists x, x ∈ xs /\ a ∈ snd (body x).
Proof.
  induction xs as [|x xs IH]; simpl.
  - intros H. inversion H.
  - destruct (body x) as [c1 r1] eqn:Hb.
    destruct (net_extend_each xs body) as [c2 r2]. simpl in *.
    intros [H|H]%elem_of_app.
    + exists x. rewrite Hb. split; [left|exact H].
    + destruct (IH H) as (y & Hy & Ha). exists y. split; [right; exact Hy|exact Ha].
Qed.

Lemma net_extend_each_calls {S A} (xs : list S) (body : S -> Net (list A)) :
  fst (net_extend_each xs body) = concat (map (fun x => fst (body x)) xs).
Proof.
  induction xs as [|x xs IH]; simpl; [reflexivity|].
  destruct (body x) as [c1 r1]. destruct (net_extend_each xs body) as [c2 r2].
  simpl in *. rewrite app_nil_r, IH. reflexivity.
Qed.

Lemma reddit_subreddit_parsed w sub q tf l r :
  r ∈ snd (RedditCollector._collect_from_subreddit w sub q tf l) ->
  exists s o, RedditCollector._parse_submission w s o = Some r.
Proof.
  unfold RedditCollector._collect_from_subreddit.
  destruct (Py.truthy q); simpl; intros (s & _ & Hs)%collect_parsed_inv; eauto.
Qed.

Lemma reddit_collect_parsed w q sub tf l r :
  r ∈ snd (RedditCollector.collect w q sub tf l) ->
  exists s o, RedditCollector._parse_submission w s o = Some r.
Proof.
  unfold RedditCollector.collect.
  destruct (Py.truthy sub); [apply reddit_subreddit_parsed|].
  destruct (Py.truthy q).
  - simpl. intros (s & _ & Hs)%collect_parsed_inv; eauto.
  - intros (x & _ & Hx)%net_extend_each_inv. revert Hx. apply reddit_subreddit_parsed.
Qed.

Lemma github_repo_parsed w repo st l r :
  r ∈ snd (GitHubCollector._collect_from_repo w repo st l) ->
  exists i o, GitHubCollector._parse_issue w i o = Some r.
Proof.
  unfold GitHubCollector._collect_from_repo. simpl.
  intros (i & _ & Hi)%collect_parsed_inv; eauto.
Qed.

Lemma github_collect_parsed w q repo st l r :
  r ∈ snd (GitHubCollector.collect w q repo st l) ->
  exists i o, GitHubCollector._parse_issue w i o = Some r.
Proof.
  unfold GitHubCollector.collect.
  destruct (Py.truthy repo); [apply github_repo_parsed|].
  destruct (Py.truthy q).
  - simpl. intros (i & _ & Hi)%collect_parsed_inv; eauto.
  - intros (x & _ & Hx)%net_extend_each_inv. revert Hx. apply github_repo_parsed.
Qed.

Lemma twitter_collect_parsed self q u n r :
  r ∈ snd (TwitterCollector.collect self q u n) ->
  exists tw o, TwitterCollector._parse_tweet self tw o = Some r.
Proof.
  unfold TwitterCollector.collect.
  destruct (TwitterCollector.client self) as [w|]; [|simpl; inversion 1].
  destruct (Py.truthy u).
  - unfold TwitterCollector._collect_from_user. simpl.
    destruct (twitter_get_user w (default "" u)); simpl.
    + intros (tw & _ & Htw)%collect_parsed_inv; eauto.
    + inversion 1.
  - destruct (Py.truthy q); simpl.
    + intros (tw & _ & Htw)%collect_parsed_inv; eauto.
    + inversion 1.
Qed.

(** ** What a parsed record holds *)

Lemma reddit_parse_inv w s o r :
  RedditCollector._parse_submission w s o = Some r ->
  exists c n,
    RedditCollector._categorize_post (RedditCollector.content_of s) (praw.title s) = Some c
    /\ RedditCollector.interaction_score_of s = Ok n
    /\ Demand.category r = c
    /\ Demand.interaction_score r = n
    /\ Demand.tags r
       = RedditCollector._extract_tags (RedditCollector.content_of s) (praw.title s) c.
Proof.
  unfold RedditCollector._parse_submission, RedditCollector.parse_submission_body.
  destruct (RedditCollector._categorize_post _ _) as [c|]; [|discriminate].
  destruct (RedditCollector._analyze_sentiment w _) as [sent sc].
  destruct (RedditCollector.interaction_score_of s) as [n|e]; simpl; [|discriminate].
  destruct (fromtimestamp w _) as [t|e]; simpl; [|discriminate].
  intros [= <-]. exists c, n. simpl. auto.
Qed.

Lemma github_category_range content title labels c :
  GitHubCollector._categorize_issue content title labels = Some c ->
  c ∈ ["feature-request"; "bug-report"].
Proof.
  unfold GitHubCollector._categorize_issue, GitHubCollector.categorize_by_text.
  destruct (GitHubCollector.categorize_by_labels labels) as [c'|] eqn:Hl.
  - intros [= <-]. induction labels as [|l rest IH]; simpl in Hl; [discriminate|].
    destruct (GitHubCollector.label_is_feature _); [injection Hl as <-; set_solver|].
    destruct (GitHubCollector.label_is_bug _); [injection Hl as <-; set_solver|].
    apply IH, Hl.
  - repeat (destruct (Py.any_in _ _); [intros [= <-]; set_solver|]). discriminate.
Qed.

(** Every issue that gets a category fails at [issue.reactions.total_count];
    the others are rejected: no issue yields a record. *)
Lemma github_parse_body w i o :
  GitHubCollector.parse_issue_body w i o
  = match GitHubCollector._categorize_issue (GitHubCollector.content_of i)
            (github.title i) (github.labels i) with
    | Some _ =>
        Raise (AttributeError "'dict' object has no attribute 'total_count'")
    | None => Ok None
    end.
Proof.
  unfold GitHubCollector.parse_issue_body.
  destruct (GitHubCollector._categorize_issue _ _ _) as [c|] eqn:Hc; [|reflexivity].
  pose proof (github_category_range _ _ _ _ Hc) as Hrange.
  rewrite (bool_decide_eq_true_2 _ Hrange).
  destruct (GitHubCollector._analyze_sentiment w _) as [sent sc]. reflexivity.
Qed.

Lemma github_parse_none w i o : GitHubCollector._parse_issue w i o = None.
Proof.
  unfold GitHubCollector._parse_issue. rewrite github_parse_body.
  destruct (GitHubCollector._categorize_issue _ _ _); reflexivity.
Qed.

Lemma github_parse_inv w i o r :
  GitHubCollector._parse_issue w i o = Some r ->
  exists c,
    GitHubCollector._categorize_issue (GitHubCollector.content_of i) (github.title i)
      (github.labels i) = Some c
    /\ Demand.category r = c
    /\ Demand.tags r
       = GitHubCollector._extract_labels (github.labels i)
         ++ GitHubCollector._extract_tags (GitHubCollector.content_of i) (github.title i) c.
Proof. rewrite github_parse_none. discriminate. Qed.

(** A tweet yields a record exactly along this path: a category, a product
    list, and metrics that are a dictionary. *)
Lemma twitter_parse_some self tw o r :
  TwitterCollector._parse_tweet self tw o = Some r ->
  exists c products metrics,
    TwitterCollector._categorize_tweet (tweepy.text tw) = Some c
    /\ TwitterCollector._extract_product_mentions (tweepy.entities tw) (tweepy.text tw)
       = Ok products
    /\ tweepy.public_metrics tw = Some metrics
    /\ TwitterCollector.parse_tweet_body self tw o = Ok (Some r)
    /\ Demand.category r = c
    /\ Demand.tags r = TwitterCollector._extract_tags (tweepy.text tw) c
    /\ Demand.product_mentioned r = products
    /\ (Demand.sentiment r, Demand.sentiment_score r)
       = TwitterCollector._analyze_sentiment self (tweepy.text tw)
    /\ Demand.upvotes r = TwitterCollector.metric metrics "like_count"
    /\ Demand.comments r = TwitterCollector.metric metrics "reply_count"
    /\ Demand.shares r
       = TwitterCollector.metric metrics "retweet_count"
         + TwitterCollector.metric metrics "quote_count"
    /\ Demand.interaction_score r
       = TwitterCollector.metric metrics "like_count"
         + TwitterCollector.metric metrics "reply_count" * 2
         + TwitterCollector.metric metrics "retweet_count" * 3
         + TwitterCollector.metric metrics "quote_count" * 2.
Proof.
  unfold TwitterCollector._parse_tweet, TwitterCollector.parse_tweet_body.
  destruct (TwitterCollector._categorize_tweet _) as [c|]; [|discriminate].
  destruct (TwitterCollector._analyze_sentiment self _) as [sent sc].
  destruct (TwitterCollector._extract_product_mentions _ _) as [products|e]; simpl;
    [|discriminate].
  destruct (tweepy.public_metrics tw) as [metrics|]; simpl; [|discriminate].
  intros [= <-]. exists c, products, metrics. simpl. repeat split.
Qed.

Lemma twitter_parse_inv self tw o r :
  TwitterCollector._parse_tweet self tw o = Some r ->
  exists c,
    TwitterCollector._categorize_tweet (tweepy.text tw) = Some c
    /\ Demand.category r = c
    /\ Demand.tags r = TwitterCollector._extract_tags (tweepy.text tw) c.
Proof.
  intros H. destruct (twitter_parse_some _ _ _ _ H)
    as (c & products & metrics & Hc & _ & _ & _ & Hcat & Htags & _).
  exists c. auto.
Qed.

(** ** Which items yield a record *)

Lemma reddit_parse_exists w s o c n t :
  RedditCollector._categorize_post (RedditCollector.content_of s) (praw.title s) = Some c ->
  RedditCollector.interaction_score_of s = Ok n ->
  fromtimestamp w (praw.created_utc s) = Ok t ->
  exists r, RedditCollector._parse_submission w s o = Some r.
Proof.
  intros Hc Hn Ht.
  unfold RedditCollector._parse_submission, RedditCollector.parse_submission_body.
  rewrite Hc. destruct (RedditCollector._analyze_sentiment w _) as [sent sc].
  rewrite Hn. simpl. rewrite Ht. simpl. eexists. reflexivity.
Qed.

Lemma twitter_products_mentions entities content m rest :
  default [] (entities ≫= (fun d => d !! "mentions")) = m :: rest ->
  TwitterCollector._extract_product_mentions entities content
  = Raise (AttributeError "'dict' object has no attribute 'username'").
Proof.
  intros H. unfold TwitterCollector._extract_product_mentions. rewrite H. reflexivity.
Qed.

Lemma twitter_products_no_mentions entities content :
  default [] (entities ≫= (fun d => d !! "mentions")) = [] ->
  TwitterCollector._extract_product_mentions entities content
  = Ok (fold_left (fun products product =>
          if Py.contains product (Py.lower content)
             && negb (bool_decide (Py.capitalize product ∈ products))
          then products ++ [Py.capitalize product]
          else products) TwitterCollector.product_list []).
Proof.
  intros H. unfold TwitterCollector._extract_product_mentions. rewrite H. reflexivity.
Qed.

Lemma twitter_products_ok entities content products :
  TwitterCollector._extract_product_mentions entities content = Ok products ->
  default [] (entities ≫= (fun d => d !! "mentions")) = [].
Proof.
  destruct (default [] (entities ≫= (fun d => d !! "mentions"))) as [|m rest] eqn:H;
    [reflexivity|].
  rewrite (twitter_products_mentions _ _ _ _ H). discriminate.
Qed.

Lemma twitter_parse_exists self tw o c metrics :
  TwitterCollector._categorize_tweet (tweepy.text tw) = Some c ->
  tweet_mentions tw = [] ->
  tweepy.public_metrics tw = Some metrics ->
  exists r, TwitterCollector._parse_tweet self tw o = Some r.
Proof.
  intros Hc Hm Hmetrics.
  unfold TwitterCollector._parse_tweet, TwitterCollector.parse_tweet_body.
  rewrite Hc. destruct (TwitterCollector._analyze_sentiment self _) as [sent sc].
  rewrite (twitter_products_no_mentions _ _ Hm). cbn [rbind]. rewrite Hmetrics.
  cbn [rbind]. eexists. reflexivity.
Qed.

Lemma twitter_parse_mentions self tw o m rest :
  tweet_mentions tw = m :: rest -> TwitterCollector._parse_tweet self tw o = None.
Proof.
  intros Hm. unfold TwitterCollector._parse_tweet, TwitterCollector.parse_tweet_body.
  destruct (TwitterCollector._categorize_tweet _) as [c|]; [|reflexivity].
  destruct (TwitterCollector._analyze_sentiment self _) as [sent sc].
  rewrite (twitter_products_mentions _ _ _ _ Hm). reflexivity.
Qed.

Lemma twitter_parse_no_metrics self tw o :
  tweepy.public_metrics tw = None -> TwitterCollector._parse_tweet self tw o = None.
Proof.
  intros Hm. unfold TwitterCollector._parse_tweet, TwitterCollector.parse_tweet_body.
  destruct (TwitterCollector._categorize_tweet _) as [c|]; [|reflexivity].
  destruct (TwitterCollector._analyze_sentiment self _) as [sent sc].
  destruct (TwitterCollector._extract_product_mentions _ _); simpl; [|reflexivity].
  rewrite Hm. reflexivity.
Qed.

Lemma github_collect_empty w q repo st l :
  snd (GitHubCollector.collect w q repo st l) = [].
Proof.
  destruct (snd (GitHubCollector.collect w q repo st l)) as [|r rest] eqn:Hrun;
    [reflexivity|].
  assert (Hr : r ∈ snd (GitHubCollector.collect w q repo st l)) by (rewrite Hrun; left).
  apply github_collect_parsed in Hr. destruct Hr as (i & o & Hi).
  rewrite github_parse_none in Hi. discriminate Hi.
Qed.

(** ** Tags and the category *)

Lemma reddit_tags_category content title c :
  c ∈ RedditCollector._extract_tags content title c.
Proof. unfold RedditCollector._extract_tags. apply list_set_elem. simpl. left. Qed.

Lemma github_tags_category content title c :
  c ∈ GitHubCollector._extract_tags content title c.
Proof. unfold GitHubCollector._extract_tags. apply list_set_elem. simpl. left. Qed.

Lemma twitter_tags_category content c :
  c ∈ TwitterCollector._extract_tags content c.
Proof. unfold TwitterCollector._extract_tags. apply list_set_elem. simpl. left. Qed.

(** C8.  An item that its platform's classifier gives the category [c] and
    that yields a record yields one whose category is [c] and whose tags
    contain [c]; this holds for the record of that very item, on Reddit and
    on Twitter.  Every record a collector returns is the record of an item
    it parsed, so it carries the category the classifier gave that item and
    has it among its tags.  A classified Reddit post yields a record when
    its score and creation time convert, a classified tweet when it has no
    mention and its metrics are present.  On GitHub the tag list built for a
    classified issue contains the category as well, but no issue yields a
    record, so the collector returns none. *)
Theorem tags_contain_category (w : World) (self : TwitterCollector.t) :
  (forall s o c r,
      RedditCollector._categorize_post (RedditCollector.content_of s) (praw.title s)
      = Some c ->
      RedditCollector._parse_submission w s o = Some r ->
      Demand.category r = c /\ c ∈ Demand.tags r)
  /\ (forall tw o c r,
      TwitterCollector._categorize_tweet (tweepy.text tw) = Some c ->
      TwitterCollector._parse_tweet self tw o = Some r ->
      Demand.category r = c /\ c ∈ Demand.tags r)
  /\ (forall i c,
      GitHubCollector._categorize_issue (GitHubCollector.content_of i) (github.title i)
        (github.labels i) = Some c ->
      c ∈ GitHubCollector._extract_labels (github.labels i)
          ++ GitHubCollector._extract_tags (GitHubCollector.content_of i)
               (github.title i) c)
  /\ (forall s o c n t,
      RedditCollector._categorize_post (RedditCollector.content_of s) (praw.title s)
      = Some c ->
      RedditCollector.interaction_score_of s = Ok n ->
      fromtimestamp w (praw.created_utc s) = Ok t ->
      exists r, RedditCollector._parse_submission w s o = Some r
                /\ Demand.category r = c /\ c ∈ Demand.tags r)
  /\ (forall tw o c metrics,
      TwitterCollector._categorize_tweet (tweepy.text tw) = Some c ->
      tweet_mentions tw = [] ->
      tweepy.public_metrics tw = Some metrics ->
      exists r, TwitterCollector._parse_tweet self tw o = Some r
                /\ Demand.category r = c /\ c ∈ Demand.tags r)
  /\ (forall r query subreddit time_filter limit,
      r ∈ snd (RedditCollector.collect w query subreddit time_filter limit) ->
      exists s o,
        RedditCollector._parse_submission w s o = Some r
        /\ RedditCollector._categorize_post (RedditCollector.content_of s) (praw.title s)
           = Some (Demand.category r)
        /\ Demand.category r ∈ Demand.tags r)
  /\ (forall r query user count,
      r ∈ snd (TwitterCollector.collect self query user count) ->
      exists tw o,
        TwitterCollector._parse_tweet self tw o = Some r
        /\ TwitterCollector._categorize_tweet (tweepy.text tw) = Some (Demand.category r)
        /\ Demand.category r ∈ Demand.tags r)
  /\ (forall i o, GitHubCollector._parse_issue w i o = None)
  /\ (forall query repo state limit,
      snd (GitHubCollector.collect w query repo state limit) = []).
Proof.
  assert (Hreddit : forall s o c r,
      RedditCollector._categorize_post (RedditCollector.content_of s) (praw.title s)
      = Some c ->
      RedditCollector._parse_submission w s o = Some r ->
      Demand.category r = c /\ c ∈ Demand.tags r).
  { intros s o c r Hc Hr.
    destruct (reddit_parse_inv _ _ _ _ Hr) as (c' & n & Hc' & _ & Hcat & _ & Htags).
    rewrite Hc in Hc'. injection Hc' as <-. split; [exact Hcat|].
    rewrite Htags. apply reddit_tags_category. }
  assert (Htwitter : forall tw o c r,
      TwitterCollector._categorize_tweet (tweepy.text tw) = Some c ->
      TwitterCollector._parse_tweet self tw o = Some r ->
      Demand.category r = c /\ c ∈ Demand.tags r).
  { intros tw o c r Hc Hr.
    destruct (twitter_parse_inv _ _ _ _ Hr) as (c' & Hc' & Hcat & Htags).
    rewrite Hc in Hc'. injection Hc' as <-. split; [exact Hcat|].
    rewrite Htags. apply twitter_tags_category. }
  split; [exact Hreddit|]. split; [exact Htwitter|].
  split; [|split; [|split; [|split; [|split; [|split]]]]].
  - intros i c _. apply elem_of_app. right. apply github_tags_category.
  - intros s o c n t Hc Hn Ht.
    destruct (reddit_parse_exists w s o c n t Hc Hn Ht) as (r & Hr).
    exists r. split; [exact Hr|]. apply (Hreddit s o c r Hc Hr).
  - intros tw o c metrics Hc Hm Hmetrics.
    destruct (twitter_parse_exists self tw o c metrics Hc Hm Hmetrics) as (r & Hr).
    exists r. split; [exact Hr|]. apply (Htwitter tw o c r Hc Hr).
  - intros r q sub tf l (s & o & Hs)%reddit_collect_parsed.
    destruct (reddit_parse_inv _ _ _ _ Hs) as (c & n & Hc & _ & Hcat & _ & _).
    exists s, o. split; [exact Hs|]. rewrite Hcat. split; [exact Hc|].
    exact (proj2 (Hreddit s o c r Hc Hs)).
  - intros r q u n (tw & o & Htw)%twitter_collect_parsed.
    destruct (twitter_parse_inv _ _ _ _ Htw) as (c & Hc & Hcat & _).
    exists tw, o. split; [exact Htw|]. rewrite Hcat. split; [exact Hc|].
    exact (proj2 (Htwitter tw o c r Hc Htw)).
  - intros i o. apply github_parse_none.
  - intros q repo st l. apply github_collect_empty.
Qed.

Lemma tags_contain_category_witness :
  match RedditCollector._parse_submission sample_world sample_submission (Some "webdev") with
  | Some r => Demand.category r = "complaint" /\ "complaint" ∈ Demand.tags r
  | None => False
  end.
Proof.
  destruct (RedditCollector._parse_submission sample_world sample_submission (Some "webdev"))
    as [r|] eqn:Hr.
  - apply (proj1 (tags_contain_category sample_world
                    (TwitterCollector.__init__ sample_world
                       {| twitter_bearer_token := "token" |}))
             sample_submission (Some "webdev") "complaint" r).
    + vm_compute. reflexivity.
    + exact Hr.
  - vm_compute in Hr. discriminate Hr.
Defined.

(** ** Tags as a set *)

Lemma reddit_tags_NoDup w s o r :
  RedditCollector._parse_submission w s o = Some r -> NoDup (Demand.tags r).
Proof.
  intros H. destruct (reddit_parse_inv _ _ _ _ H) as (c & n & _ & _ & _ & _ & ->).
  apply list_set_NoDup.
Qed.

Lemma twitter_tags_NoDup self tw o r :
  TwitterCollector._parse_tweet self tw o = Some r -> NoDup (Demand.tags r).
Proof.
  intros H. destruct (twitter_parse_inv _ _ _ _ H) as (c & _ & _ & ->).
  apply list_set_NoDup.
Qed.

(** C7.  No record that a collector returns repeats a tag.  Each
    [_extract_tags] ends in [list(set(tags))], so its result has no
    duplicate and holds exactly the category and the matched feature tags,
    in whatever order the set yields them; a Reddit or Twitter record
    carries that list unchanged.  The GitHub parser puts the issue's label
    names in front of that list without removing duplicates (the issue
    "Docs are broken" labelled "documentation" would list "documentation"
    twice), but that list is never returned: every classified issue fails
    at [issue.reactions.total_count], so the GitHub collector returns no
    record at all. *)
Theorem tags_are_never_repeated (w : World) (self : TwitterCollector.t) :
  (forall content title category x,
      NoDup (RedditCollector._extract_tags content title category)
      /\ (x ∈ RedditCollector._extract_tags content title category
          <-> x = category
              \/ x ∈ matched_tags RedditCollector.feature_tags
                       (RedditCollector.full_text_lower content title)))
  /\ (forall content title category x,
      NoDup (GitHubCollector._extract_tags content title category)
      /\ (x ∈ GitHubCollector._extract_tags content title category
          <-> x = category
              \/ x ∈ matched_tags GitHubCollector.feature_tags
                       (GitHubCollector.full_text_lower content title)))
  /\ (forall content category x,
      NoDup (TwitterCollector._extract_tags content category)
      /\ (x ∈ TwitterCollector._extract_tags content category
          <-> x = category
              \/ x ∈ matched_tags TwitterCollector.feature_tags (Py.lower content)))
  /\ (forall s o r,
      RedditCollector._parse_submission w s o = Some r ->
      Demand.tags r
      = RedditCollector._extract_tags (RedditCollector.content_of s) (praw.title s)
          (Demand.category r)
      /\ NoDup (Demand.tags r))
  /\ (forall tw o r,
      TwitterCollector._parse_tweet self tw o = Some r ->
      Demand.tags r = TwitterCollector._extract_tags (tweepy.text tw) (Demand.category r)
      /\ NoDup (Demand.tags r))
  /\ (forall r query subreddit time_filter limit,
      r ∈ snd (RedditCollector.collect w query subreddit time_filter limit) ->
      NoDup (Demand.tags r))
  /\ (forall r query user count,
      r ∈ snd (TwitterCollector.collect self query user count) ->
      NoDup (Demand.tags r))
  /\ (forall r query repo state limit,
      r ∈ snd (GitHubCollector.collect w query repo state limit) ->
      NoDup (Demand.tags r))
  /\ (forall i o,
      GitHubCollector.parse_issue_body w i o
      = match GitHubCollector._categorize_issue (GitHubCollector.content_of i)
                (github.title i) (github.labels i) with
        | Some _ => Raise (AttributeError "'dict' object has no attribute 'total_count'")
        | None => Ok None
        end)
  /\ (forall i o, GitHubCollector._parse_issue w i o = None)
  /\ (forall query repo state limit,
      snd (GitHubCollector.collect w query repo state limit) = [])
  /\ GitHubCollector._categorize_issue (GitHubCollector.content_of sample_issue)
       (github.title sample_issue) (github.labels sample_issue) = Some "bug-report"
  /\ ~ NoDup (GitHubCollector._extract_labels (github.labels sample_issue)
              ++ GitHubCollector._extract_tags (GitHubCollector.content_of sample_issue)
                   (github.title sample_issue) "bug-report").
Proof.
  split; [|split; [|split; [|split; [|split; [|split; [|split; [|split;
    [|split; [|split; [|split; [|split]]]]]]]]]]].
  - intros content title category x. split; [apply list_set_NoDup|].
    unfold RedditCollector._extract_tags. rewrite list_set_elem. simpl.
    rewrite elem_of_cons. reflexivity.
  - intros content title category x. split; [apply list_set_NoDup|].
    unfold GitHubCollector._extract_tags. rewrite list_set_elem. simpl.
    rewrite elem_of_cons. reflexivity.
  - intros content category x. split; [apply list_set_NoDup|].
    unfold TwitterCollector._extract_tags. rewrite list_set_elem. simpl.
    rewrite elem_of_cons. reflexivity.
  - intros s o r Hr. split; [|exact (reddit_tags_NoDup _ _ _ _ Hr)].
    destruct (reddit_parse_inv _ _ _ _ Hr) as (c & n & _ & _ & -> & _ & ->). reflexivity.
  - intros tw o r Hr. split; [|exact (twitter_tags_NoDup _ _ _ _ Hr)].
    destruct (twitter_parse_inv _ _ _ _ Hr) as (c & _ & -> & ->). reflexivity.
  - intros r q sub tf l (s & o & Hs)%reddit_collect_parsed.
    exact (reddit_tags_NoDup _ _ _ _ Hs).
  - intros r q u n (tw & o & Htw)%twitter_collect_parsed.
    exact (twitter_tags_NoDup _ _ _ _ Htw).
  - intros r q repo st l Hr. rewrite github_collect_empty in Hr. inversion Hr.
  - intros i o. apply github_parse_body.
  - intros i o. apply github_parse_none.
  - intros q repo st l. apply github_collect_empty.
  - vm_compute. reflexivity.
  - assert (Ht : GitHubCollector._extract_labels (github.labels sample_issue)
                 ++ GitHubCollector._extract_tags (GitHubCollector.content_of sample_issue)
                      (github.title sample_issue) "bug-report"
                 = "documentation" :: list_set ["bug-report"; "documentation"]).
    { unfold GitHubCollector._extract_tags.
      assert (Hm : matched_tags GitHubCollector.feature_tags
                     (GitHubCollector.full_text_lower
                        (GitHubCollector.content_of sample_issue)
                        (github.title sample_issue))
                   = ["documentation"]) by (vm_compute; reflexivity).
      rewrite Hm. reflexivity. }
    rewrite Ht. rewrite NoDup_cons. intros [Hnotin _]. apply Hnotin.
    apply list_set_elem. right. left.
Qed.

Lemma tags_are_never_repeated_witness :
  match snd (RedditCollector.collect sample_world None (Some "webdev") "month" 50) with
  | r :: _ => NoDup (Demand.tags r)
  | [] => False
  end.
Proof.
  destruct (snd (RedditCollector.collect sample_world None (Some "webdev") "month" 50))
    as [|r rest] eqn:Hrun.
  - vm_compute in Hrun. discriminate Hrun.
  - apply (proj1 (proj2 (proj2 (proj2 (proj2 (proj2
             (tags_are_never_repeated sample_world
                (TwitterCollector.__init__ sample_world
                   {| twitter_bearer_token := "token" |})))))))
             r None (Some "webdev") "month" 50).
    rewrite Hrun. left.
Defined.

(** ** The persist loop *)

Lemma persist_loop_table db collected n db' n' :
  collect_api.persist_loop db collected n = Ok (db', n') ->
  AsyncSession.table db' = AsyncSession.table db.
Proof.
  revert db n. induction collected as [|d rest IH]; intros db n; simpl.
  - intros [= <- _]. reflexivity.
  - destruct (AsyncSession.scalar_one_or_none _) as [[row|]|e]; simpl; [| |discriminate].
    + apply IH.
    + intros H. apply IH in H. exact H.
Qed.

Lemma persist_loop_unambiguous db collected n :
  forallb (fun d => negb (ambiguous db d)) collected = true ->
  collect_api.persist_loop db collected n
  = Ok ({| AsyncSession.table := AsyncSession.table db;
           AsyncSession.pending :=
             AsyncSession.pending db ++ List.filter (is_new db) collected |},
        n + Z.of_nat (length (List.filter (is_new db) collected))).
Proof.
  revert db n. induction collected as [|d rest IH]; intros db n; simpl.
  - intros _. rewrite app_nil_r, Z.add_0_r. destruct db; reflexivity.
  - intros [Hd Hrest]%andb_true_iff. unfold ambiguous in Hd.
    destruct (AsyncSession.execute_select_by_source_url db (Demand.source_url d))
      as [|row [|row' more]] eqn:Hsel; simpl; [| |discriminate Hd].
    + assert (Hnd : is_new db d = true) by (unfold is_new; rewrite Hsel; reflexivity).
      assert (Hnew : forall x, is_new (AsyncSession.add db d) x = is_new db x)
        by reflexivity.
      rewrite Hnd, IH.
      * simpl. rewrite <- app_assoc. simpl.
        rewrite (List.filter_ext _ _ Hnew). do 2 f_equal. lia.
      * exact Hrest.
    + assert (Hnd : is_new db d = false) by (unfold is_new; rewrite Hsel; reflexivity).
      rewrite Hnd. apply IH. exact Hrest.
Qed.

Lemma persist_loop_ambiguous db collected n :
  existsb (ambiguous db) collected = true ->
  collect_api.persist_loop db collected n = Raise MultipleResultsFound.
Proof.
  revert db n. induction collected as [|d rest IH]; intros db n; simpl; [discriminate|].
  unfold ambiguous at 1.
  destruct (AsyncSession.execute_select_by_source_url db (Demand.source_url d))
    as [|row [|row' more]] eqn:Hsel; simpl; intros H.
  - apply IH. exact H.
  - apply IH. exact H.
  - reflexivity.
Qed.


(** ** Rejection by the classifier *)



(** ** De-duplication against the table *)

Lemma select_self (r : Demand.t) (rows : list Demand.t) :
  AsyncSession.execute_select_by_source_url
    {| AsyncSession.table := r :: rows; AsyncSession.pending := [] |} (Demand.source_url r)
  = r :: AsyncSession.execute_select_by_source_url
           {| AsyncSession.table := rows; AsyncSession.pending := [] |} (Demand.source_url r).
Proof.
  unfold AsyncSession.execute_select_by_source_url. simpl.
  rewrite filter_cons_True; reflexivity.
Qed.

(** C2.  Two records with one [source_url] in a single collector output are
    both inserted: the lookup runs against the table only, the first record
    is still pending when the second is looked up, and nothing rejects the
    second row at commit.  The table then holds the URL twice, and the same
    run repeated stops with [MultipleResultsFound]. *)
Theorem persist_inserts_batch_duplicates (r : Demand.t) :
  collect_api.persist empty_db [r; r]
  = Ok ({| AsyncSession.table := [r; r]; AsyncSession.pending := [] |}, 2)
  /\ ~ NoDup (urls [r; r])
  /\ collect_api.persist {| AsyncSession.table := [r; r]; AsyncSession.pending := [] |} [r; r]
     = Raise MultipleResultsFound.
Proof.
  split; [reflexivity|]. split.
  - unfold urls. simpl. rewrite NoDup_cons. intros [Hnotin _]. apply Hnotin. left.
  - unfold collect_api.persist. simpl. rewrite select_self, select_self. reflexivity.
Qed.

Lemma select_nil_iff db u :
  AsyncSession.execute_select_by_source_url db u = [] <-> u ∉ urls (AsyncSession.table db).
Proof.
  unfold AsyncSession.execute_select_by_source_url, urls.
  induction (AsyncSession.table db) as [|d rows IH]; simpl.
  - split; [intros _; apply not_elem_of_nil|reflexivity].
  - rewrite filter_cons, not_elem_of_cons. destruct (decide (Demand.source_url d = u)).
    + split; [discriminate|]. intros [Hne _]. congruence.
    + rewrite IH. split; [intros H; split; [congruence|exact H]|tauto].
Qed.

Lemma is_new_iff db d :
  is_new db d = true <-> Demand.source_url d ∉ urls (AsyncSession.table db).
Proof.
  rewrite <- select_nil_iff. unfold is_new.
  destruct (AsyncSession.execute_select_by_source_url db (Demand.source_url d));
    split; (reflexivity || discriminate).
Qed.

Lemma distinct_urls_unambiguous db d :
  NoDup (urls (AsyncSession.table db)) -> ambiguous db d = false.
Proof.
  unfold ambiguous, AsyncSession.execute_select_by_source_url, urls.
  generalize (Demand.source_url d). intros u.
  induction (AsyncSession.table db) as [|x rows IH]; simpl; [reflexivity|].
  rewrite NoDup_cons. intros [Hx Hrows]. rewrite filter_cons.
  destruct (decide (Demand.source_url x = u)) as [Heq|Hne]; [|apply IH; exact Hrows].
  assert (Hnil : filter (fun d0 => Demand.source_url d0 = u) rows = []).
  { apply (proj2 (select_nil_iff {| AsyncSession.table := rows; AsyncSession.pending := [] |} u)).
    rewrite <- Heq. exact Hx. }
  rewrite Hnil. reflexivity.
Qed.

Lemma urls_filter_NoDup (f : Demand.t -> bool) rows :
  NoDup (urls rows) -> NoDup (urls (List.filter f rows)).
Proof.
  unfold urls. induction rows as [|x rows IH]; simpl; [intros; constructor|].
  rewrite NoDup_cons. intros [Hx Hrows]. destruct (f x); simpl; [|apply IH; exact Hrows].
  apply NoDup_cons. split; [|apply IH; exact Hrows].
  intros Hin. apply Hx.
  apply list_elem_of_fmap in Hin. destruct Hin as (y & Hy & Hyin).
  apply list_elem_of_In, filter_In in Hyin. destruct Hyin as [Hyin _].
  apply list_elem_of_fmap. exists y. split; [exact Hy|apply list_elem_of_In; exact Hyin].
Qed.

(** What the loop does achieve: with distinct URLs in the table and distinct
    URLs in the batch, the table keeps distinct URLs, holds every collected
    URL afterwards, and the same batch again saves nothing. *)
Lemma persist_distinct_batch db collected :
  AsyncSession.pending db = [] ->
  NoDup (urls (AsyncSession.table db)) ->
  NoDup (urls collected) ->
  exists db' n,
    collect_api.persist db collected = Ok (db', n)
    /\ NoDup (urls (AsyncSession.table db'))
    /\ (forall d, d ∈ collected -> Demand.source_url d ∈ urls (AsyncSession.table db'))
    /\ collect_api.persist db' collected = Ok (db', 0).
Proof.
  intros Hpend Htable Hbatch.
  assert (Hunamb : forall t c, NoDup (urls (AsyncSession.table t)) ->
            forallb (fun d => negb (ambiguous t d)) c = true).
  { intros t c Ht. apply forallb_forall. intros x _.
    rewrite (distinct_urls_unambiguous t x Ht). reflexivity. }
  unfold collect_api.persist.
  rewrite (persist_loop_unambiguous db collected 0 (Hunamb db collected Htable)).
  cbn [rbind fst snd AsyncSession.commit AsyncSession.table AsyncSession.pending].
  rewrite Hpend. simpl app.
  set (added := List.filter (is_new db) collected).
  set (db' := {| AsyncSession.table := AsyncSession.table db ++ added;
                 AsyncSession.pending := [] |}).
  assert (Hnodup : NoDup (urls (AsyncSession.table db'))).
  { simpl. unfold urls. rewrite map_app. apply NoDup_app. split; [exact Htable|]. split.
    - intros u Hu Hadded. apply list_elem_of_fmap in Hadded.
      destruct Hadded as (d & -> & Hd). apply list_elem_of_In, filter_In in Hd.
      destruct Hd as [_ Hd]. apply is_new_iff in Hd. exact (Hd Hu).
    - apply urls_filter_NoDup. exact Hbatch. }
  assert (Hall : forall d, d ∈ collected ->
            Demand.source_url d ∈ urls (AsyncSession.table db')).
  { intros d Hd. simpl. unfold urls. rewrite map_app, elem_of_app.
    destruct (is_new db d) eqn:Hnew.
    - right. apply list_elem_of_fmap. exists d. split; [reflexivity|].
      apply list_elem_of_In, filter_In. split; [apply list_elem_of_In; exact Hd|exact Hnew].
    - left. destruct (decide (Demand.source_url d ∈ urls (AsyncSession.table db)))
        as [Hin|Hout]; [exact Hin|].
      apply is_new_iff in Hout. congruence. }
  exists db', (0 + Z.of_nat (length added)). split; [reflexivity|].
  split; [exact Hnodup|]. split; [exact Hall|].
  rewrite (persist_loop_unambiguous db' collected 0 (Hunamb db' collected Hnodup)).
  assert (Hnone : List.filter (is_new db') collected = []).
  { rewrite (List.filter_ext_in (is_new db') (fun _ => false)); [apply List.filter_false|].
    intros d Hd. destruct (is_new db' d) eqn:Hnew; [|reflexivity].
    apply is_new_iff in Hnew. exfalso. apply Hnew, Hall, list_elem_of_In, Hd. }
  rewrite Hnone. simpl. unfold AsyncSession.commit. simpl. rewrite app_nil_r. reflexivity.
Qed.

(** ** The ingestion trigger *)

(** C1.  For each of the three platforms, with the collector configured,
    [collect_data] fails: the call [collector.collect(query=, subreddit=,
    repo=, user=, time_filter=, limit=)] names keywords the collector's
    [collect] does not take, the [TypeError] is caught by the handler, the
    session is rolled back and the reply is HTTP 500.  No request is sent to
    the platform and nothing is stored, whatever the request fields. *)
Theorem collect_data_fails_on_keywords
    (w : World) (db : AsyncSession.t) (query subreddit repo user : option string)
    (time_filter : TimeFilterEnum) (limit : Z) (settings : Settings)
    (c : ascii) (token : string) :
  let request p :=
    {| req_platform := p; req_query := query; req_subreddit := subreddit;
       req_repo := repo; req_user := user; req_time_filter := time_filter;
       req_limit := limit |} in
  let failure msg :=
    {| collect_api.calls := [];
       collect_api.db_after := AsyncSession.rollback db;
       collect_api.reply := inl {| status_code := 500;
                                   detail := "数据收集失败: " +:+ msg |} |} in
  collect_api.collect_data w settings (request reddit) db
  = failure "RedditCollector.collect() got an unexpected keyword argument 'repo'"
  /\ collect_api.collect_data w settings (request github_) db
     = failure "GitHubCollector.collect() got an unexpected keyword argument 'subreddit'"
  /\ collect_api.collect_data w {| twitter_bearer_token := String c token |}
       (request twitter) db
     = failure "TwitterCollector.collect() got an unexpected keyword argument 'subreddit'".
Proof.
  repeat split.
Qed.

(** C5.  With no bearer token, a Twitter collection run is answered with
    HTTP 400 and the "Twitter API not configured" detail before [collect] is
    called: no request is sent, the session is untouched.  The collector
    reports the state through [is_configured] and its [collect] sends nothing
    either.  The reply differs from every successful reply, from the reply to
    an unsupported platform and from every failed run. *)
Theorem twitter_not_configured_is_reported
    (w : World) (db : AsyncSession.t) (query subreddit repo user : option string)
    (time_filter : TimeFilterEnum) (limit : Z) :
  let settings := {| twitter_bearer_token := "" |} in
  let request :=
    {| req_platform := twitter; req_query := query; req_subreddit := subreddit;
       req_repo := repo; req_user := user; req_time_filter := time_filter;
       req_limit := limit |} in
  let not_configured : HTTPException + CollectResponse :=
    inl {| status_code := 400;
           detail := "Twitter API未配置，请在.env文件中设置Twitter API密钥" |} in
  collect_api.collect_data w settings request db
  = {| collect_api.calls := []; collect_api.db_after := db;
       collect_api.reply := not_configured |}
  /\ TwitterCollector.is_configured (TwitterCollector.__init__ w settings) = false
  /\ TwitterCollector.collect (TwitterCollector.__init__ w settings) query user limit
     = ([], [])
  /\ (forall response : CollectResponse, not_configured <> inr response)
  /\ (forall detail', not_configured <> inl {| status_code := 500; detail := detail' |})
  /\ (forall w' settings' request' db',
        req_platform request' <> twitter ->
        collect_api.reply (collect_api.collect_data w' settings' request' db')
        <> not_configured)
  /\ (forall w' c token request' db',
        collect_api.reply
          (collect_api.collect_data w' {| twitter_bearer_token := String c token |}
             request' db')
        <> not_configured).
Proof.
  intros settings request not_configured.
  split; [reflexivity|]. split; [reflexivity|]. split; [reflexivity|].
  split; [discriminate|]. split; [discriminate|]. split.
  - intros w' settings' [p q s r u tf l] db' Hp. simpl in Hp.
    destruct p; try congruence; vm_compute; discriminate.
  - intros w' c token [p q s r u tf l] db'.
    destruct p; vm_compute; discriminate.
Qed.

Lemma twitter_not_configured_is_reported_witness :
  collect_api.reply
    (collect_api.collect_data sample_world {| twitter_bearer_token := "" |}
       {| req_platform := all; req_query := None; req_subreddit := None;
          req_repo := None; req_user := None; req_time_filter := month;
          req_limit := 50 |} empty_db)
  <> inl {| status_code := 400;
            detail := "Twitter API未配置，请在.env文件中设置Twitter API密钥" |}.
Proof.
  apply (proj1 (proj2 (proj2 (proj2 (proj2 (proj2
           (twitter_not_configured_is_reported sample_world empty_db
              None None None None month 50))))))
           sample_world {| twitter_bearer_token := "" |}
           {| req_platform := all; req_query := None; req_subreddit := None;
              req_repo := None; req_user := None; req_time_filter := month;
              req_limit := 50 |} empty_db).
  simpl. discriminate.
Defined.

(** ** Fetch modes *)




(** ** The Reddit interaction score *)

Lemma binary_round_aux_sign s m e l :
  match binary_round_aux PyFloat.prec PyFloat.emax s m e l with
  | S754_zero s' | S754_infinity s' | S754_finite s' _ _ => s' = s
  | S754_nan => True
  end.
Proof.
  unfold binary_round_aux.
  destruct (shr_fexp PyFloat.prec PyFloat.emax m e l) as [mrs' e'].
  destruct (shr_fexp PyFloat.prec PyFloat.emax _ e' loc_Exact) as [mrs'' e''].
  destruct (shr_m mrs''); [reflexivity| |exact I].
  destruct (Z.leb e'' _); reflexivity.
Qed.

Lemma binary_round_not_negative m e :
  not_negative (binary_round PyFloat.prec PyFloat.emax false m e).
Proof.
  unfold binary_round.
  destruct (shl_align m e _) as [mz ez].
  pose proof (binary_round_aux_sign false (Zpos mz) ez loc_Exact) as H.
  destruct (binary_round_aux _ _ _ _ _ _) as [s'|s'| |s' m' e']; subst; exact I.
Qed.

Lemma of_int_not_negative n x :
  0 <= n -> PyFloat.of_int n = Ok x -> not_negative x.
Proof.
  unfold PyFloat.of_int, binary_normalize. intros Hn.
  destruct n as [|p|p]; [intros [= <-]; exact I| |lia].
  pose proof (binary_round_not_negative p 0) as H.
  destruct (binary_round _ _ _ _ _) as [s'|s'| |s' m' e']; intros [= <-]; exact H.
Qed.

Lemma mul_not_negative x y :
  not_negative x -> not_negative y -> not_negative (PyFloat.mul x y).
Proof.
  unfold PyFloat.mul, SFmul.
  destruct x as [sx|[|]| |[|] mx ex], y as [sy|[|]| |[|] my ey];
    simpl; try tauto; intros _ _.
  pose proof (binary_round_aux_sign false (Zpos (mx * my)) (ex + ey) loc_Exact) as H.
  destruct (binary_round_aux _ _ _ _ _ _) as [s'|s'| |s' m' e']; subst; exact I.
Qed.

Lemma add_not_negative x y :
  not_negative x -> not_negative y -> not_negative (PyFloat.add x y).
Proof.
  unfold PyFloat.add, SFadd.
  destruct x as [[|]|[|]| |[|] mx ex], y as [[|]|[|]| |[|] my ey];
    simpl; try tauto; intros _ _.
  destruct (shl_align mx ex (Z.min ex ey)) as [ax ?].
  destruct (shl_align my ey (Z.min ex ey)) as [ay ?]. simpl.
  apply binary_round_not_negative.
Qed.

Lemma to_int_not_negative x n :
  not_negative x -> PyFloat.to_int x = Ok n -> 0 <= n.
Proof.
  destruct x as [s|s| |[|] m e]; simpl; try tauto; try discriminate.
  - intros _ [= <-]. lia.
  - intros _ [= <-]. destruct (0 <=? e).
    + apply Z.shiftl_nonneg. lia.
    + apply Z.shiftr_nonneg. lia.
Qed.

Lemma nonneg_not_negative x : PyFloat.nonneg x = true -> not_negative x.
Proof. destruct x as [s|[|]| |[|] m e]; simpl; (discriminate || tauto). Qed.

Lemma interaction_score_of_nonneg s n :
  PyFloat.nonneg (praw.upvote_ratio s) = true ->
  0 <= praw.score s -> 0 <= praw.num_comments s ->
  RedditCollector.interaction_score_of s = Ok n -> 0 <= n.
Proof.
  intros Hr Hs Hc. unfold RedditCollector.interaction_score_of, PyFloat.mul_int, PyFloat.add_int.
  destruct (PyFloat.of_int (praw.score s)) as [fs|] eqn:Hfs; simpl; [|discriminate].
  destruct (PyFloat.of_int (praw.num_comments s * 2)) as [fc|] eqn:Hfc; simpl; [|discriminate].
  apply to_int_not_negative, add_not_negative.
  - apply mul_not_negative; [apply nonneg_not_negative, Hr|].
    apply (of_int_not_negative _ _ Hs Hfs).
  - apply (of_int_not_negative (praw.num_comments s * 2)); [lia|exact Hfc].
Qed.

(** [int(x)] is truncation toward zero: the quotient of the signed mantissa
    by the power of two, rounded toward zero. *)
Lemma to_int_truncates (s : bool) (m : positive) (e : Z) :
  e < 0 ->
  PyFloat.to_int (S754_finite s m e)
  = Ok (Z.quot (if s then Zneg m else Zpos m) (2 ^ (- e))).
Proof.
  intros He. unfold PyFloat.to_int.
  destruct (0 <=? e) eqn:Hle; [apply Z.leb_le in Hle; lia|].
  rewrite Z.shiftr_div_pow2 by lia.
  assert (Hpow : 0 < 2 ^ (- e)) by (apply Z.pow_pos_nonneg; lia).
  f_equal. destruct s.
  - change (Zneg m) with (- Zpos m). rewrite Z.quot_opp_l by lia.
    rewrite Z.quot_div_nonneg by lia. reflexivity.
  - rewrite Z.quot_div_nonneg by lia. reflexivity.
Qed.

(** C3 as stated fails: for score 3, ratio 0.9 and no comments the record
    carries 2, the float 2.7 truncated, where
    [round(upvote_ratio * score) + num_comments * 2] is 3. *)
Lemma reddit_interaction_score_is_not_rounded :
  exists r,
    RedditCollector._parse_submission sample_world low_score_submission None = Some r
    /\ Demand.interaction_score r = 2
    /\ spec_reddit_interaction_score low_score_submission = Ok 3
    /\ Ok (Demand.interaction_score r) <> spec_reddit_interaction_score low_score_submission.
Proof.
  destruct (RedditCollector._parse_submission sample_world low_score_submission None)
    as [r|] eqn:Hr; [|vm_compute in Hr; discriminate Hr].
  exists r. split; [reflexivity|].
  destruct (reddit_parse_inv _ _ _ _ Hr) as (c & n & _ & Hn & _ & -> & _).
  vm_compute in Hn. injection Hn as <-.
  split; [reflexivity|]. split; vm_compute; [reflexivity|discriminate].
Qed.

(** C3, amended.  For a Reddit submission that passes classification (and
    whose creation time converts), a record is returned exactly when the
    float [upvote_ratio * score + num_comments * 2] is finite (and the
    integer operands convert), and its interaction_score is that float
    truncated toward zero by [int(...)]: the sum is taken in floating point
    and nothing is rounded to nearest.  For score 100, ratio 0.9 and 10
    comments the score is 110, and for a ratio, score and comment count that
    are not negative the score is not negative. *)
Theorem reddit_interaction_score_truncated
    (w : World) (s : praw.Submission) (o : option string) (c : string) (t : Z) :
  RedditCollector._categorize_post (RedditCollector.content_of s) (praw.title s) = Some c ->
  fromtimestamp w (praw.created_utc s) = Ok t ->
  (forall r, RedditCollector._parse_submission w s o = Some r ->
     exists prod total,
       PyFloat.mul_int (praw.upvote_ratio s) (praw.score s) = Ok prod
       /\ PyFloat.add_int prod (praw.num_comments s * 2) = Ok total
       /\ PyFloat.to_int total = Ok (Demand.interaction_score r))
  /\ (forall n, RedditCollector.interaction_score_of s = Ok n ->
        exists r, RedditCollector._parse_submission w s o = Some r
                  /\ Demand.interaction_score r = n /\ Demand.category r = c)
  /\ (forall e, RedditCollector.interaction_score_of s = Raise e ->
        RedditCollector._parse_submission w s o = None)
  /\ (forall sign m e, e < 0 ->
        PyFloat.to_int (S754_finite sign m e)
        = Ok (Z.quot (if sign then Zneg m else Zpos m) (2 ^ (- e))))
  /\ (praw.upvote_ratio s = PyFloat.f0_9 -> praw.score s = 100 ->
      praw.num_comments s = 10 ->
      exists r, RedditCollector._parse_submission w s o = Some r
                /\ Demand.interaction_score r = 110)
  /\ (PyFloat.nonneg (praw.upvote_ratio s) = true ->
      0 <= praw.score s -> 0 <= praw.num_comments s ->
      forall r, RedditCollector._parse_submission w s o = Some r ->
                0 <= Demand.interaction_score r).
Proof.
  intros Hc Ht.
  assert (Hrun : forall n, RedditCollector.interaction_score_of s = Ok n ->
            exists r, RedditCollector._parse_submission w s o = Some r
                      /\ Demand.interaction_score r = n /\ Demand.category r = c).
  { intros n Hn.
    unfold RedditCollector._parse_submission, RedditCollector.parse_submission_body.
    rewrite Hc. destruct (RedditCollector._analyze_sentiment w _) as [sent sc].
    rewrite Hn. simpl. rewrite Ht. simpl. eexists. split; [reflexivity|].
    split; reflexivity. }
  split; [|split; [exact Hrun|split; [|split; [|split]]]].
  - intros r Hr. destruct (reddit_parse_inv _ _ _ _ Hr) as (c' & n & _ & Hn & _ & -> & _).
    revert Hn. unfold RedditCollector.interaction_score_of.
    destruct (PyFloat.mul_int _ _) as [prod|] eqn:Hprod; simpl; [|discriminate].
    destruct (PyFloat.add_int prod _) as [total|] eqn:Htotal; simpl; [|discriminate].
    intros Hn. exists prod, total. auto.
  - intros e He.
    unfold RedditCollector._parse_submission, RedditCollector.parse_submission_body.
    rewrite Hc. destruct (RedditCollector._analyze_sentiment w _) as [sent sc].
    rewrite He. reflexivity.
  - intros sign m e He. apply to_int_truncates. exact He.
  - intros Hratio Hscore Hcomments.
    destruct (Hrun 110) as (r & Hr & Hn & _); [|eauto].
    unfold RedditCollector.interaction_score_of.
    rewrite Hratio, Hscore, Hcomments. vm_compute. reflexivity.
  - intros Hratio Hscore Hcomments r Hr.
    destruct (reddit_parse_inv _ _ _ _ Hr) as (c' & n & _ & Hn & _ & -> & _).
    apply (interaction_score_of_nonneg s n Hratio Hscore Hcomments Hn).
Qed.

Lemma reddit_interaction_score_truncated_witness :
  exists r,
    RedditCollector._parse_submission sample_world sample_submission (Some "webdev") = Some r
    /\ Demand.interaction_score r = 110.
Proof.
  apply (proj1 (proj2 (proj2 (proj2 (proj2
           (reddit_interaction_score_truncated sample_world sample_submission
              (Some "webdev") "complaint" 1700000000 eq_refl eq_refl))))));
    reflexivity.
Defined.

(** * Further properties of the collectors and the coordinator *)

(** ** Strings: lowering and the substring test *)

Lemma lower_ascii_idem c : Py.lower_ascii (Py.lower_ascii c) = Py.lower_ascii c.
Proof. destruct c as [[] [] [] [] [] [] [] []]; reflexivity. Qed.

Lemma lower_idem s : Py.lower (Py.lower s) = Py.lower s.
Proof.
  induction s as [|c s IH]; simpl; [reflexivity|].
  rewrite lower_ascii_idem, IH. reflexivity.
Qed.

Lemma append_cons c (a b : string) : String c a +:+ b = String c (a +:+ b).
Proof. reflexivity. Qed.

Lemma append_nil (b : string) : "" +:+ b = b.
Proof. reflexivity. Qed.

Lemma lower_app a b : Py.lower (a +:+ b) = Py.lower a +:+ Py.lower b.
Proof.
  induction a as [|c a IH]; [reflexivity|].
  rewrite append_cons. simpl. rewrite IH, append_cons. reflexivity.
Qed.

Lemma append_assoc (a b c : string) : (a +:+ b) +:+ c = a +:+ (b +:+ c).
Proof.
  induction a as [|x a IH]; [reflexivity|].
  rewrite !append_cons, IH. reflexivity.
Qed.

Lemma prefix_iff kw text :
  String.prefix kw text = true <-> exists post, text = kw +:+ post.
Proof.
  revert text. induction kw as [|c kw IH]; intros text.
  - split; [intros _; exists text; reflexivity|].
    intros _. destruct text; reflexivity.
  - destruct text as [|d text].
    + split; [discriminate|]. intros [post H]. rewrite append_cons in H. discriminate.
    + simpl. destruct (Ascii.ascii_dec c d) as [->|Hne].
      * rewrite IH. split; intros [post H]; exists post.
        -- rewrite append_cons, H. reflexivity.
        -- rewrite append_cons in H. congruence.
      * split; [discriminate|]. intros [post H]. rewrite append_cons in H. congruence.
Qed.

Lemma contains_cons kw d text :
  Py.contains kw (String d text)
  = String.prefix kw (String d text) || Py.contains kw text.
Proof. reflexivity. Qed.

(** [kw in text] holds exactly when [text] is some prefix, then [kw], then
    some suffix. *)
Lemma contains_iff kw text :
  Py.contains kw text = true <-> exists pre post, text = pre +:+ kw +:+ post.
Proof.
  induction text as [|d text IH].
  - unfold Py.contains. rewrite orb_false_r, prefix_iff. split.
    + intros [post H]. exists "", post. exact H.
    + intros (pre & post & H). destruct pre as [|c pre].
      * exists post. exact H.
      * rewrite append_cons in H. discriminate.
  - rewrite contains_cons, orb_true_iff, IH, prefix_iff. split.
    + intros [[post H]|(pre & post & H)].
      * exists "", post. exact H.
      * exists (String d pre), post. rewrite append_cons, H. reflexivity.
    + intros ([|c pre] & post & H).
      * left. exists post. exact H.
      * right. rewrite append_cons in H. injection H as _ H. exists pre, post. exact H.
Qed.

Lemma contains_app_l kw a b :
  Py.contains kw a = true -> Py.contains kw (a +:+ b) = true.
Proof.
  rewrite !contains_iff. intros (pre & post & ->). exists pre, (post +:+ b).
  rewrite !append_assoc. reflexivity.
Qed.

Lemma contains_app_r kw a b :
  Py.contains kw b = true -> Py.contains kw (a +:+ b) = true.
Proof.
  rewrite !contains_iff. intros (pre & post & ->). exists (a +:+ pre), post.
  rewrite !append_assoc. reflexivity.
Qed.

Lemma any_in_app_l kws a b :
  Py.any_in kws a = true -> Py.any_in kws (a +:+ b) = true.
Proof.
  intros (kw & Hin & Hc)%any_in_inv. apply (any_in_true _ _ kw Hin), contains_app_l, Hc.
Qed.

Lemma any_in_app_r kws a b :
  Py.any_in kws b = true -> Py.any_in kws (a +:+ b) = true.
Proof.
  intros (kw & Hin & Hc)%any_in_inv. apply (any_in_true _ _ kw Hin), contains_app_r, Hc.
Qed.

(** ** Classification and letter case *)

Lemma reddit_full_text_lower content title :
  RedditCollector.full_text_lower content title
  = Py.lower title +:+ " " +:+ Py.lower content.
Proof. unfold RedditCollector.full_text_lower. rewrite !lower_app. reflexivity. Qed.

Lemma github_full_text_lower content title :
  GitHubCollector.full_text_lower content title
  = Py.lower title +:+ " " +:+ Py.lower content.
Proof. unfold GitHubCollector.full_text_lower. rewrite !lower_app. reflexivity. Qed.

Lemma categorize_by_labels_lower ls1 ls2 :
  map (fun l => Py.lower (github.name l)) ls1
  = map (fun l => Py.lower (github.name l)) ls2 ->
  GitHubCollector.categorize_by_labels ls1 = GitHubCollector.categorize_by_labels ls2.
Proof.
  revert ls2. induction ls1 as [|l1 ls1 IH]; intros [|l2 ls2]; simpl; try discriminate.
  - reflexivity.
  - intros [= Hname Hrest]. rewrite Hname, (IH ls2 Hrest). reflexivity.
Qed.

(** X1.  Classification and tag extraction are insensitive to letter case on
    every platform: two items whose title, body (and, on GitHub, label names)
    agree after lowercasing get the same category and the same tags. *)
Theorem classification_ignores_case :
  (forall content1 title1 content2 title2 category,
      Py.lower content1 = Py.lower content2 -> Py.lower title1 = Py.lower title2 ->
      RedditCollector._categorize_post content1 title1
      = RedditCollector._categorize_post content2 title2
      /\ RedditCollector._extract_tags content1 title1 category
         = RedditCollector._extract_tags content2 title2 category)
  /\ (forall content1 title1 labels1 content2 title2 labels2 category,
      Py.lower content1 = Py.lower content2 -> Py.lower title1 = Py.lower title2 ->
      map (fun l => Py.lower (github.name l)) labels1
      = map (fun l => Py.lower (github.name l)) labels2 ->
      GitHubCollector._categorize_issue content1 title1 labels1
      = GitHubCollector._categorize_issue content2 title2 labels2
      /\ GitHubCollector._extract_tags content1 title1 category
         = GitHubCollector._extract_tags content2 title2 category)
  /\ (forall content1 content2 category,
      Py.lower content1 = Py.lower content2 ->
      TwitterCollector._categorize_tweet content1
      = TwitterCollector._categorize_tweet content2
      /\ TwitterCollector._extract_tags content1 category
         = TwitterCollector._extract_tags content2 category).
Proof.
  split; [|split].
  - intros c1 t1 c2 t2 cat Hc Ht.
    unfold RedditCollector._categorize_post, RedditCollector._extract_tags.
    rewrite !reddit_full_text_lower, Hc, Ht. split; reflexivity.
  - intros c1 t1 l1 c2 t2 l2 cat Hc Ht Hl.
    unfold GitHubCollector._categorize_issue, GitHubCollector._extract_tags.
    rewrite !github_full_text_lower, Hc, Ht, (categorize_by_labels_lower l1 l2 Hl).
    split; reflexivity.
  - intros c1 c2 cat Hc.
    unfold TwitterCollector._categorize_tweet, TwitterCollector._extract_tags.
    rewrite Hc. split; reflexivity.
Qed.

Lemma classification_ignores_case_witness :
  TwitterCollector._categorize_tweet "PLEASE ADD Dark Mode"
  = TwitterCollector._categorize_tweet "please add dark mode".
Proof.
  apply (proj2 (proj2 classification_ignores_case)
           "PLEASE ADD Dark Mode" "please add dark mode" "feature-request").
  reflexivity.
Defined.

(** ** A keyword in the title or in the body *)

(** X2.  A Reddit post is a feature request as soon as a request keyword
    occurs, in any letter case, in its title alone or in its body alone.  On
    GitHub an issue none of whose labels decides is a feature request as soon
    as a feature keyword occurs in its title alone or in its body alone. *)
Theorem keyword_in_title_or_body_decides :
  (forall s : praw.Submission,
      Py.any_in RedditCollector.request_keywords (Py.lower (praw.title s)) = true
      \/ Py.any_in RedditCollector.request_keywords (Py.lower (praw.selftext s)) = true ->
      RedditCollector._categorize_post (RedditCollector.content_of s) (praw.title s)
      = Some "feature-request")
  /\ (forall (i : github.Issue) (body : string),
      Forall (fun l => label_hits l = false) (github.labels i) ->
      Py.any_in GitHubCollector.feature_keywords (Py.lower (github.title i)) = true
      \/ (github.body i = Some body
          /\ Py.any_in GitHubCollector.feature_keywords (Py.lower body) = true) ->
      GitHubCollector._categorize_issue (GitHubCollector.content_of i) (github.title i)
        (github.labels i) = Some "feature-request").
Proof.
  split.
  - intros s H. unfold RedditCollector._categorize_post.
    rewrite reddit_full_text_lower.
    assert (Hhit : Py.any_in RedditCollector.request_keywords
                     (Py.lower (praw.title s) +:+ " "
                      +:+ Py.lower (RedditCollector.content_of s)) = true).
    { destruct H as [H|H]; [apply any_in_app_l, H|].
      apply any_in_app_r, any_in_app_r. unfold RedditCollector.content_of.
      destruct (praw.selftext s); [vm_compute in H; discriminate H|exact H]. }
    rewrite Hhit. reflexivity.
  - intros i body Hlabels H.
    unfold GitHubCollector._categorize_issue, GitHubCollector.categorize_by_text.
    rewrite (categorize_by_labels_none _ Hlabels), github_full_text_lower.
    assert (Hhit : Py.any_in GitHubCollector.feature_keywords
                     (Py.lower (github.title i) +:+ " "
                      +:+ Py.lower (GitHubCollector.content_of i)) = true).
    { destruct H as [H|[Hb H]]; [apply any_in_app_l, H|].
      apply any_in_app_r, any_in_app_r. unfold GitHubCollector.content_of.
      rewrite Hb. destruct body; [vm_compute in H; discriminate H|exact H]. }
    rewrite Hhit. reflexivity.
Qed.

Lemma keyword_in_title_or_body_decides_witness :
  RedditCollector._categorize_post (RedditCollector.content_of sample_submission)
    "We NEED this" = Some "feature-request".
Proof.
  apply (proj1 keyword_in_title_or_body_decides
           {| praw.selftext := praw.selftext sample_submission;
              praw.title := "We NEED this";
              praw.upvote_ratio := PyFloat.f0_9; praw.score := 1;
              praw.num_comments := 0; praw.permalink := "/r/x/1";
              praw.author := None; praw.created_utc := 0; praw.subreddit := "x" |}).
  left. vm_compute. reflexivity.
Defined.

(** ** Sentiment *)

Lemma SFleb_negatives_flip m e m0 e0 :
  SFleb (S754_finite true m e) (S754_finite true m0 e0) = true ->
  SFleb (S754_finite false m0 e0) (S754_finite false m e) = true.
Proof.
  unfold SFleb, SFcompare.
  rewrite (Z.compare_antisym e e0).
  destruct (e ?= e0) eqn:He; cbn [CompOpp]; try (intros H; discriminate H); [|reflexivity].
  pose proof (Pos.compare_antisym m m0) as Ha.
  unfold Pos.compare in Ha. rewrite Ha.
  destruct (Pos.compare_cont Eq m m0); cbn [CompOpp]; intros H;
    (reflexivity || discriminate H).
Qed.

Lemma SFleb_positive_left_inv m0 e0 c :
  SFleb (S754_finite false m0 e0) c = true ->
  (exists m e, c = S754_finite false m e) \/ c = S754_infinity false.
Proof.
  destruct c as [s|[|]| |[|] m e]; eauto; intros H; discriminate H.
Qed.

Lemma SFleb_negative_right_inv m0 e0 c :
  SFleb c (S754_finite true m0 e0) = true ->
  (exists m e, c = S754_finite true m e) \/ c = S754_infinity true.
Proof.
  destruct c as [s|[|]| |[|] m e]; eauto; intros H; discriminate H.
Qed.

Lemma leb_positive_literal_inv c :
  PyFloat.leb PyFloat.f0_05 c = true ->
  (exists m e, c = S754_finite false m e) \/ c = S754_infinity false.
Proof. apply SFleb_positive_left_inv. Qed.

Lemma leb_negative_literal_abs c :
  PyFloat.leb c (PyFloat.neg PyFloat.f0_05) = true ->
  PyFloat.leb PyFloat.f0_05 (PyFloat.abs c) = true.
Proof.
  intros H. pose proof H as H'.
  apply SFleb_negative_right_inv in H'. destruct H' as [(m & e & ->)| ->].
  - apply SFleb_negatives_flip in H. exact H.
  - reflexivity.
Qed.

Lemma analyze_sentiment_cases c :
  let '(label, score) := analyze_sentiment c in
  (label = "positive" /\ PyFloat.leb PyFloat.f0_05 c = true /\ score = c)
  \/ (label = "negative" /\ PyFloat.leb PyFloat.f0_05 c = false
      /\ PyFloat.leb c (PyFloat.neg PyFloat.f0_05) = true /\ score = PyFloat.abs c)
  \/ (label = "neutral" /\ PyFloat.leb PyFloat.f0_05 c = false
      /\ PyFloat.leb c (PyFloat.neg PyFloat.f0_05) = false /\ score = PyFloat.f0_5).
Proof.
  unfold analyze_sentiment.
  destruct (PyFloat.leb PyFloat.f0_05 c) eqn:Hp; [left; auto|].
  destruct (PyFloat.leb c (PyFloat.neg PyFloat.f0_05)) eqn:Hn; [right; left; auto|].
  right; right; auto.
Qed.

Lemma analyze_sentiment_range c :
  fst (analyze_sentiment c) ∈ ["positive"; "negative"; "neutral"]
  /\ PyFloat.leb PyFloat.f0_05 (snd (analyze_sentiment c)) = true.
Proof.
  pose proof (analyze_sentiment_cases c) as H.
  destruct (analyze_sentiment c) as [label score]. cbn [fst snd].
  destruct H as [(-> & Hp & ->)|[(-> & _ & Hn & ->)|(-> & _ & _ & ->)]].
  - split; [left|exact Hp].
  - split; [right; left|apply leb_negative_literal_abs, Hn].
  - split; [right; right; left|reflexivity].
Qed.

Lemma reddit_parse_sentiment w s o r :
  RedditCollector._parse_submission w s o = Some r ->
  exists compound,
    (Demand.sentiment r, Demand.sentiment_score r) = analyze_sentiment compound.
Proof.
  unfold RedditCollector._parse_submission, RedditCollector.parse_submission_body.
  destruct (RedditCollector._categorize_post _ _) as [c|]; [|discriminate].
  unfold RedditCollector._analyze_sentiment.
  destruct (analyze_sentiment _) as [sent sc] eqn:Hs.
  destruct (RedditCollector.interaction_score_of s) as [n|e]; simpl; [|discriminate].
  destruct (fromtimestamp w _) as [t|e]; simpl; [|discriminate].
  intros [= <-]. simpl. rewrite <- Hs. eauto.
Qed.

Lemma github_parse_sentiment w i o r :
  GitHubCollector._parse_issue w i o = Some r ->
  exists compound,
    (Demand.sentiment r, Demand.sentiment_score r) = analyze_sentiment compound.
Proof. rewrite github_parse_none. discriminate. Qed.

Lemma twitter_parse_sentiment self tw o r :
  TwitterCollector._parse_tweet self tw o = Some r ->
  exists compound,
    (Demand.sentiment r, Demand.sentiment_score r) = analyze_sentiment compound.
Proof.
  intros H. destruct (twitter_parse_some _ _ _ _ H)
    as (c & products & metrics & _ & _ & _ & _ & _ & _ & _ & Hs & _).
  unfold TwitterCollector._analyze_sentiment in Hs. eauto.
Qed.

(** X3.  The sentiment of a compound score: "positive" with the compound as
    magnitude exactly when [compound >= 0.05]; otherwise "negative" with
    [abs(compound)] exactly when [compound <= -0.05]; otherwise (also for a
    NaN) "neutral" with 0.5.  The two tests exclude each other, and the
    magnitude is at least 0.05 in every case.  Every record a collector
    returns carries one of the three labels and a magnitude of at least
    0.05. *)
Theorem sentiment_label_and_magnitude (w : World) :
  (forall compound,
      (fst (analyze_sentiment compound) = "positive"
       <-> PyFloat.leb PyFloat.f0_05 compound = true)
      /\ (fst (analyze_sentiment compound) = "negative"
          <-> PyFloat.leb compound (PyFloat.neg PyFloat.f0_05) = true)
      /\ (PyFloat.leb PyFloat.f0_05 compound = true ->
          snd (analyze_sentiment compound) = compound)
      /\ (PyFloat.leb compound (PyFloat.neg PyFloat.f0_05) = true ->
          snd (analyze_sentiment compound) = PyFloat.abs compound)
      /\ (fst (analyze_sentiment compound) = "neutral" ->
          snd (analyze_sentiment compound) = PyFloat.f0_5))
  /\ analyze_sentiment S754_nan = ("neutral", PyFloat.f0_5)
  /\ (forall r self query target time_filter state limit,
      r ∈ snd (RedditCollector.collect w query target time_filter limit)
      \/ r ∈ snd (GitHubCollector.collect w query target state limit)
      \/ r ∈ snd (TwitterCollector.collect self query target limit) ->
      Demand.sentiment r ∈ ["positive"; "negative"; "neutral"]
      /\ PyFloat.leb PyFloat.f0_05 (Demand.sentiment_score r) = true).
Proof.
  split; [|split; [reflexivity|]].
  - intros c.
    assert (Hexcl : PyFloat.leb PyFloat.f0_05 c = true ->
                    PyFloat.leb c (PyFloat.neg PyFloat.f0_05) = false).
    { intros [(m & e & ->)| ->]%leb_positive_literal_inv; reflexivity. }
    pose proof (analyze_sentiment_cases c) as H.
    destruct (analyze_sentiment c) as [label score]. cbn [fst snd].
    destruct H as [(-> & Hp & ->)|[(-> & Hp & Hn & ->)|(-> & Hp & Hn & ->)]].
    + rewrite Hp, (Hexcl Hp). repeat split; auto; discriminate.
    + rewrite Hp, Hn. repeat split; auto; discriminate.
    + rewrite Hp, Hn. repeat split; auto; discriminate.
  - intros r self q target tf st l H.
    assert (Hs : exists compound,
               (Demand.sentiment r, Demand.sentiment_score r) = analyze_sentiment compound).
    { destruct H as [H|[H|H]].
      - apply reddit_collect_parsed in H. destruct H as (s & o & H).
        apply (reddit_parse_sentiment _ _ _ _ H).
      - apply github_collect_parsed in H. destruct H as (i & o & H).
        apply (github_parse_sentiment _ _ _ _ H).
      - apply twitter_collect_parsed in H. destruct H as (tw & o & H).
        apply (twitter_parse_sentiment _ _ _ _ H). }
    destruct Hs as (c & Hc). pose proof (analyze_sentiment_range c) as Hr.
    rewrite <- Hc in Hr. exact Hr.
Qed.

Lemma sentiment_label_and_magnitude_witness :
  match snd (RedditCollector.collect sample_world None (Some "webdev") "month" 50) with
  | r :: _ => Demand.sentiment r ∈ ["positive"; "negative"; "neutral"]
  | [] => False
  end.
Proof.
  destruct (snd (RedditCollector.collect sample_world None (Some "webdev") "month" 50))
    as [|r rest] eqn:Hrun.
  - vm_compute in Hrun. discriminate Hrun.
  - apply (proj2 (proj2 (sentiment_label_and_magnitude sample_world)) r
             (TwitterCollector.__init__ sample_world {| twitter_bearer_token := "" |})
             None (Some "webdev") "month" "open" 50).
    left. rewrite Hrun. left.
Defined.

(** ** The fields of a parsed record *)

Lemma reddit_parse_fields w s o r :
  RedditCollector._parse_submission w s o = Some r ->
  Demand.platform r = "reddit"
  /\ Demand.source_url r = "https://reddit.com" +:+ praw.permalink s
  /\ Demand.content r = RedditCollector.content_of s
  /\ Demand.title r = Some (praw.title s)
  /\ Demand.author r = Some (default "[deleted]" (praw.author s))
  /\ Demand.author_url r
     = (fun a => "https://reddit.com/user/" +:+ a) <$> praw.author s
  /\ Demand.upvotes r = praw.score s
  /\ Demand.comments r = praw.num_comments s
  /\ Demand.shares r = 0
  /\ Demand.subreddit r
     = Some (if Py.truthy o then default "" o else praw.subreddit s)
  /\ Demand.repository r = None
  /\ Demand.issue_number r = None
  /\ Demand.language r = "en"
  /\ Demand.product_mentioned r
     = RedditCollector._extract_product_mentions
         (praw.title s +:+ " " +:+ RedditCollector.content_of s)
  /\ fromtimestamp w (praw.created_utc s) = Ok (Demand.timestamp r).
Proof.
  unfold RedditCollector._parse_submission, RedditCollector.parse_submission_body.
  destruct (RedditCollector._categorize_post _ _) as [c|]; [|discriminate].
  destruct (RedditCollector._analyze_sentiment w _) as [sent sc].
  destruct (RedditCollector.interaction_score_of s) as [n|e]; simpl; [|discriminate].
  destruct (fromtimestamp w _) as [t|e]; simpl; [|discriminate].
  intros [= <-]. simpl. destruct (praw.author s); repeat split.
Qed.

Lemma github_parse_fields w i o r :
  GitHubCollector._parse_issue w i o = Some r ->
  let repo_name :=
    match o, github.repository i with
    | None, Some repo => Some (github.owner_login repo +:+ "/" +:+ github.repo_name repo)
    | _, _ => o
    end in
  Demand.platform r = "github"
  /\ Demand.source_url r = github.html_url i
  /\ Demand.content r = GitHubCollector.content_of i
  /\ Demand.title r = Some (github.title i)
  /\ Demand.author r = github.login <$> github.user i
  /\ Demand.author_url r = github.user_html_url <$> github.user i
  /\ Demand.timestamp r = github.created_at i
  /\ Demand.upvotes r = github.reactions_total_count i
  /\ Demand.comments r = github.comments i
  /\ Demand.shares r = 0
  /\ Demand.interaction_score r = github.reactions_total_count i + github.comments i * 2
  /\ Demand.subreddit r = None
  /\ Demand.repository r = repo_name
  /\ Demand.product_mentioned r
     = (if Py.truthy repo_name then [default "" repo_name] else [])
  /\ Demand.issue_number r = Some (github.number i)
  /\ Demand.language r = "en".
Proof. rewrite github_parse_none. discriminate. Qed.

Lemma twitter_parse_fields self tw o r :
  TwitterCollector._parse_tweet self tw o = Some r ->
  let metrics := default ∅ (tweepy.public_metrics tw) in
  Demand.platform r = "twitter"
  /\ Demand.source_url r = "https://twitter.com/i/web/status/" +:+ pretty (tweepy.id tw)
  /\ Demand.content r = tweepy.text tw
  /\ Demand.title r = None
  /\ Demand.author r = o
  /\ Demand.author_url r
     = (if Py.truthy o then Some ("https://twitter.com/" +:+ default "" o) else None)
  /\ Demand.timestamp r = tweepy.created_at tw
  /\ Demand.upvotes r = TwitterCollector.metric metrics "like_count"
  /\ Demand.comments r = TwitterCollector.metric metrics "reply_count"
  /\ Demand.shares r
     = TwitterCollector.metric metrics "retweet_count"
       + TwitterCollector.metric metrics "quote_count"
  /\ Demand.interaction_score r
     = TwitterCollector.metric metrics "like_count"
       + TwitterCollector.metric metrics "reply_count" * 2
       + TwitterCollector.metric metrics "retweet_count" * 3
       + TwitterCollector.metric metrics "quote_count" * 2
  /\ Demand.subreddit r = None
  /\ Demand.repository r = None
  /\ Demand.issue_number r = None
  /\ Demand.language r = "en"
  /\ TwitterCollector._extract_product_mentions (tweepy.entities tw) (tweepy.text tw)
     = Ok (Demand.product_mentioned r)
  /\ tweepy.public_metrics tw = Some metrics.
Proof.
  unfold TwitterCollector._parse_tweet, TwitterCollector.parse_tweet_body.
  destruct (TwitterCollector._categorize_tweet _) as [c|]; [|discriminate].
  destruct (TwitterCollector._analyze_sentiment self _) as [sent sc].
  destruct (TwitterCollector._extract_product_mentions _ _) as [products|e]; simpl;
    [|discriminate].
  destruct (tweepy.public_metrics tw) as [metrics|]; simpl; [|discriminate].
  intros [= <-]. simpl. repeat split.
Qed.

(** ** Categories and fields by platform *)

Lemma reddit_category_range content title c :
  RedditCollector._categorize_post content title = Some c ->
  c ∈ ["feature-request"; "complaint"; "bug-report"; "praise"; "discussion"].
Proof.
  unfold RedditCollector._categorize_post.
  repeat (destruct (Py.any_in _ _); [intros [= <-]; set_solver|]). discriminate.
Qed.

Lemma twitter_category_range content c :
  TwitterCollector._categorize_tweet content = Some c ->
  c ∈ ["feature-request"; "complaint"; "discussion"].
Proof.
  unfold TwitterCollector._categorize_tweet.
  repeat (destruct (Py.any_in _ _); [intros [= <-]; set_solver|]). discriminate.
Qed.

(** X4.  The category of a returned record is always one of the platform's
    own categories: five for Reddit; feature-request or bug-report for
    GitHub; feature-request, complaint or discussion for Twitter, which never
    yields bug-report or praise. *)
Theorem categories_by_platform (w : World) (r : Demand.t) :
  (forall query subreddit time_filter limit,
      r ∈ snd (RedditCollector.collect w query subreddit time_filter limit) ->
      Demand.category r
      ∈ ["feature-request"; "complaint"; "bug-report"; "praise"; "discussion"])
  /\ (forall query repo state limit,
      r ∈ snd (GitHubCollector.collect w query repo state limit) ->
      Demand.category r ∈ ["feature-request"; "bug-report"])
  /\ (forall self query user count,
      r ∈ snd (TwitterCollector.collect self query user count) ->
      Demand.category r ∈ ["feature-request"; "complaint"; "discussion"]
      /\ Demand.category r <> "bug-report" /\ Demand.category r <> "praise").
Proof.
  split; [|split].
  - intros q sub tf l (s & o & Hs)%reddit_collect_parsed.
    destruct (reddit_parse_inv _ _ _ _ Hs) as (c & n & Hc & _ & <- & _).
    apply (reddit_category_range _ _ _ Hc).
  - intros q repo st l (i & o & Hi)%github_collect_parsed.
    destruct (github_parse_inv _ _ _ _ Hi) as (c & Hc & <- & _).
    apply (github_category_range _ _ _ _ Hc).
  - intros self q u n (tw & o & Htw)%twitter_collect_parsed.
    destruct (twitter_parse_inv _ _ _ _ Htw) as (c & Hc & <- & _).
    pose proof (twitter_category_range _ _ Hc) as Hr.
    split; [exact Hr|].
    split; intros Heq; rewrite Heq in Hr;
      repeat (apply elem_of_cons in Hr; destruct Hr as [Hr|Hr]; [discriminate Hr|]);
      inversion Hr.
Qed.

Lemma categories_by_platform_witness :
  match snd (TwitterCollector.collect
               (TwitterCollector.__init__ sample_world {| twitter_bearer_token := "token" |})
               None (Some "notion") 50) with
  | r :: _ => Demand.category r ∈ ["feature-request"; "complaint"; "discussion"]
              /\ Demand.category r <> "bug-report" /\ Demand.category r <> "praise"
  | [] => False
  end.
Proof.
  destruct (snd (TwitterCollector.collect
                   (TwitterCollector.__init__ sample_world {| twitter_bearer_token := "token" |})
                   None (Some "notion") 50)) as [|r rest] eqn:Hrun.
  - vm_compute in Hrun. discriminate Hrun.
  - apply (proj2 (proj2 (categories_by_platform sample_world r))
             (TwitterCollector.__init__ sample_world {| twitter_bearer_token := "token" |})
             None (Some "notion") 50).
    rewrite Hrun. left.
Defined.

(** X5.  Platform-specific fields of a returned record.  Reddit: platform
    "reddit", a title, an author (never [None]), a subreddit, no repository
    or issue number, zero shares.  GitHub: platform "github", a title, an
    issue number, no subreddit, zero shares.  Twitter: platform "twitter",
    no title, no subreddit, repository or issue number.  The language is
    always "en". *)
Theorem platform_fields (w : World) (r : Demand.t) :
  (forall query subreddit time_filter limit,
      r ∈ snd (RedditCollector.collect w query subreddit time_filter limit) ->
      Demand.platform r = "reddit" /\ is_Some (Demand.title r)
      /\ is_Some (Demand.author r) /\ is_Some (Demand.subreddit r)
      /\ Demand.repository r = None /\ Demand.issue_number r = None
      /\ Demand.shares r = 0 /\ Demand.language r = "en")
  /\ (forall query repo state limit,
      r ∈ snd (GitHubCollector.collect w query repo state limit) ->
      Demand.platform r = "github" /\ is_Some (Demand.title r)
      /\ is_Some (Demand.issue_number r) /\ Demand.subreddit r = None
      /\ Demand.shares r = 0 /\ Demand.language r = "en")
  /\ (forall self query user count,
      r ∈ snd (TwitterCollector.collect self query user count) ->
      Demand.platform r = "twitter" /\ Demand.title r = None
      /\ Demand.subreddit r = None /\ Demand.repository r = None
      /\ Demand.issue_number r = None /\ Demand.language r = "en").
Proof.
  split; [|split].
  - intros q sub tf l (s & o & Hs)%reddit_collect_parsed.
    destruct (reddit_parse_fields _ _ _ _ Hs)
      as (-> & _ & _ & -> & -> & _ & _ & _ & -> & -> & -> & -> & -> & _).
    repeat split; eauto.
  - intros q repo st l (i & o & Hi)%github_collect_parsed.
    destruct (github_parse_fields _ _ _ _ Hi)
      as (-> & _ & _ & -> & _ & _ & _ & _ & _ & -> & _ & -> & _ & _ & -> & ->).
    repeat split; eauto.
  - intros self q u n (tw & o & Htw)%twitter_collect_parsed.
    destruct (twitter_parse_fields _ _ _ _ Htw)
      as (-> & _ & _ & -> & _ & _ & _ & _ & _ & _ & _ & -> & -> & -> & -> & _).
    repeat split.
Qed.

Lemma platform_fields_witness :
  match snd (RedditCollector.collect sample_world None None "month" 50) with
  | r :: _ => Demand.platform r = "reddit"
  | [] => False
  end.
Proof.
  destruct (snd (RedditCollector.collect sample_world None None "month" 50))
    as [|r rest] eqn:Hrun.
  - vm_compute in Hrun. discriminate Hrun.
  - apply (proj1 (platform_fields sample_world r) None None "month" 50).
    rewrite Hrun. left.
Defined.

(** ** The de-duplication key *)

Lemma append_inj_r (a x y : string) : a +:+ x = a +:+ y -> x = y.
Proof.
  induction a as [|c a IH]; [intros H; exact H|].
  rewrite !append_cons. intros [= H]. apply IH, H.
Qed.

(** X6.  The [source_url] of a record identifies the item it was parsed
    from: two Reddit records share it exactly when their submissions have the
    same permalink, two Twitter records exactly when their tweets have the
    same id, two GitHub records exactly when their issues have the same
    [html_url]; a Reddit record and a Twitter record never share it. *)
Theorem source_url_identifies_item (w : World) (self : TwitterCollector.t) :
  (forall s1 o1 r1 s2 o2 r2,
      RedditCollector._parse_submission w s1 o1 = Some r1 ->
      RedditCollector._parse_submission w s2 o2 = Some r2 ->
      (Demand.source_url r1 = Demand.source_url r2
       <-> praw.permalink s1 = praw.permalink s2))
  /\ (forall i1 o1 r1 i2 o2 r2,
      GitHubCollector._parse_issue w i1 o1 = Some r1 ->
      GitHubCollector._parse_issue w i2 o2 = Some r2 ->
      (Demand.source_url r1 = Demand.source_url r2
       <-> github.html_url i1 = github.html_url i2))
  /\ (forall t1 o1 r1 t2 o2 r2,
      TwitterCollector._parse_tweet self t1 o1 = Some r1 ->
      TwitterCollector._parse_tweet self t2 o2 = Some r2 ->
      (Demand.source_url r1 = Demand.source_url r2 <-> tweepy.id t1 = tweepy.id t2))
  /\ (forall s1 o1 r1 t2 o2 r2,
      RedditCollector._parse_submission w s1 o1 = Some r1 ->
      TwitterCollector._parse_tweet self t2 o2 = Some r2 ->
      Demand.source_url r1 <> Demand.source_url r2).
Proof.
  repeat apply conj.
  - intros s1 o1 r1 s2 o2 r2 H1 H2.
    destruct (reddit_parse_fields _ _ _ _ H1) as (_ & -> & _).
    destruct (reddit_parse_fields _ _ _ _ H2) as (_ & -> & _).
    split; [apply append_inj_r|intros ->; reflexivity].
  - intros i1 o1 r1 i2 o2 r2 H1 H2.
    destruct (github_parse_fields _ _ _ _ H1) as (_ & -> & _).
    destruct (github_parse_fields _ _ _ _ H2) as (_ & -> & _).
    reflexivity.
  - intros t1 o1 r1 t2 o2 r2 H1 H2.
    destruct (twitter_parse_fields _ _ _ _ H1) as (_ & -> & _).
    destruct (twitter_parse_fields _ _ _ _ H2) as (_ & -> & _).
    split; [|intros ->; reflexivity].
    intros H%append_inj_r. apply (inj pretty), H.
  - intros s1 o1 r1 t2 o2 r2 H1 H2.
    destruct (reddit_parse_fields _ _ _ _ H1) as (_ & -> & _).
    destruct (twitter_parse_fields _ _ _ _ H2) as (_ & -> & _).
    change "https://reddit.com" with ("https://" +:+ "reddit.com").
    change "https://twitter.com/i/web/status/"
      with ("https://" +:+ "twitter.com/i/web/status/").
    rewrite !append_assoc. intros H%append_inj_r.
    rewrite !append_cons in H. discriminate H.
Qed.

Lemma source_url_identifies_item_witness :
  match TwitterCollector._parse_tweet
          (TwitterCollector.__init__ sample_world {| twitter_bearer_token := "token" |})
          sample_tweet None,
        TwitterCollector._parse_tweet
          (TwitterCollector.__init__ sample_world {| twitter_bearer_token := "token" |})
          sample_tweet (Some "notion") with
  | Some r1, Some r2 => Demand.source_url r1 = Demand.source_url r2
  | _, _ => False
  end.
Proof.
  destruct (TwitterCollector._parse_tweet _ sample_tweet None) as [r1|] eqn:H1;
    [|vm_compute in H1; discriminate H1].
  destruct (TwitterCollector._parse_tweet _ sample_tweet (Some "notion")) as [r2|] eqn:H2;
    [|vm_compute in H2; discriminate H2].
  apply (proj1 (proj2 (proj2 (source_url_identifies_item sample_world
                                (TwitterCollector.__init__ sample_world
                                   {| twitter_bearer_token := "token" |}))))
           sample_tweet None r1 sample_tweet (Some "notion") r2 H1 H2).
  reflexivity.
Defined.

(** ** Which parse call produced a record *)

Lemma twitter_user_parsed_as self w u n r :
  r ∈ snd (TwitterCollector._collect_from_user self w u n) ->
  exists tw, TwitterCollector._parse_tweet self tw (Some u) = Some r.
Proof.
  unfold TwitterCollector._collect_from_user. simpl.
  destruct (twitter_get_user w u); simpl.
  - intros (tw & _ & Htw)%collect_parsed_inv; eauto.
  - inversion 1.
Qed.

Lemma twitter_search_parsed_as self w q n r :
  r ∈ snd (TwitterCollector._search_twitter self w q n) ->
  exists tw, TwitterCollector._parse_tweet self tw None = Some r.
Proof.
  unfold TwitterCollector._search_twitter. simpl.
  intros (tw & _ & Htw)%collect_parsed_inv; eauto.
Qed.

Lemma truthy_default o : Py.truthy o = true -> o = Some (default "" o).
Proof. destruct o as [[|c s]|]; (discriminate || reflexivity). Qed.

(** ** Authors *)

(** X7.  Authors of returned records.  Reddit: a record without an author
    URL belongs to a deleted account and carries the author "[deleted]";
    otherwise the URL is "https://reddit.com/user/" followed by the author.
    GitHub: author and author URL are both present or both absent.  Twitter:
    in user mode every record carries the requested user name and
    "https://twitter.com/" followed by it; in query mode no record has an
    author or an author URL. *)
Theorem authors_of_records (w : World) (r : Demand.t) :
  (forall query subreddit time_filter limit,
      r ∈ snd (RedditCollector.collect w query subreddit time_filter limit) ->
      (Demand.author_url r = None -> Demand.author r = Some "[deleted]")
      /\ (forall u, Demand.author_url r = Some u ->
            exists a, Demand.author r = Some a /\ u = "https://reddit.com/user/" +:+ a))
  /\ (forall query repo state limit,
      r ∈ snd (GitHubCollector.collect w query repo state limit) ->
      (Demand.author r = None <-> Demand.author_url r = None))
  /\ (forall self query user count,
      Py.truthy user = true ->
      r ∈ snd (TwitterCollector.collect self query user count) ->
      Demand.author r = user
      /\ Demand.author_url r = Some ("https://twitter.com/" +:+ default "" user))
  /\ (forall self query user count,
      Py.truthy user = false ->
      r ∈ snd (TwitterCollector.collect self query user count) ->
      Demand.author r = None /\ Demand.author_url r = None).
Proof.
  repeat apply conj.
  - intros q sub tf l (s & o & Hs)%reddit_collect_parsed.
    destruct (reddit_parse_fields _ _ _ _ Hs) as (_ & _ & _ & _ & -> & -> & _).
    destruct (praw.author s) as [a|]; simpl; split.
    + discriminate.
    + intros u [= <-]. eauto.
    + reflexivity.
    + intros u. discriminate.
  - intros q repo st l (i & o & Hi)%github_collect_parsed.
    destruct (github_parse_fields _ _ _ _ Hi) as (_ & _ & _ & _ & -> & -> & _).
    destruct (github.user i); simpl; split; (discriminate || reflexivity).
  - intros self q u n Hu. unfold TwitterCollector.collect.
    destruct (TwitterCollector.client self) as [w'|]; [|inversion 1].
    rewrite Hu. intros (tw & Htw)%twitter_user_parsed_as.
    destruct (twitter_parse_fields _ _ _ _ Htw) as (_ & _ & _ & _ & -> & -> & _).
    split; [symmetry; apply truthy_default, Hu|]. simpl.
    destruct (default "" u) eqn:Hd; [|reflexivity].
    destruct u as [[|c s]|]; discriminate.
  - intros self q u n Hu. unfold TwitterCollector.collect.
    destruct (TwitterCollector.client self) as [w'|]; [|inversion 1].
    rewrite Hu. destruct (Py.truthy q); [|inversion 1].
    intros (tw & Htw)%twitter_search_parsed_as.
    destruct (twitter_parse_fields _ _ _ _ Htw) as (_ & _ & _ & _ & -> & -> & _).
    split; reflexivity.
Qed.

Lemma authors_of_records_witness :
  match snd (TwitterCollector.collect
               (TwitterCollector.__init__ sample_world {| twitter_bearer_token := "token" |})
               None (Some "notion") 50) with
  | r :: _ => Demand.author r = Some "notion"
  | [] => False
  end.
Proof.
  destruct (snd (TwitterCollector.collect
                   (TwitterCollector.__init__ sample_world {| twitter_bearer_token := "token" |})
                   None (Some "notion") 50)) as [|r rest] eqn:Hrun.
  - vm_compute in Hrun. discriminate Hrun.
  - apply (proj1 (proj2 (proj2 (authors_of_records sample_world r)))
             (TwitterCollector.__init__ sample_world {| twitter_bearer_token := "token" |})
             None (Some "notion") 50 eq_refl).
    rewrite Hrun. left.
Defined.

(** ** The requested target on the record *)

Lemma sweep_source_truthy (srcs : list string) name :
  Forall (fun s => Py.truthy (Some s) = true) srcs -> name ∈ srcs ->
  Py.truthy (Some name) = true.
Proof. rewrite Forall_forall. intros H Hin. apply H, Hin. Qed.

Lemma collect_parsed_elem {I} (parse : I -> option Demand.t) items r :
  r ∈ collect_parsed parse items <-> exists i, i ∈ items /\ parse i = Some r.
Proof. unfold collect_parsed. apply list_elem_of_omap. Qed.

Lemma net_extend_each_elem {S A} (xs : list S) (body : S -> Net (list A)) (a : A) :
  a ∈ snd (net_extend_each xs body) <-> exists x, x ∈ xs /\ a ∈ snd (body x).
Proof.
  split; [apply net_extend_each_inv|].
  induction xs as [|x xs IH]; simpl.
  - intros (y & Hy & _). inversion Hy.
  - destruct (body x) as [c1 r1] eqn:Hb.
    destruct (net_extend_each xs body) as [c2 r2]. simpl in *.
    intros (y & Hy & Ha). apply elem_of_app.
    apply elem_of_cons in Hy. destruct Hy as [->|Hy].
    + left. rewrite Hb in Ha. exact Ha.
    + right. apply IH. eauto.
Qed.

Lemma reddit_subreddit_parsed_from w sub q tf l r :
  r ∈ snd (RedditCollector._collect_from_subreddit w sub q tf l)
  <-> exists s,
        s ∈ (if Py.truthy q then reddit_search w sub (default "" q) tf l
             else reddit_new w sub l)
        /\ RedditCollector._parse_submission w s (Some sub) = Some r.
Proof.
  unfold RedditCollector._collect_from_subreddit.
  destruct (Py.truthy q); simpl; apply collect_parsed_elem.
Qed.

Lemma reddit_parse_subreddit w s o r :
  RedditCollector._parse_submission w s o = Some r ->
  Demand.subreddit r = Some (if Py.truthy o then default "" o else praw.subreddit s).
Proof.
  intros Hs.
  destruct (reddit_parse_fields _ _ _ _ Hs) as (_ & _ & _ & _ & _ & _ & _ & _ & _ & -> & _).
  reflexivity.
Qed.

(** X8.  A Reddit record is attributed to the source it was fetched from.
    In target mode the records are exactly the parses of the submissions
    that the requested subreddit listed (its search results when a query is
    given, its new posts otherwise), and each carries the requested
    subreddit.  In query mode they are exactly the parses of the submissions
    found by the search over "all", and each carries its submission's own
    subreddit.  In sweep mode they are exactly the parses of the new posts
    of the first five curated subreddits, each fetched with a fifth of the
    limit, and each carries the subreddit it was fetched from. *)
Theorem records_carry_their_source (w : World) (r : Demand.t)
    (query target : option string) (time_filter : string) (limit : Z) :
  (Py.truthy target = true ->
     (r ∈ snd (RedditCollector.collect w query target time_filter limit)
      <-> exists s,
            s ∈ (if Py.truthy query
                 then reddit_search w (default "" target) (default "" query)
                        time_filter limit
                 else reddit_new w (default "" target) limit)
            /\ RedditCollector._parse_submission w s (Some (default "" target)) = Some r)
     /\ (r ∈ snd (RedditCollector.collect w query target time_filter limit) ->
         Demand.subreddit r = target))
  /\ (Py.truthy target = false -> Py.truthy query = true ->
      (r ∈ snd (RedditCollector.collect w query target time_filter limit)
       <-> exists s,
             s ∈ reddit_search w "all" (default "" query) time_filter limit
             /\ RedditCollector._parse_submission w s None = Some r)
      /\ (forall s, RedditCollector._parse_submission w s None = Some r ->
            Demand.subreddit r = Some (praw.subreddit s)))
  /\ (Py.truthy target = false -> Py.truthy query = false ->
      (r ∈ snd (RedditCollector.collect w query target time_filter limit)
       <-> exists sub s,
             sub ∈ take 5 RedditCollector.subreddits
             /\ s ∈ reddit_new w sub (limit / 5)
             /\ RedditCollector._parse_submission w s (Some sub) = Some r)
      /\ (forall sub s,
            sub ∈ take 5 RedditCollector.subreddits ->
            RedditCollector._parse_submission w s (Some sub) = Some r ->
            Demand.subreddit r = Some sub)).
Proof.
  unfold RedditCollector.collect. split; [|split].
  - intros Ht. rewrite Ht. split; [apply reddit_subreddit_parsed_from|].
    intros (s & _ & Hs)%reddit_subreddit_parsed_from.
    rewrite (reddit_parse_subreddit _ _ _ _ Hs).
    rewrite <- (truthy_default target Ht), Ht. symmetry. apply truthy_default, Ht.
  - intros Ht Hq. rewrite Ht, Hq. split.
    + unfold RedditCollector._search_reddit. simpl. apply collect_parsed_elem.
    + intros s Hs. rewrite (reddit_parse_subreddit _ _ _ _ Hs). reflexivity.
  - intros Ht Hq. rewrite Ht, Hq. split.
    + rewrite net_extend_each_elem. split.
      * intros (sub & Hsub & Hr). apply reddit_subreddit_parsed_from in Hr.
        rewrite Hq in Hr. destruct Hr as (s & Hin & Hs). eauto.
      * intros (sub & s & Hsub & Hin & Hs). exists sub. split; [exact Hsub|].
        apply reddit_subreddit_parsed_from. rewrite Hq. eauto.
    + intros sub s Hsub Hs. rewrite (reddit_parse_subreddit _ _ _ _ Hs).
      assert (Htr : Py.truthy (Some sub) = true).
      { apply (sweep_source_truthy (take 5 RedditCollector.subreddits)); [|exact Hsub].
        repeat constructor. }
      rewrite Htr. reflexivity.
Qed.

Lemma records_carry_their_source_witness :
  match snd (RedditCollector.collect sample_world None None "month" 50) with
  | r :: _ =>
      exists sub s,
        sub ∈ take 5 RedditCollector.subreddits
        /\ s ∈ reddit_new sample_world sub (50 / 5)
        /\ RedditCollector._parse_submission sample_world s (Some sub) = Some r
  | [] => False
  end.
Proof.
  destruct (snd (RedditCollector.collect sample_world None None "month" 50))
    as [|r rest] eqn:Hrun.
  - vm_compute in Hrun. discriminate Hrun.
  - apply (proj1 (proj1 (proj2 (proj2 (records_carry_their_source sample_world r
                                          None None "month" 50)) eq_refl eq_refl))).
    rewrite Hrun. left.
Defined.

(** ** Engagement counters *)

Lemma metric_nonneg (metrics : gmap string Z) key :
  map_Forall (fun _ v => 0 <= v) metrics -> 0 <= TwitterCollector.metric metrics key.
Proof.
  intros H. unfold TwitterCollector.metric.
  destruct (metrics !! key) as [v|] eqn:Hk; simpl; [|lia].
  apply (H key v Hk).
Qed.

(** X9.  Engagement on GitHub and Twitter records.  A GitHub record's
    interaction score is its upvotes plus twice its comments.  A Twitter
    record counts a metric that is missing from [public_metrics] as 0, so a
    tweet whose metrics dictionary is empty has zero upvotes, comments,
    shares and score; when no metric is negative, no counter is negative and
    the score lies between upvotes + 2 comments + 2 shares and
    upvotes + 2 comments + 3 shares. *)
Theorem engagement_counters (w : World) (self : TwitterCollector.t) :
  (forall i o r,
      GitHubCollector._parse_issue w i o = Some r ->
      Demand.interaction_score r = Demand.upvotes r + Demand.comments r * 2
      /\ (0 <= github.reactions_total_count i -> 0 <= github.comments i ->
          0 <= Demand.interaction_score r))
  /\ (forall tw o r,
      TwitterCollector._parse_tweet self tw o = Some r ->
      (tweepy.public_metrics tw = Some ∅ ->
         Demand.upvotes r = 0 /\ Demand.comments r = 0 /\ Demand.shares r = 0
         /\ Demand.interaction_score r = 0)
      /\ (forall metrics,
          tweepy.public_metrics tw = Some metrics ->
          map_Forall (fun _ v => 0 <= v) metrics ->
          0 <= Demand.upvotes r /\ 0 <= Demand.comments r /\ 0 <= Demand.shares r
          /\ Demand.upvotes r + Demand.comments r * 2 + Demand.shares r * 2
             <= Demand.interaction_score r
             <= Demand.upvotes r + Demand.comments r * 2 + Demand.shares r * 3)).
Proof.
  split.
  - intros i o r Hi.
    destruct (github_parse_fields _ _ _ _ Hi)
      as (_ & _ & _ & _ & _ & _ & _ & -> & -> & _ & -> & _).
    split; [reflexivity|lia].
  - intros tw o r Htw.
    destruct (twitter_parse_fields _ _ _ _ Htw)
      as (_ & _ & _ & _ & _ & _ & _ & -> & -> & -> & -> & _).
    split.
    + intros ->. unfold TwitterCollector.metric. simpl. rewrite !lookup_empty. simpl.
      repeat split.
    + intros metrics -> Hpos. simpl.
      pose proof (metric_nonneg _ "like_count" Hpos).
      pose proof (metric_nonneg _ "reply_count" Hpos).
      pose proof (metric_nonneg _ "retweet_count" Hpos).
      pose proof (metric_nonneg _ "quote_count" Hpos).
      lia.
Qed.

Lemma engagement_counters_witness :
  match TwitterCollector._parse_tweet
          (TwitterCollector.__init__ sample_world {| twitter_bearer_token := "token" |})
          sample_tweet None with
  | Some r => 0 <= Demand.upvotes r
  | None => False
  end.
Proof.
  destruct (TwitterCollector._parse_tweet _ sample_tweet None) as [r|] eqn:Hr;
    [|vm_compute in Hr; discriminate Hr].
  apply (proj2 (proj2 (engagement_counters sample_world
                         (TwitterCollector.__init__ sample_world
                            {| twitter_bearer_token := "token" |}))
                  sample_tweet None r Hr)
           {[ "like_count" := 5; "reply_count" := 1 ]} eq_refl).
  apply map_Forall_insert_2; [lia|].
  apply map_Forall_insert_2; [lia|]. apply map_Forall_empty.
Defined.

(** ** Limits *)

Lemma collect_parsed_length {I} (parse : I -> option Demand.t) items :
  (length (collect_parsed parse items) <= length items)%nat.
Proof.
  unfold collect_parsed. induction items as [|i items IH]; simpl; [lia|].
  change (list_omap I Demand.t parse items) with (omap parse items).
  destruct (parse i); simpl; lia.
Qed.

Lemma github_repo_length w repo st l :
  (length (snd (GitHubCollector._collect_from_repo w repo st l)) <= Z.to_nat l)%nat.
Proof.
  unfold GitHubCollector._collect_from_repo. simpl.
  etransitivity; [apply collect_parsed_length|]. rewrite length_take. lia.
Qed.

(** X10.  The GitHub collector never returns more than [limit] records, in
    any mode and for any integer [limit]; for a limit of zero or less it
    returns none, and in sweep mode a limit below 5 returns none although
    the five repositories are still requested. *)
Theorem github_respects_limit (w : World) (query repo : option string)
    (state : string) (limit : Z) :
  (length (snd (GitHubCollector.collect w query repo state limit)) <= Z.to_nat limit)%nat
  /\ (limit <= 0 -> snd (GitHubCollector.collect w query repo state limit) = [])
  /\ (Py.truthy repo = false -> Py.truthy query = false -> limit < 5 ->
      snd (GitHubCollector.collect w query repo state limit) = []
      /\ length (fst (GitHubCollector.collect w query repo state limit)) = 5%nat).
Proof.
  assert (Hlen : (length (snd (GitHubCollector.collect w query repo state limit))
                  <= Z.to_nat limit)%nat).
  { unfold GitHubCollector.collect.
    destruct (Py.truthy repo); [apply github_repo_length|].
    destruct (Py.truthy query).
    - unfold GitHubCollector._search_github. simpl.
      etransitivity; [apply collect_parsed_length|]. rewrite length_take. lia.
    - simpl. rewrite !length_app. simpl.
      pose proof (fun r => github_repo_length w r state (limit / 5)) as H.
      unfold GitHubCollector._collect_from_repo in H. simpl in H.
      pose proof (H "facebook/react"). pose proof (H "vuejs/core").
      pose proof (H "angular/angular"). pose proof (H "microsoft/vscode").
      pose proof (H "notionhq/notion-sdk-js").
      assert (5 * Z.to_nat (limit / 5) <= Z.to_nat limit)%nat; [|lia].
      destruct (Z_lt_le_dec limit 0) as [Hneg|Hpos].
      + assert (limit / 5 < 0) by (apply Z.div_lt_upper_bound; lia). lia.
      + pose proof (Z.mul_div_le limit 5). pose proof (Z.div_pos limit 5). lia. }
  split; [exact Hlen|]. split.
  - intros Hl. apply length_zero_iff_nil. lia.
  - intros Hr Hq Hl. split.
    + unfold GitHubCollector.collect. rewrite Hr, Hq.
      assert (Hz : Z.to_nat (limit / 5) = 0%nat).
      { destruct (Z_lt_le_dec limit 0) as [Hneg|Hpos].
        - assert (limit / 5 < 0) by (apply Z.div_lt_upper_bound; lia). lia.
        - rewrite Z.div_small by lia. reflexivity. }
      unfold GitHubCollector._collect_from_repo. simpl. rewrite Hz. reflexivity.
    + unfold GitHubCollector.collect. rewrite Hr, Hq. reflexivity.
Qed.

Lemma github_respects_limit_witness :
  snd (GitHubCollector.collect sample_world None None "open" 4) = [].
Proof.
  apply (proj2 (proj2 (github_respects_limit sample_world None None "open" 4))
           eq_refl eq_refl).
  lia.
Defined.

(** X11.  What the Twitter collector sends and returns.  Without a client,
    or with neither user nor query, it sends nothing and returns nothing.
    In user mode the user lookup comes first; when it fails or finds nobody
    the run ends there with no record, otherwise one timeline request
    follows and the result is the parse of that timeline, each record under
    the requested user name.  In query mode (no user) one search is sent,
    for the query followed by the fixed filter on request words and
    "-is:retweet", and the result is the parse of what the search yields.
    Every timeline or search request asks for [min(count, 100)] tweets, so
    never more than 100 and never more than [count]. *)
Theorem twitter_requests (self : TwitterCollector.t) (query user : option string)
    (count : Z) :
  (TwitterCollector.client self = None ->
   TwitterCollector.collect self query user count = ([], []))
  /\ (forall w, TwitterCollector.client self = Some w -> Py.truthy user = true ->
      twitter_get_user w (default "" user) = None ->
      TwitterCollector.collect self query user count
      = ([TwitterGetUser (default "" user)], []))
  /\ (forall w id, TwitterCollector.client self = Some w -> Py.truthy user = true ->
      twitter_get_user w (default "" user) = Some id ->
      fst (TwitterCollector.collect self query user count)
      = [TwitterGetUser (default "" user); TwitterGetUsersTweets id (Z.min count 100)])
  /\ (forall c, c ∈ fst (TwitterCollector.collect self query user count) ->
      match c with
      | TwitterGetUser _ => True
      | TwitterGetUsersTweets _ n | TwitterSearchRecent _ n => n <= 100 /\ n <= count
      | _ => False
      end)
  /\ (length (fst (TwitterCollector.collect self query user count)) <= 2)%nat
  /\ (forall w id, TwitterCollector.client self = Some w -> Py.truthy user = true ->
      twitter_get_user w (default "" user) = Some id ->
      snd (TwitterCollector.collect self query user count)
      = collect_parsed
          (fun tw => TwitterCollector._parse_tweet self tw (Some (default "" user)))
          (twitter_get_users_tweets w id (Z.min count 100)))
  /\ (forall w, TwitterCollector.client self = Some w -> Py.truthy user = false ->
      Py.truthy query = true ->
      let enhanced_query :=
        default "" query
        +:+ " (" +:+ dq +:+ "feature request" +:+ dq
        +:+ " OR " +:+ dq +:+ "missing feature" +:+ dq
        +:+ " OR " +:+ dq +:+ "needs" +:+ dq
        +:+ " OR " +:+ dq +:+ "should have" +:+ dq
        +:+ " OR " +:+ dq +:+ "want" +:+ dq +:+ ") -is:retweet" in
      TwitterCollector.collect self query user count
      = ([TwitterSearchRecent enhanced_query (Z.min count 100)],
         collect_parsed (fun tw => TwitterCollector._parse_tweet self tw None)
           (twitter_search_recent w enhanced_query (Z.min count 100))))
  /\ (Py.truthy user = false -> Py.truthy query = false ->
      TwitterCollector.collect self query user count = ([], [])).
Proof.
  assert (Hrequests :
    (TwitterCollector.client self = None ->
     TwitterCollector.collect self query user count = ([], []))
    /\ (forall w, TwitterCollector.client self = Some w -> Py.truthy user = true ->
        twitter_get_user w (default "" user) = None ->
        TwitterCollector.collect self query user count
        = ([TwitterGetUser (default "" user)], []))
    /\ (forall w id, TwitterCollector.client self = Some w -> Py.truthy user = true ->
        twitter_get_user w (default "" user) = Some id ->
        fst (TwitterCollector.collect self query user count)
        = [TwitterGetUser (default "" user); TwitterGetUsersTweets id (Z.min count 100)])
    /\ (forall c, c ∈ fst (TwitterCollector.collect self query user count) ->
        match c with
        | TwitterGetUser _ => True
        | TwitterGetUsersTweets _ n | TwitterSearchRecent _ n => n <= 100 /\ n <= count
        | _ => False
        end)
    /\ (length (fst (TwitterCollector.collect self query user count)) <= 2)%nat).
  { unfold TwitterCollector.collect.
    destruct (TwitterCollector.client self) as [w|].
    2:{ repeat split; try discriminate; simpl; [intros c Hc; inversion Hc|lia]. }
    split; [discriminate|].
    destruct (Py.truthy user).
    - unfold TwitterCollector._collect_from_user. simpl.
      split; [intros w' [= <-] _ ->; reflexivity|].
      split; [intros w' id [= <-] _ ->; reflexivity|].
      destruct (twitter_get_user w (default "" user)) as [id|]; simpl.
      + split; [|lia]. intros c Hc.
        apply elem_of_cons in Hc. destruct Hc as [->|Hc]; [exact I|].
        apply list_elem_of_singleton in Hc. subst c. lia.
      + split; [|lia]. intros c Hc. apply list_elem_of_singleton in Hc. subst c. exact I.
    - split; [discriminate|]. split; [discriminate|].
      destruct (Py.truthy query); simpl.
      + split; [|lia]. intros c Hc. apply list_elem_of_singleton in Hc. subst c. lia.
      + split; [|lia]. intros c Hc. inversion Hc. }
  destruct Hrequests as (H1 & H2 & H3 & H4 & H5).
  split; [exact H1|]. split; [exact H2|]. split; [exact H3|]. split; [exact H4|].
  split; [exact H5|]. split; [|split].
  - intros w id Hc Hu Hid. unfold TwitterCollector.collect. rewrite Hc, Hu.
    unfold TwitterCollector._collect_from_user. simpl. rewrite Hid. reflexivity.
  - intros w Hc Hu Hq. unfold TwitterCollector.collect. rewrite Hc, Hu, Hq. reflexivity.
  - intros Hu Hq. unfold TwitterCollector.collect. rewrite Hu, Hq.
    destruct (TwitterCollector.client self); reflexivity.
Qed.

Lemma twitter_requests_witness :
  TwitterCollector.collect
    (TwitterCollector.__init__ sample_world {| twitter_bearer_token := "token" |})
    None (Some "nobody") 500
  = ([TwitterGetUser "nobody"], []).
Proof.
  apply (proj1 (proj2 (twitter_requests
                         (TwitterCollector.__init__ sample_world
                            {| twitter_bearer_token := "token" |})
                         None (Some "nobody") 500)) sample_world);
    reflexivity.
Defined.

(** X12.  What the Reddit collector asks for.  In subreddit mode and in
    search mode it sends one request carrying [limit] unchanged.  In sweep
    mode it sends five requests of [limit // 5] each, so it asks for
    [5 * (limit // 5)] posts in total: never more than [limit] and less than
    5 short of it. *)
Theorem reddit_request_budget (w : World) (query subreddit : option string)
    (time_filter : string) (limit : Z) :
  let cs := fst (RedditCollector.collect w query subreddit time_filter limit) in
  (Py.truthy subreddit = true \/ Py.truthy query = true ->
   length cs = 1%nat /\ total_requested cs = limit)
  /\ (Py.truthy subreddit = false -> Py.truthy query = false ->
      length cs = 5%nat
      /\ Forall (fun c => requested c = limit / 5) cs
      /\ total_requested cs = 5 * (limit / 5)
      /\ limit - 4 <= total_requested cs <= limit).
Proof.
  unfold RedditCollector.collect, RedditCollector._collect_from_subreddit,
    RedditCollector._search_reddit.
  split.
  - intros H. destruct (Py.truthy subreddit); [destruct (Py.truthy query)|];
      [| |destruct H as [H|H]; [discriminate H|rewrite H]];
      simpl; split; (reflexivity || lia).
  - intros -> ->. simpl. split; [reflexivity|]. split; [repeat constructor|].
    unfold total_requested. simpl.
    pose proof (Z.mul_div_le limit 5). pose proof (Z.mod_pos_bound limit 5).
    pose proof (Z.div_mod limit 5). lia.
Qed.

Lemma reddit_request_budget_witness :
  total_requested (fst (RedditCollector.collect sample_world None None "month" 7)) = 5.
Proof.
  destruct (proj2 (reddit_request_budget sample_world None None "month" 7)
              eq_refl eq_refl) as (_ & _ & H & _).
  exact H.
Defined.

(** ** Tags *)

Lemma matched_tags_elem table text t :
  t ∈ matched_tags table text
  <-> exists kws, (t, kws) ∈ table /\ Py.any_in kws text = true.
Proof.
  unfold matched_tags. rewrite list_elem_of_fmap. split.
  - intros ([t' kws] & -> & Hin). apply list_elem_of_filter in Hin.
    destruct Hin as [Hhit Hin]. exists kws. split; [exact Hin|exact Hhit].
  - intros (kws & Hin & Hhit). exists (t, kws). split; [reflexivity|].
    apply list_elem_of_filter. split; [exact Hhit|exact Hin].
Qed.

Lemma matched_tags_names table text t :
  t ∈ matched_tags table text -> t ∈ map fst table.
Proof.
  intros (kws & Hin & _)%matched_tags_elem.
  apply list_elem_of_fmap. exists (t, kws). split; [reflexivity|exact Hin].
Qed.

Lemma extracted_tags_bound (c : string) table text :
  (length (list_set ([c] ++ matched_tags table text)) <= S (length table))%nat.
Proof.
  assert (H : list_set ([c] ++ matched_tags table text) ⊆+ c :: map fst table).
  { apply NoDup_submseteq; [apply list_set_NoDup|].
    intros t Ht. apply (proj1 (list_set_elem _ _)) in Ht. simpl in Ht.
    apply elem_of_cons in Ht. destruct Ht as [->|Ht]; [left|right].
    apply (matched_tags_names _ _ _ Ht). }
  apply submseteq_length in H. simpl in H. rewrite length_map in H. exact H.
Qed.

(** X13.  Tags of Reddit and Twitter records: a string is a tag exactly when
    it is the record's category or a name of the platform's tag table one of
    whose keywords occurs in the lowercased text.  The tags are never
    repeated, so a Reddit record has at most 12 tags and a Twitter record at
    most 7. *)
Theorem tags_of_reddit_and_twitter (w : World) (self : TwitterCollector.t) :
  (forall s o r,
      RedditCollector._parse_submission w s o = Some r ->
      (forall t, t ∈ Demand.tags r
         <-> t = Demand.category r
             \/ exists kws, (t, kws) ∈ RedditCollector.feature_tags
                  /\ Py.any_in kws (RedditCollector.full_text_lower
                                      (RedditCollector.content_of s) (praw.title s)) = true)
      /\ NoDup (Demand.tags r) /\ (length (Demand.tags r) <= 12)%nat)
  /\ (forall tw o r,
      TwitterCollector._parse_tweet self tw o = Some r ->
      (forall t, t ∈ Demand.tags r
         <-> t = Demand.category r
             \/ exists kws, (t, kws) ∈ TwitterCollector.feature_tags
                  /\ Py.any_in kws (Py.lower (tweepy.text tw)) = true)
      /\ NoDup (Demand.tags r) /\ (length (Demand.tags r) <= 7)%nat).
Proof.
  split.
  - intros s o r Hr.
    destruct (reddit_parse_inv _ _ _ _ Hr) as (c & n & _ & _ & Hc & _ & ->).
    unfold RedditCollector._extract_tags. rewrite Hc. split; [|split].
    + intros t. rewrite list_set_elem, elem_of_app, list_elem_of_singleton,
        matched_tags_elem. reflexivity.
    + apply list_set_NoDup.
    + apply (extracted_tags_bound c RedditCollector.feature_tags).
  - intros tw o r Hr.
    destruct (twitter_parse_inv _ _ _ _ Hr) as (c & _ & Hc & ->).
    unfold TwitterCollector._extract_tags. rewrite Hc. split; [|split].
    + intros t. rewrite list_set_elem, elem_of_app, list_elem_of_singleton,
        matched_tags_elem. reflexivity.
    + apply list_set_NoDup.
    + apply (extracted_tags_bound c TwitterCollector.feature_tags).
Qed.

Lemma tags_of_reddit_and_twitter_witness :
  match RedditCollector._parse_submission sample_world sample_submission None with
  | Some r => NoDup (Demand.tags r)
  | None => False
  end.
Proof.
  destruct (RedditCollector._parse_submission sample_world sample_submission None)
    as [r|] eqn:Hr; [|vm_compute in Hr; discriminate Hr].
  apply (proj1 (tags_of_reddit_and_twitter sample_world
                  (TwitterCollector.__init__ sample_world {| twitter_bearer_token := "" |}))
           sample_submission None r Hr).
Defined.

(** X14.  The GitHub collector returns no record.  An issue without a
    category is rejected; an issue with one fails at
    [issue.reactions.total_count], because [reactions] is a dictionary, and
    the failure is caught and turned into [None].  So the result is empty in
    every mode, while the requests are still sent: one listing of the
    requested repository, or one search for the query with the label filter
    (and " state:open" for the state "open"), or one listing for each of the
    first five popular repositories.  Persisting that result stores nothing
    and reports 0. *)
Theorem github_collector_returns_nothing (w : World) (query repo : option string)
    (state : string) (limit : Z) :
  (forall i o,
      GitHubCollector.parse_issue_body w i o
      = match GitHubCollector._categorize_issue (GitHubCollector.content_of i)
                (github.title i) (github.labels i) with
        | Some _ => Raise (AttributeError "'dict' object has no attribute 'total_count'")
        | None => Ok None
        end)
  /\ (forall i o, GitHubCollector._parse_issue w i o = None)
  /\ snd (GitHubCollector.collect w query repo state limit) = []
  /\ (Py.truthy repo = true ->
      fst (GitHubCollector.collect w query repo state limit)
      = [GitHubGetIssues (default "" repo) state])
  /\ (Py.truthy repo = false -> Py.truthy query = true ->
      let search_query :=
        default "" query
        +:+ " label:" +:+ dq +:+ "enhancement" +:+ dq
        +:+ " OR label:" +:+ dq +:+ "feature request" +:+ dq
        +:+ " OR label:" +:+ dq +:+ "bug" +:+ dq in
      fst (GitHubCollector.collect w query repo state limit)
      = [GitHubSearchIssues
           (if String.eqb state "open" then search_query +:+ " state:open"
            else search_query)])
  /\ (Py.truthy repo = false -> Py.truthy query = false ->
      fst (GitHubCollector.collect w query repo state limit)
      = [GitHubGetIssues "facebook/react" state; GitHubGetIssues "vuejs/core" state;
         GitHubGetIssues "angular/angular" state; GitHubGetIssues "microsoft/vscode" state;
         GitHubGetIssues "notionhq/notion-sdk-js" state])
  /\ (forall db,
      collect_api.persist db (snd (GitHubCollector.collect w query repo state limit))
      = Ok (AsyncSession.commit db, 0)).
Proof.
  split; [intros i o; apply github_parse_body|].
  split; [intros i o; apply github_parse_none|].
  split; [apply github_collect_empty|].
  split; [|split; [|split]].
  - intros Hr. unfold GitHubCollector.collect. rewrite Hr. reflexivity.
  - intros Hr Hq. unfold GitHubCollector.collect. rewrite Hr, Hq.
    unfold GitHubCollector._search_github, GitHubCollector.search_query_of. simpl.
    destruct (String.eqb state "open"); reflexivity.
  - intros Hr Hq. unfold GitHubCollector.collect. rewrite Hr, Hq. reflexivity.
  - intros db. rewrite github_collect_empty. reflexivity.
Qed.

Lemma github_collector_returns_nothing_witness :
  fst (GitHubCollector.collect sample_world None (Some "facebook/react") "open" 50)
  = [GitHubGetIssues "facebook/react" "open"].
Proof.
  apply (proj1 (proj2 (proj2 (proj2
           (github_collector_returns_nothing sample_world None (Some "facebook/react")
              "open" 50))))).
  reflexivity.
Defined.

(** ** Product mentions *)

(** X15.  Product mentions of a Reddit post: a string is listed exactly when
    it is the capitalized name of a product of the fixed list that occurs in
    the lowercased text; nothing is listed twice, and letter case in the text
    does not matter.  A returned record lists the products of its title and
    content. *)
Theorem reddit_product_mentions (w : World) (text : string) :
  (forall p, p ∈ RedditCollector._extract_product_mentions text
     <-> exists product, product ∈ RedditCollector.products
           /\ Py.contains product (Py.lower text) = true
           /\ p = Py.capitalize product)
  /\ NoDup (RedditCollector._extract_product_mentions text)
  /\ RedditCollector._extract_product_mentions (Py.lower text)
     = RedditCollector._extract_product_mentions text
  /\ (forall s o r, RedditCollector._parse_submission w s o = Some r ->
        Demand.product_mentioned r
        = RedditCollector._extract_product_mentions
            (praw.title s +:+ " " +:+ RedditCollector.content_of s)).
Proof.
  unfold RedditCollector._extract_product_mentions. split; [|split; [|split]].
  - intros p. rewrite list_set_elem, list_elem_of_fmap. split.
    + intros (product & -> & Hin). apply list_elem_of_filter in Hin.
      destruct Hin as [Hc Hin]. exists product. auto.
    + intros (product & Hin & Hc & ->). exists product. split; [reflexivity|].
      apply list_elem_of_filter. auto.
  - apply list_set_NoDup.
  - rewrite lower_idem. reflexivity.
  - intros s o r Hr.
    destruct (reddit_parse_fields _ _ _ _ Hr)
      as (_ & _ & _ & _ & _ & _ & _ & _ & _ & _ & _ & _ & _ & -> & _).
    reflexivity.
Qed.

Lemma content_loop (text : string) (l : list string) (acc : list string) :
  NoDup (map Py.capitalize l) ->
  (forall p, p ∈ l -> Py.capitalize p ∉ acc) ->
  fold_left (fun products product =>
      if Py.contains product text
         && negb (bool_decide (Py.capitalize product ∈ products))
      then products ++ [Py.capitalize product]
      else products) l acc
  = acc ++ map Py.capitalize (filter (fun p => Py.contains p text = true) l).
Proof.
  revert acc. induction l as [|p l IH]; intros acc Hnd Hacc; simpl.
  - rewrite app_nil_r. reflexivity.
  - simpl in Hnd. apply NoDup_cons in Hnd. destruct Hnd as [Hp Hnd].
    rewrite (bool_decide_eq_false_2 _ (Hacc p (list_elem_of_here _ _))). simpl.
    rewrite andb_true_r, filter_cons.
    destruct (Py.contains p text) eqn:Hc.
    + rewrite decide_True by reflexivity. rewrite IH; [|exact Hnd|].
      * rewrite <- app_assoc. reflexivity.
      * intros q Hq [Hin|Hin]%elem_of_app.
        -- apply (Hacc q); [right; exact Hq|exact Hin].
        -- apply list_elem_of_singleton in Hin. apply Hp. rewrite <- Hin.
           apply list_elem_of_fmap. exists q. split; [reflexivity|exact Hq].
    + rewrite decide_False by discriminate. apply IH; [exact Hnd|].
      intros q Hq. apply Hacc. right. exact Hq.
Qed.

Lemma product_names_distinct : NoDup (map Py.capitalize TwitterCollector.product_list).
Proof. apply (bool_decide_unpack _). vm_compute. reflexivity. Qed.

(** X16.  Product mentions of a tweet.  With no mention to loop over (no
    entities, no "mentions" entry, or an empty list) the result is the
    capitalized name of every product of the fixed list that occurs in the
    lowercased text, in the order of that list and each once.  With at
    least one mention the loop reads [mention.username] from a dictionary:
    the extraction raises [AttributeError] whatever the text and the
    mentioned accounts, and the tweet yields no record.  So a record that is
    returned lists exactly the products found in its text. *)
Theorem twitter_product_mentions
    (entities : option (gmap string (list tweepy.Mention))) (content : string) :
  let mentions := default [] (entities ≫= (fun d => d !! "mentions")) in
  let from_content :=
    map Py.capitalize
      (filter (fun p => Py.contains p (Py.lower content) = true)
         TwitterCollector.product_list) in
  (mentions = [] ->
   TwitterCollector._extract_product_mentions entities content = Ok from_content)
  /\ (mentions <> [] ->
      TwitterCollector._extract_product_mentions entities content
      = Raise (AttributeError "'dict' object has no attribute 'username'"))
  /\ NoDup from_content
  /\ (forall p, p ∈ from_content
        <-> exists product, product ∈ TwitterCollector.product_list
              /\ Py.contains product (Py.lower content) = true
              /\ p = Py.capitalize product)
  /\ (forall self tw o,
        tweepy.entities tw = entities -> tweepy.text tw = content ->
        (mentions <> [] -> TwitterCollector._parse_tweet self tw o = None)
        /\ (forall r, TwitterCollector._parse_tweet self tw o = Some r ->
              mentions = [] /\ Demand.product_mentioned r = from_content)).
Proof.
  intros mentions from_content.
  assert (Hnone : mentions = [] ->
            TwitterCollector._extract_product_mentions entities content = Ok from_content).
  { intros Hm. rewrite (twitter_products_no_mentions _ _ Hm). f_equal.
    apply (content_loop (Py.lower content) TwitterCollector.product_list []);
      [apply product_names_distinct|].
    intros p _. apply not_elem_of_nil. }
  assert (Hsome : mentions <> [] ->
            TwitterCollector._extract_product_mentions entities content
            = Raise (AttributeError "'dict' object has no attribute 'username'")).
  { intros Hm. destruct mentions as [|m rest] eqn:Heq; [congruence|].
    apply (twitter_products_mentions _ _ m rest Heq). }
  split; [exact Hnone|]. split; [exact Hsome|]. split; [|split].
  - unfold from_content.
    assert (H : map Py.capitalize
                  (filter (fun p => Py.contains p (Py.lower content) = true)
                     TwitterCollector.product_list)
                `sublist_of` map Py.capitalize TwitterCollector.product_list)
      by (apply (fmap_sublist Py.capitalize), sublist_filter).
    apply (sublist_NoDup _ _ product_names_distinct H).
  - intros p. unfold from_content. rewrite list_elem_of_fmap. split.
    + intros (product & -> & Hin). apply list_elem_of_filter in Hin.
      destruct Hin as [Hc Hin]. exists product. auto.
    + intros (product & Hin & Hc & ->). exists product. split; [reflexivity|].
      apply list_elem_of_filter. auto.
  - intros self tw o He Ht. split.
    + intros Hm. destruct mentions as [|m rest] eqn:Heq; [congruence|].
      apply (twitter_parse_mentions self tw o m rest).
      unfold tweet_mentions. rewrite He. exact Heq.
    + intros r Hr.
      destruct (twitter_parse_fields _ _ _ _ Hr)
        as (_ & _ & _ & _ & _ & _ & _ & _ & _ & _ & _ & _ & _ & _ & _ & Hp & _).
      rewrite He, Ht in Hp.
      assert (Hm : mentions = []) by (apply (twitter_products_ok _ _ _ Hp)).
      split; [exact Hm|]. rewrite (Hnone Hm) in Hp. injection Hp as <-. reflexivity.
Qed.

Lemma twitter_product_mentions_witness :
  TwitterCollector._extract_product_mentions None "Moving from Slack to Discord"
  = Ok ["Slack"; "Discord"].
Proof.
  apply (proj1 (twitter_product_mentions None "Moving from Slack to Discord")).
  reflexivity.
Defined.

Lemma reddit_product_mentions_witness :
  match RedditCollector._parse_submission sample_world sample_submission None with
  | Some r => Demand.product_mentioned r
              = RedditCollector._extract_product_mentions
                  (praw.title sample_submission +:+ " "
                   +:+ RedditCollector.content_of sample_submission)
  | None => False
  end.
Proof.
  destruct (RedditCollector._parse_submission sample_world sample_submission None)
    as [r|] eqn:Hr; [|vm_compute in Hr; discriminate Hr].
  apply (proj2 (proj2 (proj2 (reddit_product_mentions sample_world "")))
           sample_submission None r Hr).
Defined.

(** ** What a persist step stores *)

Lemma ambiguous_iff db d :
  ambiguous db d = true
  <-> (2 <= length (AsyncSession.execute_select_by_source_url db (Demand.source_url d)))%nat.
Proof.
  unfold ambiguous.
  destruct (AsyncSession.execute_select_by_source_url db (Demand.source_url d))
    as [|x [|y rest]]; simpl; split; (discriminate || lia || reflexivity).
Qed.

Lemma persist_unambiguous db collected :
  existsb (ambiguous db) collected = false ->
  collect_api.persist db collected
  = Ok ({| AsyncSession.table :=
             AsyncSession.table db ++ AsyncSession.pending db
             ++ List.filter (is_new db) collected;
           AsyncSession.pending := [] |},
        Z.of_nat (length (List.filter (is_new db) collected))).
Proof.
  intros H. unfold collect_api.persist. rewrite persist_loop_unambiguous.
  - reflexivity.
  - apply forallb_forall. intros x Hx.
    destruct (ambiguous db x) eqn:Hax; [|reflexivity].
    assert (existsb (ambiguous db) collected = true)
      by (apply existsb_exists; eauto).
    congruence.
Qed.

(** X17.  A persist step (the loop, then commit) either stops with
    [MultipleResultsFound], which happens exactly when the table already
    holds the URL of some collected record more than once, or succeeds.  On
    success the table is the old table, then what was pending, then the
    collected records whose URL was not in the old table, in collected order;
    nothing is left pending; existing rows are untouched; and the count it
    reports is the number of rows it added. *)
Theorem persist_outcome (db : AsyncSession.t) (collected : list Demand.t) :
  let added := List.filter (is_new db) collected in
  (existsb (ambiguous db) collected = true ->
   collect_api.persist db collected = Raise MultipleResultsFound)
  /\ (existsb (ambiguous db) collected = false ->
      collect_api.persist db collected
      = Ok ({| AsyncSession.table :=
                 AsyncSession.table db ++ AsyncSession.pending db ++ added;
               AsyncSession.pending := [] |},
            Z.of_nat (length added)))
  /\ (forall d, ambiguous db d = true
        <-> (2 <= length (filter (fun row => Demand.source_url row = Demand.source_url d)
                            (AsyncSession.table db)))%nat)
  /\ (forall d, d ∈ added
        <-> d ∈ collected /\ Demand.source_url d ∉ urls (AsyncSession.table db))
  /\ (length added <= length collected)%nat.
Proof.
  intros added. split; [|split; [|split; [|split]]].
  - intros H. unfold collect_api.persist.
    rewrite (persist_loop_ambiguous _ _ _ H). reflexivity.
  - apply persist_unambiguous.
  - intros d. apply ambiguous_iff.
  - intros d. unfold added.
    rewrite list_elem_of_In, filter_In, <- list_elem_of_In, is_new_iff. reflexivity.
  - apply List.filter_length_le.
Qed.

Lemma persist_outcome_witness :
  exists db',
    collect_api.persist empty_db
      (snd (RedditCollector.collect sample_world None (Some "webdev") "month" 50))
    = Ok (db', 1).
Proof.
  eexists.
  apply (proj1 (proj2 (persist_outcome empty_db
                         (snd (RedditCollector.collect sample_world None (Some "webdev")
                                 "month" 50))))).
  reflexivity.
Defined.

(** X18.  Re-running a batch is idempotent when URLs are distinct: with
    nothing pending, distinct URLs in the table and distinct URLs in the
    batch, the persist step succeeds, the table still has distinct URLs and
    holds the URL of every collected record, and persisting the same batch
    again succeeds, reports 0 and leaves the session as it is. *)
Theorem persist_rerun_is_idempotent (db : AsyncSession.t) (collected : list Demand.t) :
  AsyncSession.pending db = [] ->
  NoDup (urls (AsyncSession.table db)) ->
  NoDup (urls collected) ->
  exists db' n,
    collect_api.persist db collected = Ok (db', n)
    /\ 0 <= n <= Z.of_nat (length collected)
    /\ NoDup (urls (AsyncSession.table db'))
    /\ (forall d, d ∈ collected -> Demand.source_url d ∈ urls (AsyncSession.table db'))
    /\ collect_api.persist db' collected = Ok (db', 0).
Proof.
  intros Hp Ht Hc.
  destruct (persist_distinct_batch db collected Hp Ht Hc) as (db' & n & H1 & H2 & H3 & H4).
  exists db', n. split; [exact H1|]. split; [|auto].
  assert (Hamb : existsb (ambiguous db) collected = false).
  { destruct (existsb (ambiguous db) collected) eqn:He; [|reflexivity].
    apply existsb_exists in He. destruct He as (x & _ & Hx).
    rewrite (distinct_urls_unambiguous db x Ht) in Hx. discriminate Hx. }
  rewrite (persist_unambiguous db collected Hamb) in H1.
  injection H1 as _ <-.
  pose proof (List.filter_length_le (is_new db) collected). lia.
Qed.

Lemma persist_rerun_is_idempotent_witness :
  exists db' n,
    collect_api.persist empty_db
      (snd (RedditCollector.collect sample_world None None "month" 50)) = Ok (db', n)
    /\ collect_api.persist db'
         (snd (RedditCollector.collect sample_world None None "month" 50)) = Ok (db', 0).
Proof.
  destruct (persist_rerun_is_idempotent empty_db
              (snd (RedditCollector.collect sample_world None None "month" 50)))
    as (db' & n & H1 & _ & _ & _ & H2).
  - reflexivity.
  - constructor.
  - apply (bool_decide_unpack _). vm_compute. reflexivity.
  - exists db', n. split; [exact H1|exact H2].
Defined.

(** ** Replies of the trigger and of the convenience endpoints *)

(** X19.  Whatever the request, the settings, the session and the remote
    side, [collect_data] sends no request to a platform, leaves the table as
    it is and never replies with a success report.  It replies 400 exactly
    when the platform is [all] or the platform is Twitter with no bearer
    token, and then returns the session untouched; in every other case it
    replies 500 after a rollback, which discards whatever was pending. *)
Theorem collect_data_replies (w : World) (settings : Settings)
    (request : CollectRequest) (db : AsyncSession.t) :
  let out := collect_api.collect_data w settings request db in
  collect_api.calls out = []
  /\ AsyncSession.table (collect_api.db_after out) = AsyncSession.table db
  /\ exists e, collect_api.reply out = inl e
       /\ (status_code e = 400 \/ status_code e = 500)
       /\ (status_code e = 400
           <-> req_platform request = all
               \/ (req_platform request = twitter /\ twitter_bearer_token settings = ""))
       /\ (status_code e = 400 -> collect_api.db_after out = db)
       /\ (status_code e = 500 ->
           collect_api.db_after out = AsyncSession.rollback db
           /\ AsyncSession.pending (collect_api.db_after out) = []).
Proof.
  destruct request as [p q s r u tf l], settings as [token].
  destruct p; simpl.
  - split; [reflexivity|]. split; [reflexivity|]. eexists. split; [reflexivity|].
    simpl. repeat split; auto; try discriminate. intros [H|[H _]]; discriminate H.
  - split; [reflexivity|]. split; [reflexivity|]. eexists. split; [reflexivity|].
    simpl. repeat split; auto; try discriminate. intros [H|[H _]]; discriminate H.
  - destruct token as [|c token]; simpl.
    + split; [reflexivity|]. split; [reflexivity|]. eexists. split; [reflexivity|].
      simpl. repeat split; auto; discriminate.
    + split; [reflexivity|]. split; [reflexivity|]. eexists. split; [reflexivity|].
      simpl. repeat split; auto; try discriminate. intros [H|[_ H]]; discriminate H.
  - split; [reflexivity|]. split; [reflexivity|]. eexists. split; [reflexivity|].
    simpl. repeat split; auto; discriminate.
Qed.

Lemma collect_data_replies_witness :
  collect_api.db_after
    (collect_api.collect_data sample_world {| twitter_bearer_token := "" |}
       {| req_platform := all; req_query := None; req_subreddit := None;
          req_repo := None; req_user := None; req_time_filter := month;
          req_limit := 50 |} empty_db)
  = empty_db.
Proof.
  destruct (collect_data_replies sample_world {| twitter_bearer_token := "" |}
              {| req_platform := all; req_query := None; req_subreddit := None;
                 req_repo := None; req_user := None; req_time_filter := month;
                 req_limit := 50 |} empty_db)
    as (_ & _ & e & He & _ & _ & H400 & _).
  apply H400. injection He as <-. reflexivity.
Defined.

(** X20.  The convenience endpoints.  Each rejects a [limit] outside 1..200
    with a validation error before any collector is built.  With a limit in
    range it runs [collect_data] on a request holding the given fields, the
    other targets unset and, for GitHub and Twitter, the time filter "month";
    so the Reddit and GitHub endpoints reply 500, the Twitter endpoint
    replies 400 without a bearer token and 500 with one, and none sends a
    request. *)
Theorem convenience_endpoints (w : World) (settings : Settings)
    (query target : option string) (time_filter : TimeFilterEnum) (limit : Z)
    (db : AsyncSession.t) :
  (limit < 1 \/ 200 < limit ->
   collect_api.collect_from_reddit w settings query target time_filter limit db
   = collect_api.ValidationError "limit"
   /\ collect_api.collect_from_github w settings query target limit db
      = collect_api.ValidationError "limit"
   /\ collect_api.collect_from_twitter w settings query target limit db
      = collect_api.ValidationError "limit")
  /\ (1 <= limit <= 200 ->
      collect_api.collect_from_reddit w settings query target time_filter limit db
      = collect_api.Valid (collect_api.collect_data w settings
                 {| req_platform := reddit; req_query := query; req_subreddit := target;
                    req_repo := None; req_user := None; req_time_filter := time_filter;
                    req_limit := limit |} db)
      /\ collect_api.collect_from_github w settings query target limit db
         = collect_api.Valid (collect_api.collect_data w settings
                    {| req_platform := github_; req_query := query; req_subreddit := None;
                       req_repo := target; req_user := None; req_time_filter := month;
                       req_limit := limit |} db)
      /\ collect_api.collect_from_twitter w settings query target limit db
         = collect_api.Valid (collect_api.collect_data w settings
                    {| req_platform := twitter; req_query := query; req_subreddit := None;
                       req_repo := None; req_user := target; req_time_filter := month;
                       req_limit := limit |} db)
      /\ (exists out detail,
            collect_api.collect_from_reddit w settings query target time_filter limit db
            = collect_api.Valid out
            /\ collect_api.calls out = []
            /\ collect_api.reply out = inl {| status_code := 500; detail := detail |})
      /\ (exists out detail,
            collect_api.collect_from_github w settings query target limit db = collect_api.Valid out
            /\ collect_api.calls out = []
            /\ collect_api.reply out = inl {| status_code := 500; detail := detail |})
      /\ (exists out detail,
            collect_api.collect_from_twitter w settings query target limit db = collect_api.Valid out
            /\ collect_api.calls out = []
            /\ collect_api.reply out
               = inl {| status_code :=
                          if String.eqb (twitter_bearer_token settings) "" then 400 else 500;
                        detail := detail |})).
Proof.
  unfold collect_api.collect_from_reddit, collect_api.collect_from_github,
    collect_api.collect_from_twitter, collect_api.new_CollectRequest.
  split.
  - intros H.
    assert (Hr : (1 <=? limit) && (limit <=? 200) = false).
    { apply andb_false_iff. destruct H; [left; apply Z.leb_gt|right; apply Z.leb_gt]; lia. }
    rewrite Hr. repeat split.
  - intros H.
    assert (Hr : (1 <=? limit) && (limit <=? 200) = true).
    { apply andb_true_iff. split; apply Z.leb_le; lia. }
    rewrite Hr. unfold collect_api.then_collect.
    split; [reflexivity|]. split; [reflexivity|]. split; [reflexivity|].
    split; [|split].
    + eexists. eexists. split; [reflexivity|]. split; reflexivity.
    + eexists. eexists. split; [reflexivity|]. split; reflexivity.
    + destruct settings as [[|c token]]; eexists; eexists;
        (split; [reflexivity|]); split; reflexivity.
Qed.

Lemma convenience_endpoints_witness :
  collect_api.collect_from_github sample_world {| twitter_bearer_token := "" |}
    (Some "dark mode") None 201 empty_db
  = collect_api.ValidationError "limit".
Proof.
  apply (proj1 (convenience_endpoints sample_world {| twitter_bearer_token := "" |}
                  (Some "dark mode") None month 201 empty_db)).
  right. lia.
Defined.

(** ** The advertised sources and the sweep *)

Ltac not_in_literal H :=
  repeat (apply elem_of_cons in H; destruct H as [H|H]; [discriminate H|]);
  inversion H.

(** X21.  [get_subreddit_list] and [get_popular_repos] list every curated
    source once, each with the URL "https://reddit.com/r/" (respectively
    "https://github.com/") followed by its name.  A default sweep requests
    only advertised sources, the first five of the list in list order, and
    none of them twice. *)
Theorem advertised_sources (w : World) (query target : option string)
    (time_filter state : string) (limit : Z) :
  map info_name RedditCollector.get_subreddit_list = RedditCollector.subreddits
  /\ map info_name GitHubCollector.get_popular_repos = GitHubCollector.popular_repos
  /\ Forall (fun e => info_url e = "https://reddit.com/r/" +:+ info_name e)
       RedditCollector.get_subreddit_list
  /\ Forall (fun e => info_url e = "https://github.com/" +:+ info_name e)
       GitHubCollector.get_popular_repos
  /\ NoDup (map info_name RedditCollector.get_subreddit_list)
  /\ NoDup (map info_name GitHubCollector.get_popular_repos)
  /\ (Py.truthy target = false -> Py.truthy query = false ->
      fst (RedditCollector.collect w query target time_filter limit)
      = map (fun e => RedditNew (info_name e) (limit / 5))
          (take 5 RedditCollector.get_subreddit_list)
      /\ fst (GitHubCollector.collect w query target state limit)
         = map (fun e => GitHubGetIssues (info_name e) state)
             (take 5 GitHubCollector.get_popular_repos)
      /\ NoDup (fst (RedditCollector.collect w query target time_filter limit))
      /\ NoDup (fst (GitHubCollector.collect w query target state limit))).
Proof.
  split; [reflexivity|]. split; [reflexivity|].
  split; [repeat constructor|]. split; [repeat constructor|].
  split; [apply (bool_decide_unpack _); vm_compute; reflexivity|].
  split; [apply (bool_decide_unpack _); vm_compute; reflexivity|].
  intros Ht Hq.
  assert (Hr : fst (RedditCollector.collect w query target time_filter limit)
               = map (fun e => RedditNew (info_name e) (limit / 5))
                   (take 5 RedditCollector.get_subreddit_list)).
  { unfold RedditCollector.collect, RedditCollector._collect_from_subreddit.
    rewrite Ht, Hq. reflexivity. }
  assert (Hg : fst (GitHubCollector.collect w query target state limit)
               = map (fun e => GitHubGetIssues (info_name e) state)
                   (take 5 GitHubCollector.get_popular_repos)).
  { unfold GitHubCollector.collect. rewrite Ht, Hq. reflexivity. }
  split; [exact Hr|]. split; [exact Hg|]. rewrite Hr, Hg. simpl. split.
  - repeat (apply NoDup_cons; split; [intros H; not_in_literal H|]). constructor.
  - repeat (apply NoDup_cons; split; [intros H; not_in_literal H|]). constructor.
Qed.

Lemma advertised_sources_witness :
  NoDup (fst (RedditCollector.collect sample_world None None "month" 50)).
Proof.
  destruct (proj2 (proj2 (proj2 (proj2 (proj2 (proj2
              (advertised_sources sample_world None None "month" "open" 50))))))
              eq_refl eq_refl) as (_ & _ & H & _).
  exact H.
Defined.

(** ** When an item is dropped *)

Lemma of_int_not_infinite n y s : PyFloat.of_int n = Ok y -> y <> S754_infinity s.
Proof.
  unfold PyFloat.of_int.
  destruct (binary_normalize PyFloat.prec PyFloat.emax n 0 false);
    intros [= <-]; discriminate.
Qed.

Lemma non_finite_ratio_raises (s : praw.Submission) :
  (praw.upvote_ratio s = S754_nan \/ exists sign, praw.upvote_ratio s = S754_infinity sign) ->
  exists e, RedditCollector.interaction_score_of s = Raise e.
Proof.
  intros Hratio. unfold RedditCollector.interaction_score_of, PyFloat.mul_int, PyFloat.add_int.
  destruct (PyFloat.of_int (praw.score s)) as [y|e] eqn:Hy; simpl; [|eauto].
  destruct (PyFloat.of_int (praw.num_comments s * 2)) as [z|e] eqn:Hz; simpl; [|eauto].
  assert (Hprod : PyFloat.mul (praw.upvote_ratio s) y = S754_nan
                  \/ exists sign, PyFloat.mul (praw.upvote_ratio s) y = S754_infinity sign).
  { destruct Hratio as [->|[sign ->]]; [left; reflexivity|].
    destruct y as [sy|sy| |sy my ey]; simpl; eauto. }
  assert (Hsum : PyFloat.add (PyFloat.mul (praw.upvote_ratio s) y) z = S754_nan
                 \/ exists sign,
                      PyFloat.add (PyFloat.mul (praw.upvote_ratio s) y) z
                      = S754_infinity sign).
  { destruct Hprod as [->|[sign ->]]; [left; reflexivity|].
    destruct z as [sz|sz| |sz mz ez]; simpl; eauto.
    exfalso. apply (of_int_not_infinite _ _ sz Hz). reflexivity. }
  destruct Hsum as [->|[sign ->]]; simpl; eauto.
Qed.

(** X22.  Which items are dropped.  A Reddit submission yields a record
    exactly when it has a category, its score converts to an integer and its
    creation time converts; one whose upvote ratio is NaN or infinite never
    yields a record, whatever its text.  A tweet yields a record exactly
    when it has a category, it carries no mention and its metrics are
    present: a tweet with a category is also dropped when [entities] lists a
    mention or [public_metrics] is [None].  A GitHub issue never yields a
    record: without a category it is rejected, with one it fails on
    [issue.reactions.total_count]. *)
Theorem items_dropped_only_for_a_reason (w : World) (self : TwitterCollector.t) :
  (forall i o, GitHubCollector._parse_issue w i o = None)
  /\ (forall i o,
      GitHubCollector.parse_issue_body w i o = Ok None
      <-> GitHubCollector._categorize_issue (GitHubCollector.content_of i)
            (github.title i) (github.labels i) = None)
  /\ (forall tw o,
      TwitterCollector._parse_tweet self tw o = None
      <-> TwitterCollector._categorize_tweet (tweepy.text tw) = None
          \/ tweet_mentions tw <> []
          \/ tweepy.public_metrics tw = None)
  /\ (forall tw o,
      TwitterCollector.parse_tweet_body self tw o = Ok None
      <-> TwitterCollector._categorize_tweet (tweepy.text tw) = None)
  /\ (forall s o,
      RedditCollector._parse_submission w s o = None
      <-> RedditCollector._categorize_post (RedditCollector.content_of s) (praw.title s)
          = None
          \/ (exists e, RedditCollector.interaction_score_of s = Raise e)
          \/ (exists e, fromtimestamp w (praw.created_utc s) = Raise e))
  /\ (forall s o,
      (praw.upvote_ratio s = S754_nan
       \/ exists sign, praw.upvote_ratio s = S754_infinity sign) ->
      RedditCollector._parse_submission w s o = None).
Proof.
  assert (Hreddit : forall s o,
      RedditCollector._parse_submission w s o = None
      <-> RedditCollector._categorize_post (RedditCollector.content_of s) (praw.title s)
          = None
          \/ (exists e, RedditCollector.interaction_score_of s = Raise e)
          \/ (exists e, fromtimestamp w (praw.created_utc s) = Raise e)).
  { intros s o.
    unfold RedditCollector._parse_submission, RedditCollector.parse_submission_body.
    destruct (RedditCollector._categorize_post _ _) as [c|]; [|simpl; tauto].
    destruct (RedditCollector._analyze_sentiment w _) as [sent sc].
    destruct (RedditCollector.interaction_score_of s) as [n|e]; simpl;
      [|split; [eauto|reflexivity]].
    destruct (fromtimestamp w _) as [t|e]; simpl.
    - split; [discriminate|]. intros [H|[[e H]|[e H]]]; discriminate H.
    - split; [eauto|reflexivity]. }
  split; [intros i o; apply github_parse_none|].
  split; [|split; [|split; [|split; [exact Hreddit|]]]].
  - intros i o. rewrite github_parse_body.
    destruct (GitHubCollector._categorize_issue _ _ _) as [c|]; split;
      (discriminate || reflexivity).
  - intros tw o. split.
    + intros Hnone.
      destruct (TwitterCollector._categorize_tweet (tweepy.text tw)) as [c|] eqn:Hc;
        [|left; reflexivity].
      destruct (tweet_mentions tw) as [|m rest] eqn:Hm; [|right; left; discriminate].
      destruct (tweepy.public_metrics tw) as [metrics|] eqn:Hmetrics;
        [|right; right; reflexivity].
      destruct (twitter_parse_exists self tw o c metrics Hc Hm Hmetrics) as (r & Hr).
      rewrite Hr in Hnone. discriminate Hnone.
    + intros [Hc|[Hm|Hmetrics]].
      * unfold TwitterCollector._parse_tweet, TwitterCollector.parse_tweet_body.
        rewrite Hc. reflexivity.
      * destruct (tweet_mentions tw) as [|m rest] eqn:Heq; [congruence|].
        apply (twitter_parse_mentions self tw o m rest Heq).
      * apply twitter_parse_no_metrics, Hmetrics.
  - intros tw o. unfold TwitterCollector.parse_tweet_body.
    destruct (TwitterCollector._categorize_tweet _) as [c|]; [|tauto].
    destruct (TwitterCollector._analyze_sentiment self _) as [sent sc].
    destruct (TwitterCollector._extract_product_mentions _ _) as [products|e];
      cbn [rbind]; [|split; discriminate].
    destruct (tweepy.public_metrics tw) as [metrics|]; cbn [rbind]; split; discriminate.
  - intros s o Hratio. apply Hreddit. right. left.
    apply non_finite_ratio_raises, Hratio.
Qed.

Lemma items_dropped_only_for_a_reason_witness :
  RedditCollector._parse_submission sample_world
    {| praw.selftext := praw.selftext sample_submission;
       praw.title := praw.title sample_submission;
       praw.upvote_ratio := S754_nan;
       praw.score := 100; praw.num_comments := 10;
       praw.permalink := praw.permalink sample_submission;
       praw.author := None; praw.created_utc := 0; praw.subreddit := "webdev" |}
    None = None.
Proof.
  apply (proj2 (proj2 (proj2 (proj2 (proj2
           (items_dropped_only_for_a_reason sample_world
              (TwitterCollector.__init__ sample_world
                 {| twitter_bearer_token := "" |}))))))).
  left. reflexivity.
Defined.
